(** * cfyouxuan: the Cloudflare address collector worker

    A shallow embedding of the worker script [src/_worker.js] and of its two
    rewrites [src/unnamed/part_000] and [src/unnamed/part_001]:

    - the address validator [isValidIPv4];
    - the harvester [updateAllIPs] (pattern extraction, validation,
      de-duplication through a [Set], numeric ordering);
    - the ranking run [autoSpeedTestAndStore];
    - the admin gate [verifyAdmin] with the token handlers
      [handleAdminToken] and [handleAdminStatus].

    JavaScript strings are Rocq [string]s (one character per code unit below
    U+0100), numbers that the code keeps integral are [Z], and [NaN] is the
    [None] of an [option Z].  The key-value namespace [IP_STORAGE], the
    clock and the network are explicit: the namespace and the clock live in
    a [World] threaded through a state-and-exception monad, the network is
    an oracle passed to the function that fetches. *)

From Stdlib Require Import ZArith List String Ascii Bool Lia Sorted Permutation.
From stdpp Require Import gmap strings.
Import ListNotations.

Local Open Scope string_scope.
Local Open Scope Z_scope.

(* ===================================================================== *)
(** * JavaScript primitives used by the worker                            *)
(* ===================================================================== *)

Module JS.

Definition code (c : ascii) : Z := Z.of_nat (nat_of_ascii c).

Definition isDigit (c : ascii) : bool := (48 <=? code c) && (code c <=? 57).

(** [\w] of a regular expression without the [u] flag: [A-Za-z0-9_]. *)
Definition isWordChar (c : ascii) : bool :=
  isDigit c
  || ((65 <=? code c) && (code c <=? 90))
  || ((97 <=? code c) && (code c <=? 122))
  || (code c =? 95).

(** White space and line terminators that [parseInt], [Number] and [trim]
    strip, among the code units below U+0100. *)
Definition isWhiteSpace (c : ascii) : bool :=
  ((9 <=? code c) && (code c <=? 13)) || (code c =? 32) || (code c =? 160).

(** The value of [c] as a digit of the given radix (10 or 16). *)
Definition digitValue (radix : Z) (c : ascii) : option Z :=
  if isDigit c then Some (code c - 48)
  else if (radix =? 16) && (97 <=? code c) && (code c <=? 102) then Some (code c - 87)
  else if (radix =? 16) && (65 <=? code c) && (code c <=? 70) then Some (code c - 55)
  else None.

Fixpoint skipWhiteSpace (s : string) : string :=
  match s with
  | String c r => if isWhiteSpace c then skipWhiteSpace r else s
  | EmptyString => s
  end.

(** The longest prefix of [s] made of digits of [radix], read as a number;
    [acc] is [None] until a digit is seen. *)
Fixpoint digitsPrefix (radix : Z) (acc : option Z) (s : string) : option Z :=
  match s with
  | String c r =>
      match digitValue radix c with
      | Some d =>
          digitsPrefix radix
            (Some (radix * match acc with Some a => a | None => 0 end + d)) r
      | None => acc
      end
  | EmptyString => acc
  end.

(** The sign that [parseInt] strips: [(negative, rest)]. *)
Definition stripSign (s : string) : bool * string :=
  match s with
  | String c r =>
      if Ascii.eqb c "-" then (true, r)
      else if Ascii.eqb c "+" then (false, r)
      else (false, s)
  | EmptyString => (false, s)
  end.

(** The digits after a [0x] or [0X] prefix, if [s] has one. *)
Definition hexPrefix (s : string) : option string :=
  match s with
  | String c0 (String c1 h) =>
      if Ascii.eqb c0 "0" && (Ascii.eqb c1 "x" || Ascii.eqb c1 "X")
      then Some h else None
  | _ => None
  end.

Definition applySign (neg : bool) (v : option Z) : option Z :=
  match v with
  | Some n => Some (if neg then - n else n)
  | None => None
  end.

(** [parseInt(s, 10)]: leading white space, an optional sign, then the
    longest run of decimal digits; [None] is [NaN]. *)
Definition parseInt10 (s : string) : option Z :=
  let (neg, r) := stripSign (skipWhiteSpace s) in
  applySign neg (digitsPrefix 10 None r).

(** [parseInt(s)] with no radix: as [parseInt10], but a [0x] or [0X] after
    the sign selects radix 16. *)
Definition parseInt (s : string) : option Z :=
  let (neg, r) := stripSign (skipWhiteSpace s) in
  match hexPrefix r with
  | Some h => applySign neg (digitsPrefix 16 None h)
  | None => applySign neg (digitsPrefix 10 None r)
  end.

Fixpoint rev_string (acc s : string) : string :=
  match s with
  | EmptyString => acc
  | String c r => rev_string (String c acc) r
  end.

(** [s.trim()]. *)
Definition trim (s : string) : string :=
  rev_string EmptyString
    (skipWhiteSpace (rev_string EmptyString (skipWhiteSpace s))).

Fixpoint allDigits (radix : Z) (s : string) : bool :=
  match s with
  | EmptyString => true
  | String c r =>
      match digitValue radix c with
      | Some _ => allDigits radix r
      | None => false
      end
  end.

(** [Number(s)] for the integer literals: white space around, then nothing
    (which is [0]), a signed run of decimal digits, or an unsigned [0x]
    literal.  Every other text is [NaN] here; the literals with a fraction,
    an exponent, a [0o] or [0b] prefix or [Infinity], which [Number] also
    reads, are outside this model.  The harvester applies [Number] to runs
    of decimal digits only. *)
Definition Number_ (s : string) : option Z :=
  let t := trim s in
  match t with
  | EmptyString => Some 0
  | String _ _ =>
      match hexPrefix t with
      | Some h => if allDigits 16 h then digitsPrefix 16 None h else None
      | None =>
          let (neg, r) := stripSign t in
          if allDigits 10 r then applySign neg (digitsPrefix 10 None r) else None
      end
  end.

(** [s.split(sep)] for a one-character separator. *)
Fixpoint split (sep : ascii) (s : string) : list string :=
  match s with
  | EmptyString => [EmptyString]
  | String c r =>
      if Ascii.eqb c sep then EmptyString :: split sep r
      else match split sep r with
           | p :: ps => String c p :: ps
           | [] => [String c EmptyString]
           end
  end.

(** [s.startsWith(p)]. *)
Definition startsWith (s p : string) : bool := String.prefix p s.

(** [s.slice(n)] for [0 <= n]. *)
Fixpoint slice_from (n : nat) (s : string) : string :=
  match n, s with
  | O, _ => s
  | S k, String _ r => slice_from k r
  | S _, EmptyString => EmptyString
  end.

(** Truthiness of a string that may be [null] or [undefined]. *)
Definition truthy (s : option string) : bool :=
  match s with
  | Some EmptyString | None => false
  | Some _ => true
  end.

(** [a || b] on strings that may be [null]. *)
Definition orElse (a b : option string) : option string :=
  if truthy a then a else b.

(** [x === y] on strings that may be [null]. *)
Definition strictEq (x y : option string) : bool :=
  match x, y with
  | Some a, Some b => String.eqb a b
  | None, None => true
  | _, _ => false
  end.

(** [a[i]] of an array of numbers: [None] is [undefined], [Some None] is
    [NaN]. *)
Definition index (a : list (option Z)) (i : nat) : option (option Z) :=
  nth_error a i.

(** [x !== y] on two such values. *)
Definition strictNeq (x y : option (option Z)) : bool :=
  match x, y with
  | None, None => false
  | Some (Some a), Some (Some b) => negb (a =? b)
  | _, _ => true
  end.

(** [x - y]: [NaN] as soon as one side is [undefined] or [NaN]. *)
Definition minus (x y : option (option Z)) : option Z :=
  match x, y with
  | Some (Some a), Some (Some b) => Some (a - b)
  | _, _ => None
  end.

(** [lo <= x && x <= hi] for a number that may be [NaN]. *)
Definition between (x : option Z) (lo hi : Z) : bool :=
  match x with
  | Some n => (lo <=? n) && (n <=? hi)
  | None => false
  end.

(** ** [Array.prototype.sort] with a comparison function

    The sort is stable.  A comparison result of [NaN] counts as [0].  For a
    comparison function that is a total preorder the result is the one of a
    stable insertion sort, which is the model here. *)
Section Sort.
Context {A : Type} (comparefn : A -> A -> option Z).

Definition SortCompare (x y : A) : Z :=
  match comparefn x y with
  | Some v => v
  | None => 0
  end.

Fixpoint sort_insert (x : A) (l : list A) : list A :=
  match l with
  | [] => [x]
  | y :: l' => if SortCompare x y <=? 0 then x :: l else y :: sort_insert x l'
  end.

Fixpoint sort (l : list A) : list A :=
  match l with
  | [] => []
  | x :: l' => sort_insert x (sort l')
  end.
End Sort.

(** ** [Set] of strings, in insertion order *)
Definition Set_has (s : list string) (x : string) : bool :=
  existsb (String.eqb x) s.

Definition Set_add (s : list string) (x : string) : list string :=
  if Set_has s x then s else s ++ [x].

(** [a.slice(i, j)] of an array. *)
Definition array_slice {A : Type} (i j : nat) (a : list A) : list A :=
  firstn (j - i) (skipn i a).

(** ** The batched [for] loop

    [for (let i = 0; i < a.length; i += size) { body(a.slice(i, i + size)) }]
    with the loop state threaded through [body].  [fuel] bounds the number
    of rounds; [List.length a] rounds are always enough for [0 < size]. *)
Fixpoint forBatches {A S : Type} (size : nat) (body : list A -> S -> S)
  (a : list A) (fuel i : nat) (st : S) : S :=
  match fuel with
  | O => st
  | S fuel' =>
      if (i <? List.length a)%nat
      then forBatches size body a fuel' (i + size)
             (body (array_slice i (i + size) a) st)
      else st
  end.

(** ** Regular expressions

    The fragment the worker's pattern is written in, with the backtracking
    semantics of the language: a greedy bounded repetition tries one more
    iteration before it lets the rest of the pattern run, and the first
    success wins.  [prev] tells whether the character before the current
    position is a word character ([false] at the start of the input). *)
Inductive regex : Type :=
| RDigit                          (* [0-9] *)
| RLit (c : ascii)                (* an escaped literal character *)
| RBoundary                       (* \b *)
| RSeq (a b : regex)
| RRepeat (lo hi : nat) (a : regex).   (* a{lo,hi}, greedy *)

Definition nextIsWord (s : string) : bool :=
  match s with
  | String c _ => isWordChar c
  | EmptyString => false
  end.

Fixpoint rmatch (r : regex) (prev : bool) (s : string)
  (k : bool -> string -> option string) : option string :=
  match r with
  | RDigit =>
      match s with
      | String c s' => if isDigit c then k (isWordChar c) s' else None
      | EmptyString => None
      end
  | RLit a =>
      match s with
      | String c s' => if Ascii.eqb c a then k (isWordChar c) s' else None
      | EmptyString => None
      end
  | RBoundary => if xorb prev (nextIsWord s) then k prev s else None
  | RSeq a b => rmatch a prev s (fun p s' => rmatch b p s' k)
  | RRepeat lo hi a =>
      (fix rep (n lo : nat) (prev : bool) (s : string)
           (k : bool -> string -> option string) {struct n} : option string :=
         match n with
         | O => match lo with O => k prev s | S _ => None end
         | S n' =>
             match lo with
             | S lo' => rmatch a prev s (fun p s' => rep n' lo' p s' k)
             | O =>
                 match rmatch a prev s (fun p s' => rep n' O p s' k) with
                 | Some rest => Some rest
                 | None => k prev s
                 end
             end
         end) hi lo prev s k
  end.

(** One attempt at the current position: the matched text. *)
Definition exec_at (r : regex) (prev : bool) (s : string) : option string :=
  match rmatch r prev s (fun _ rest => Some rest) with
  | Some rest => Some (String.substring 0 (String.length s - String.length rest) s)
  | None => None
  end.

(** The scan of a global match: an attempt at each position from the left,
    resumed after the end of every match; [skip] counts the characters of
    the last match still to pass. *)
Fixpoint scan (r : regex) (prev : bool) (skip : nat) (s : string) : list string :=
  match s with
  | EmptyString => []
  | String c rest =>
      match skip with
      | S n => scan r (isWordChar c) n rest
      | O =>
          match exec_at r prev s with
          | Some m => m :: scan r (isWordChar c) (String.length m - 1) rest
          | None => scan r (isWordChar c) O rest
          end
      end
  end.

(** [s.match(r) || []] for a pattern with the [g] flag. *)
Definition String_match (r : regex) (s : string) : list string :=
  scan r false O s.

End JS.

(* ===================================================================== *)
(** * The address validator and the harvester of [src/_worker.js]         *)
(* ===================================================================== *)

(** The outcome of one source: [fetchURLWithTimeout] resolves with the text
    of a 2xx response, and rejects (time-out, transport failure, other
    status) with an error whose message is kept. *)
Inductive FetchOutcome : Type :=
| Fulfilled (content : string)
| Rejected (message : string).

Inductive SourceStatus : Type := success | error.

Record SourceReport : Type := mkSourceReport {
  sr_name : string;
  sr_status : SourceStatus;
  sr_count : option nat;       (* absent in the error reports of the rewrites *)
  sr_error : option string
}.

(** What [updateAllIPs] returns. *)
Record Harvest : Type := mkHarvest {
  uniqueIPs : list string;
  results : list SourceReport
}.

(** [/\b(?:[0-9]{1,3}\.){3}[0-9]{1,3}\b/gi] *)
Definition ipPattern : JS.regex :=
  JS.RSeq JS.RBoundary
    (JS.RSeq
       (JS.RRepeat 3 3 (JS.RSeq (JS.RRepeat 1 3 JS.RDigit) (JS.RLit ".")))
       (JS.RSeq (JS.RRepeat 1 3 JS.RDigit) JS.RBoundary)).

(** [new URL(url)] for the [https://host/path] addresses of the source list:
    [(hostname, pathname)], or [None] where the constructor throws. *)
Fixpoint splitAtSlash (s : string) : string * string :=
  match s with
  | EmptyString => (EmptyString, "/")
  | String c r =>
      if Ascii.eqb c "/" then (EmptyString, s)
      else let (h, p) := splitAtSlash r in (String c h, p)
  end.

Definition parseURL (url : string) : option (string * string) :=
  if JS.startsWith url "https://" then Some (splitAtSlash (JS.slice_from 8 url))
  else if JS.startsWith url "http://" then Some (splitAtSlash (JS.slice_from 7 url))
  else None.


(* ===================================================================== *)
(** * The world of a request: storage, clock, faults                      *)
(* ===================================================================== *)

(** The record under the key [token_config]. [expires], [createdAt] and
    [lastUsed] are instants in milliseconds since the epoch (the code keeps
    their ISO texts); [neverExpire] is the truthiness of the field, which the
    record written at login does not have. *)
Record TokenConfig : Type := mkTokenConfig {
  token : string;
  expires : Z;
  createdAt : Z;
  lastUsed : option Z;
  neverExpire : bool
}.

Definition set_lastUsed (c : TokenConfig) (t : Z) : TokenConfig :=
  mkTokenConfig (token c) (expires c) (createdAt c) (Some t) (neverExpire c).

Record LatencyResult : Type := mkLatencyResult {
  ip : string;
  latency : Z
}.

(** The record under the key [cloudflare_fast_ips]; [testedCount] and
    [totalIPs] are written by [src/_worker.js] only. *)
Record FastSet : Type := mkFastSet {
  fastIPs : list LatencyResult;
  lastTested : Z;
  count : nat;
  testedCount : option nat;
  totalIPs : option nat
}.

(** The namespace [IP_STORAGE] as the modelled functions see it: the session
    entries by their full key [session_<id>] with their text, and the two
    documents in parsed form.  [now] is the reading of the clock while the
    request runs.  [faults] tells, for each storage operation to come,
    whether it throws (a missing flag means it does not); [thrown] counts
    the operations that threw. *)
Record World : Type := mkWorld {
  kv_sessions : gmap string string;
  kv_token_config : option TokenConfig;
  kv_fast_ips : option FastSet;
  now : Z;
  faults : list bool;
  thrown : nat
}.

Definition set_faults (w : World) (f : list bool) : World :=
  mkWorld (kv_sessions w) (kv_token_config w) (kv_fast_ips w) (now w) f (thrown w).

Definition raise_fault (w : World) (f : list bool) : World :=
  mkWorld (kv_sessions w) (kv_token_config w) (kv_fast_ips w) (now w) f (S (thrown w)).

Definition set_token_config (c : TokenConfig) (w : World) : World :=
  mkWorld (kv_sessions w) (Some c) (kv_fast_ips w) (now w) (faults w) (thrown w).

Definition set_fast_ips (f : FastSet) (w : World) : World :=
  mkWorld (kv_sessions w) (kv_token_config w) (Some f) (now w) (faults w) (thrown w).

(** ** Asynchronous functions: state and exceptions *)

Inductive Outcome (A : Type) : Type :=
| Returned (a : A)
| Threw (message : string).
Arguments Returned {A} a.
Arguments Threw {A} message.

Definition M (A : Type) : Type := World -> Outcome A * World.

Definition ret {A : Type} (a : A) : M A := fun w => (Returned a, w).

Definition bind {A B : Type} (m : M A) (f : A -> M B) : M B :=
  fun w =>
    match m w with
    | (Returned a, w') => f a w'
    | (Threw e, w') => (Threw e, w')
    end.

(** [try { m } catch (error) { handler(error.message) }] *)
Definition try_catch {A : Type} (m : M A) (handler : string -> M A) : M A :=
  fun w =>
    match m w with
    | (Returned a, w') => (Returned a, w')
    | (Threw e, w') => handler e w'
    end.

Notation "'do' x <- m ; k" := (bind m (fun x => k))
  (at level 10, x name, m at level 100, k at level 200).

Definition Date_now : M Z := fun w => (Returned (now w), w).

(** [new Date(t).toISOString()]: a time value outside the range of [Date]
    is an invalid date, and the call throws. *)
Definition MAX_TIME : Z := 8640000000000000.

Definition toISOString (t : option Z) : M Z :=
  fun w =>
    match t with
    | Some v =>
        if (- MAX_TIME <=? v) && (v <=? MAX_TIME) then (Returned v, w)
        else (Threw "Invalid time value", w)
    | None => (Threw "Invalid time value", w)
    end.

Definition throw {A : Type} (message : string) : M A :=
  fun w => (Threw message, w).

(** One operation of the namespace: it throws when the next fault flag says
    so, and otherwise reads with [read] and writes with [write]. *)
Definition storage {A : Type} (read : World -> A) (write : World -> World) : M A :=
  fun w =>
    match faults w with
    | true :: rest => (Threw "KV", raise_fault w rest)
    | _ => (Returned (read w), write (set_faults w (tl (faults w))))
    end.

(** [env.IP_STORAGE.get(`session_${id}`)] *)
Definition get_session (id : string) : M (option string) :=
  storage (fun w => kv_sessions w !! ("session_" ++ id)%string) (fun w => w).

(** [const session = await env.IP_STORAGE.get(`session_${id}`)] and the
    test [if (session)]. *)
Definition lookupSession (id : string) : M bool :=
  do session <- get_session id;
  ret (JS.truthy session).

(** [env.IP_STORAGE.get('token_config')] followed by [JSON.parse]. *)
Definition get_token_config : M (option TokenConfig) :=
  storage kv_token_config (fun w => w).

(** [env.IP_STORAGE.put('token_config', JSON.stringify(c))] *)
Definition put_token_config (c : TokenConfig) : M unit :=
  storage (fun _ => tt) (set_token_config c).

(** [env.IP_STORAGE.put('cloudflare_fast_ips', JSON.stringify(f))] *)
Definition put_fast_ips (f : FastSet) : M unit :=
  storage (fun _ => tt) (set_fast_ips f).

(** ** Requests, environment, responses *)

(** The body of a token rotation as the dashboard posts it:
    [{ token, expiresDays, neverExpire }].  [req_token] is [None] for a
    token that is absent or [null].  [req_expiresDays] is [None] for a
    number of days that is absent: [undefined], which the product with the
    milliseconds of a day turns into [NaN].  A number of days that is [null]
    is [Some 0]: the handlers test it ([!expiresDays]), compare it and
    multiply it, and [null] is [0] in each of these. *)
Record TokenRequest : Type := mkTokenRequest {
  req_token : option string;
  req_expiresDays : option Z;
  req_neverExpire : bool
}.

Record Request : Type := mkRequest {
  method : string;
  pathname : string;
  searchParams : list (string * string);
  authorization : option string;      (* headers.get('Authorization') *)
  json : option TokenRequest          (* request.json(); None where it rejects *)
}.

(** [url.searchParams.get(name)] *)
Fixpoint searchParams_get (params : list (string * string)) (name : string)
  : option string :=
  match params with
  | [] => None
  | (k, v) :: rest => if String.eqb k name then Some v else searchParams_get rest name
  end.

Record Env : Type := mkEnv {
  ADMIN_PASSWORD : option string;
  IP_STORAGE_bound : bool
}.

(** The error texts of the JSON bodies [{ error: ... }]. *)
Inductive ErrorText : Type :=
| NeedAdmin            (* the request is not authorized *)
| TokenEmpty           (* the token must not be empty *)
| ExpiryEmpty          (* the expiry must not be empty *)
| ExpiryOutOfRange     (* the expiry must be between 1 and 365 days *)
| MethodNotAllowed
| EndpointNotFound
| ErrorMessage (message : string).   (* error.message of a caught error *)

Inductive ResponseBody : Type :=
| ErrorBody (e : ErrorText)                          (* { error } *)
| TokenConfigBody (c : option TokenConfig)           (* { tokenConfig } *)
| TokenUpdatedBody (c : TokenConfig)                 (* { success: true, tokenConfig, ... } *)
| AdminStatusBody (hasAdminPassword : bool) (hasToken : option bool)
    (c : option TokenConfig)                         (* { hasAdminPassword, hasToken?, tokenConfig } *)
| NotBoundBody                                       (* the plain text of the unbound namespace *)
| NoBody.

Record Response : Type := mkResponse {
  status : Z;
  body : ResponseBody
}.

Definition jsonResponse (data : ResponseBody) (status : Z) : Response :=
  mkResponse status data.

Definition handleCORS : Response := mkResponse 200 NoBody.

(** What the entry point [fetch] hands back for a request. *)
Inductive Served : Type :=
| Respond (r : Response)
| Undefined          (* the handler returned without a response *)
| NotModelled.       (* the route of a handler outside this model *)

Definition known_routes : list string :=
  ["/"; "/update"; "/ips"; "/ip.txt"; "/raw"; "/speedtest"; "/itdog-data";
   "/fast-ips"; "/fast-ips.txt"; "/admin-login"; "/admin-logout"].

(** ** The network seen by a latency probe

    The probe of one address either gets a response, [ok] or not, after
    [elapsed] milliseconds, or fails (time-out, transport error). *)
Inductive ProbeOutcome : Type :=
| Responded (ok : bool) (elapsed : Z)
| Failed (message : string).

Module Worker.

Definition FAST_IP_COUNT : nat := 25.
Definition AUTO_TEST_MAX_IPS : nat := 200.

(** The loop body of [isValidIPv4] for one part. *)
Definition partOk (part : string) : bool :=
  match JS.parseInt10 part with
  | None => false
  | Some num =>
      if (num <? 0) || (num >? 255) then false
      else if JS.startsWith part "0" && (1 <? String.length part)%nat then false
      else true
  end.

Definition isValidIPv4 (ip : string) : bool :=
  let parts := JS.split "." ip in
  if negb (List.length parts =? 4)%nat then false
  else if negb (forallb partOk parts) then false
  else if JS.startsWith ip "10."
          || JS.startsWith ip "192.168."
          || (JS.startsWith ip "172."
              && JS.between (JS.parseInt (nth 1 parts EmptyString)) 16 31)
          || JS.startsWith ip "127."
          || JS.startsWith ip "169.254."
          || String.eqb ip "255.255.255.255"
       then false
  else true.

Definition urls : list string :=
  [ "https://ip.164746.xyz";
    "https://ip.haogege.xyz/";
    "https://stock.hostmonit.com/CloudFlareYes";
    "https://api.uouin.com/cloudflare.html";
    "https://addressesapi.090227.xyz/CloudFlareYes";
    "https://addressesapi.090227.xyz/ip.164746.xyz";
    "https://www.wetest.vip/page/cloudflare/address_v4.html" ].

Definition getSourceName (url : string) : string :=
  match parseURL url with
  | Some (hostname, pathname) =>
      hostname ++ (if negb (String.eqb pathname "/") then pathname else "")
  | None => url
  end.

(** The comparison function handed to [sort]: the first of the four parts
    that differs decides. *)
Definition compareParts (aParts bParts : list (option Z)) : option Z :=
  let differs i := JS.strictNeq (JS.index aParts i) (JS.index bParts i) in
  let diff i := JS.minus (JS.index aParts i) (JS.index bParts i) in
  if differs 0%nat then diff 0%nat
  else if differs 1%nat then diff 1%nat
  else if differs 2%nat then diff 2%nat
  else if differs 3%nat then diff 3%nat
  else Some 0.

Definition compareIPs (a b : string) : option Z :=
  compareParts (map JS.parseInt10 (JS.split "." a))
               (map JS.parseInt10 (JS.split "." b)).

(** The [forEach] over the matches of one source. *)
Definition addValid (set : list string) (ipMatches : list string) : list string :=
  fold_left (fun acc ip => if isValidIPv4 ip then JS.Set_add acc ip else acc)
            ipMatches set.

(** The inner loop body: one settled result of a batch. *)
Definition processResult (st : list string * list SourceReport)
  (entry : string * FetchOutcome) : list string * list SourceReport :=
  let (set, reports) := st in
  let (url, result) := entry in
  let sourceName := getSourceName url in
  match result with
  | Fulfilled content =>
      let ipMatches := JS.String_match ipPattern content in
      (addValid set ipMatches,
       (reports ++ [mkSourceReport sourceName success (Some (List.length ipMatches)) None])%list)
  | Rejected message =>
      (set, (reports ++ [mkSourceReport sourceName error (Some 0%nat) (Some message)])%list)
  end.

(** The outer loop, [for (let i = 0; i < urls.length; i += BATCH_SIZE)]:
    each round settles the fetches of [urls.slice(i, i + BATCH_SIZE)]
    together ([Promise.allSettled]) and then walks their results in order. *)
Definition BATCH_SIZE : nat := 3.

Definition processBatch (fetchURLWithTimeout : string -> FetchOutcome)
  (batch : list string) (st : list string * list SourceReport)
  : list string * list SourceReport :=
  let batchResults := map (fun url => (url, fetchURLWithTimeout url)) batch in
  fold_left processResult batchResults st.

(** [updateAllIPs] over a given source list. *)
Definition collect (fetchURLWithTimeout : string -> FetchOutcome)
  (sources : list string) : Harvest :=
  let (set, reports) :=
    JS.forBatches BATCH_SIZE (processBatch fetchURLWithTimeout) sources
      (List.length sources) 0 ([], []) in
  mkHarvest (JS.sort compareIPs set) reports.

Definition updateAllIPs (fetchURLWithTimeout : string -> FetchOutcome) : Harvest :=
  collect fetchURLWithTimeout urls.

(** ** The ranking run *)

(** What [testIPSpeed] resolves with; it never rejects. *)
Record SpeedData : Type := mkSpeedData {
  sd_success : bool;
  sd_latency : option Z      (* absent on the failure branch *)
}.

Definition testIPSpeed (probe : string -> ProbeOutcome) (ip : string) : SpeedData :=
  match probe ip with
  | Responded true elapsed => mkSpeedData true (Some elapsed)
  | Responded false _ => mkSpeedData false None
  | Failed _ => mkSpeedData false None
  end.

(** [speedData.success && speedData.latency]: a latency of [0] is falsy. *)
Definition usable (speedData : SpeedData) : option Z :=
  match sd_latency speedData with
  | Some l => if sd_success speedData && negb (l =? 0) then Some l else None
  | None => None
  end.

Definition SPEED_BATCH_SIZE : nat := 5.

(** One round of the probing loop: the probes of a batch are settled
    together and their results pushed in the order of the batch. *)
Definition probeBatch (probe : string -> ProbeOutcome) (batch : list string)
  (speedResults : list LatencyResult) : list LatencyResult :=
  fold_left
    (fun acc ip =>
       match usable (testIPSpeed probe ip) with
       | Some l => (acc ++ [mkLatencyResult ip l])%list
       | None => acc
       end)
    batch speedResults.

Definition compareLatency (a b : LatencyResult) : option Z :=
  Some (latency a - latency b).

Definition autoSpeedTestAndStore (probe : string -> ProbeOutcome)
  (ips : list string) : M unit :=
  if (List.length ips =? 0)%nat then ret tt
  else
    let ipsToTest := JS.array_slice 0 AUTO_TEST_MAX_IPS ips in
    let speedResults :=
      JS.forBatches SPEED_BATCH_SIZE (probeBatch probe) ipsToTest
        (List.length ipsToTest) 0 [] in
    let sorted := JS.sort compareLatency speedResults in
    let fast := JS.array_slice 0 FAST_IP_COUNT sorted in
    do t <- Date_now;
    put_fast_ips
      (mkFastSet fast t (List.length fast)
         (Some (List.length speedResults)) (Some (List.length ips))).

(** ** The admin gate *)

Definition getTokenConfig : M (option TokenConfig) :=
  try_catch get_token_config (fun _ => ret None).

(** [tokenConfig.lastUsed = new Date().toISOString()] and the write back. *)
Definition touch (tokenConfig : TokenConfig) : M bool :=
  do t <- Date_now;
  do u <- put_token_config (set_lastUsed tokenConfig t);
  ret true.

(** The session of an [Authorization: Bearer ...] header. *)
Definition checkHeaderSession (request : Request) : M bool :=
  match authorization request with
  | Some authHeader =>
      if JS.startsWith authHeader "Bearer "
      then lookupSession (JS.slice_from 7 authHeader)
      else ret false
  | None => ret false
  end.

(** The session of the query parameter [session]. *)
Definition checkQuerySession (request : Request) : M bool :=
  match searchParams_get (searchParams request) "session" with
  | Some sessionId =>
      if JS.truthy (Some sessionId) then lookupSession sessionId else ret false
  | None => ret false
  end.

(** The token: the stored record must not be past its expiry, and the query
    parameter [token] or an [Authorization: Token ...] header must carry its
    value. *)
Definition checkToken (request : Request) : M bool :=
  do tokenConfig <- getTokenConfig;
  match tokenConfig with
  | Some cfg =>
      do t <- Date_now;
      if negb (neverExpire cfg) && (expires cfg <? t) then ret false
      else
        let urlToken := searchParams_get (searchParams request) "token" in
        if JS.strictEq urlToken (Some (token cfg)) then touch cfg
        else
          match authorization request with
          | Some authHeader =>
              if JS.startsWith authHeader "Token " then
                if String.eqb (JS.slice_from 6 authHeader) (token cfg)
                then touch cfg
                else ret false
              else ret false
          | None => ret false
          end
  | None => ret false
  end.

Definition verifyAdmin (request : Request) (env : Env) : M bool :=
  if negb (JS.truthy (ADMIN_PASSWORD env)) then ret true
  else
    try_catch
      (do byHeader <- checkHeaderSession request;
       if byHeader then ret true
       else
         do byQuery <- checkQuerySession request;
         if byQuery then ret true
         else checkToken request)
      (fun _ => ret false).

Definition DAY_MS : Z := 24 * 60 * 60 * 1000.

Definition handleAdminToken (request : Request) (env : Env) : M Response :=
  do allowed <- verifyAdmin request env;
  if negb allowed then ret (jsonResponse (ErrorBody NeedAdmin) 401)
  else if String.eqb (method request) "GET" then
    do tokenConfig <- getTokenConfig;
    ret (jsonResponse (TokenConfigBody tokenConfig) 200)
  else if String.eqb (method request) "POST" then
    try_catch
      (match json request with
       | None => throw "Unexpected token"
       | Some data =>
           if negb (JS.truthy (req_token data))
           then ret (jsonResponse (ErrorBody TokenEmpty) 400)
           else
             let tok := match req_token data with Some t => t | None => "" end in
             do t <- Date_now;
             let store (time : Z) : M Response :=
               do expiresDate <- toISOString (Some time);
               let tokenConfig :=
                 mkTokenConfig (JS.trim tok) expiresDate t None (req_neverExpire data) in
               do u <- put_token_config tokenConfig;
               ret (jsonResponse (TokenUpdatedBody tokenConfig) 200) in
             if req_neverExpire data then store (t + 100 * 365 * DAY_MS)
             else
               match req_expiresDays data with
               | None => ret (jsonResponse (ErrorBody ExpiryEmpty) 400)
               | Some expiresDays =>
                   if expiresDays =? 0
                   then ret (jsonResponse (ErrorBody ExpiryEmpty) 400)
                   else if (expiresDays <? 1) || (expiresDays >? 365)
                   then ret (jsonResponse (ErrorBody ExpiryOutOfRange) 400)
                   else store (t + expiresDays * DAY_MS)
               end
       end)
      (fun message => ret (jsonResponse (ErrorBody (ErrorMessage message)) 500))
  else ret (jsonResponse (ErrorBody MethodNotAllowed) 405).

Definition handleAdminStatus (env : Env) : M Response :=
  try_catch
    (do tokenConfig <- getTokenConfig;
     ret (jsonResponse
            (AdminStatusBody (JS.truthy (ADMIN_PASSWORD env))
               (Some (match tokenConfig with Some _ => true | None => false end))
               tokenConfig)
            200))
    (fun message => ret (jsonResponse (ErrorBody (ErrorMessage message)) 500)).

(** The entry point [fetch], with the two routes of the token handlers. *)
Definition fetch (request : Request) (env : Env) : M Served :=
  if negb (IP_STORAGE_bound env) then ret (Respond (mkResponse 500 NotBoundBody))
  else if String.eqb (method request) "OPTIONS" then ret (Respond handleCORS)
  else
    try_catch
      (if String.eqb (pathname request) "/admin-status" then
         do r <- handleAdminStatus env; ret (Respond r)
       else if String.eqb (pathname request) "/admin-token" then
         do r <- handleAdminToken request env; ret (Respond r)
       else if existsb (String.eqb (pathname request)) known_routes
       then ret NotModelled
       else ret (Respond (jsonResponse (ErrorBody EndpointNotFound) 404)))
      (fun message =>
         ret (Respond (jsonResponse (ErrorBody (ErrorMessage message)) 500))).

End Worker.


(* ===================================================================== *)
(** * The rewrite [src/unnamed/part_000]                                  *)
(* ===================================================================== *)

Module Part000.

Definition FAST_IP_COUNT : nat := 25.
Definition AUTO_TEST_MAX_IPS : nat := 200.

Definition isValidIPv4 (ip : string) : bool :=
  let parts := JS.split "." ip in
  if negb (List.length parts =? 4)%nat then false
  else if JS.startsWith ip "10." || JS.startsWith ip "192.168."
          || JS.startsWith ip "127."
       then false
  else forallb (fun p => JS.between (JS.parseInt p) 0 255) parts.

Definition urls : list string := Worker.urls.

(** [new URL(url).hostname] *)
Definition hostname (url : string) : string :=
  match parseURL url with
  | Some (h, _) => h
  | None => url
  end.

(** The [reduce] of the comparison function: the four parts weighed by
    [256 ** (3 - i)].  The function is applied to members of the set,
    which have four parts; [Math.pow(256, 3 - i)] is no integer for a
    fifth part, and the model gives [NaN] there. *)
Definition ipValue (a : string) : option Z :=
  match map JS.Number_ (JS.split "." a) with
  | [Some o0; Some o1; Some o2; Some o3] =>
      Some (0 + o0 * 256 ^ 3 + o1 * 256 ^ 2 + o2 * 256 ^ 1 + o3 * 256 ^ 0)
  | _ => None
  end.

Definition compareIPs (a b : string) : option Z :=
  match ipValue a, ipValue b with
  | Some x, Some y => Some (x - y)
  | _, _ => None
  end.

Definition addValid (set : list string) (matches : list string) : list string :=
  fold_left (fun acc ip => if isValidIPv4 ip then JS.Set_add acc ip else acc)
            matches set.

(** The body of [for (const url of urls)]: here the oracle is [fetch]
    followed by [res.text()], fulfilled with the text of any response. *)
Definition processSource (fetch_text : string -> FetchOutcome)
  (st : list string * list SourceReport) (url : string)
  : list string * list SourceReport :=
  let (set, reports) := st in
  match fetch_text url with
  | Fulfilled text =>
      let matches := JS.String_match ipPattern text in
      (addValid set matches,
       (reports ++ [mkSourceReport (hostname url) success
                      (Some (List.length matches)) None])%list)
  | Rejected message =>
      (set, (reports ++ [mkSourceReport url error None (Some message)])%list)
  end.

Definition collect (fetch_text : string -> FetchOutcome) (sources : list string)
  : Harvest :=
  let (set, reports) := fold_left (processSource fetch_text) sources ([], []) in
  mkHarvest (JS.sort compareIPs set) reports.

Definition updateAllIPs (fetch_text : string -> FetchOutcome) : Harvest :=
  collect fetch_text urls.

(** The probe of one address inside the batch: the result or [null]. *)
Definition probeOne (probe : string -> ProbeOutcome) (ip : string)
  : option LatencyResult :=
  match probe ip with
  | Responded true elapsed => Some (mkLatencyResult ip elapsed)
  | Responded false _ => None
  | Failed _ => None
  end.

(** [results.push(...finished.filter(Boolean))] *)
Definition probeBatch (probe : string -> ProbeOutcome) (batch : list string)
  (acc : list LatencyResult) : list LatencyResult :=
  (acc ++ flat_map (fun ip => match probeOne probe ip with
                              | Some r => [r]
                              | None => []
                              end) batch)%list.

Definition autoSpeedTestAndStore (probe : string -> ProbeOutcome)
  (ips : list string) : M unit :=
  let toTest := JS.array_slice 0 AUTO_TEST_MAX_IPS ips in
  let found :=
    JS.forBatches 5 (probeBatch probe) toTest (List.length toTest) 0 [] in
  let fast := JS.array_slice 0 FAST_IP_COUNT (JS.sort Worker.compareLatency found) in
  do t <- Date_now;
  put_fast_ips (mkFastSet fast t (List.length fast) None None).

Definition getTokenConfig : M (option TokenConfig) := get_token_config.

(** The session identifier and the token a request presents. *)
Definition presentedSession (request : Request) : option string :=
  JS.orElse (searchParams_get (searchParams request) "session")
    (match authorization request with
     | Some h => if JS.startsWith h "Bearer " then Some (JS.slice_from 7 h) else None
     | None => None
     end).

Definition presentedToken (request : Request) : option string :=
  JS.orElse (searchParams_get (searchParams request) "token")
    (match authorization request with
     | Some h => if JS.startsWith h "Token " then Some (JS.slice_from 6 h) else None
     | None => None
     end).

(** The session check. *)
Definition checkSession (request : Request) : M bool :=
  match presentedSession request with
  | Some sessionId =>
      if JS.truthy (Some sessionId) then lookupSession sessionId else ret false
  | None => ret false
  end.

(** The token check: the presented token must be the stored one, and the
    stored record not past its expiry. *)
Definition checkToken (request : Request) : M bool :=
  do tokenConfig <- getTokenConfig;
  match tokenConfig with
  | Some cfg =>
      if JS.strictEq (presentedToken request) (Some (token cfg)) then
        do t <- Date_now;
        if negb (neverExpire cfg) && (expires cfg <? t) then ret false
        else
          do u <- put_token_config (set_lastUsed cfg t);
          ret true
      else ret false
  | None => ret false
  end.

(** The body of [verifyAdmin] after the test of [ADMIN_PASSWORD]. *)
Definition checkCredentials (request : Request) : M bool :=
  do bySession <- checkSession request;
  if bySession then ret true else checkToken request.

Definition verifyAdmin (request : Request) (env : Env) : M bool :=
  if negb (JS.truthy (ADMIN_PASSWORD env)) then ret true
  else try_catch (checkCredentials request) (fun _ => ret false).

Definition handleAdminToken (request : Request) (env : Env) : M Served :=
  do allowed <- verifyAdmin request env;
  if negb allowed then ret (Respond (jsonResponse (ErrorBody NeedAdmin) 401))
  else if String.eqb (method request) "GET" then
    do tokenConfig <- getTokenConfig;
    ret (Respond (jsonResponse (TokenConfigBody tokenConfig) 200))
  else if String.eqb (method request) "POST" then
    try_catch
      (match json request with
       | None => throw "Unexpected token"
       | Some data =>
           if negb (JS.truthy (req_token data))
           then ret (Respond (jsonResponse (ErrorBody TokenEmpty) 400))
           else
             let tok := match req_token data with Some t => t | None => "" end in
             do t <- Date_now;
             do expiresDate <-
               toISOString
                 (if req_neverExpire data
                  then Some (t + 100 * 365 * 24 * 3600 * 1000)
                  else match req_expiresDays data with
                       | Some expiresDays => Some (t + expiresDays * 24 * 3600 * 1000)
                       | None => None
                       end);
             let tokenConfig :=
               mkTokenConfig (JS.trim tok) expiresDate t None (req_neverExpire data) in
             do u <- put_token_config tokenConfig;
             ret (Respond (jsonResponse (TokenUpdatedBody tokenConfig) 200))
       end)
      (fun message =>
         ret (Respond (jsonResponse (ErrorBody (ErrorMessage message)) 500)))
  else ret Undefined.

Definition handleAdminStatus (env : Env) : M Response :=
  do tokenConfig <- getTokenConfig;
  ret (jsonResponse
         (AdminStatusBody (JS.truthy (ADMIN_PASSWORD env))
            (Some (match tokenConfig with Some _ => true | None => false end))
            tokenConfig)
         200).

Definition fetch (request : Request) (env : Env) : M Served :=
  if negb (IP_STORAGE_bound env) then ret (Respond (mkResponse 500 NotBoundBody))
  else if String.eqb (method request) "OPTIONS" then ret (Respond handleCORS)
  else
    try_catch
      (if String.eqb (pathname request) "/admin-status" then
         do r <- handleAdminStatus env; ret (Respond r)
       else if String.eqb (pathname request) "/admin-token" then
         handleAdminToken request env
       else if existsb (String.eqb (pathname request)) known_routes
       then ret NotModelled
       else ret (Respond (jsonResponse (ErrorBody EndpointNotFound) 404)))
      (fun message =>
         ret (Respond (jsonResponse (ErrorBody (ErrorMessage message)) 500))).

End Part000.

(* ===================================================================== *)
(** * The rewrite [src/unnamed/part_001]                                  *)
(* ===================================================================== *)

Module Part001.

Definition FAST_IP_COUNT : nat := 25.
Definition AUTO_TEST_MAX_IPS : nat := 200.

(** [isValidIPv4].  With [JS.Number_] for [Number] this is the function of
    the source on the texts whose groups are integer literals of the kinds
    [JS.Number_] reads, among them every candidate of the pattern; the
    theorems apply it to such texts only. *)
Definition isValidIPv4 (ip : string) : bool :=
  let parts := JS.split "." ip in
  if negb (List.length parts =? 4)%nat then false
  else
    let n := map JS.Number_ parts in
    if existsb (fun p => match p with None => true | Some _ => false end) n
       || existsb (fun p => match p with
                            | Some v => (v <? 0) || (v >? 255)
                            | None => false
                            end) n
    then false
    else if JS.startsWith ip "10." || JS.startsWith ip "192.168."
            || JS.startsWith ip "127."
         then false
    else if JS.startsWith ip "172."
            && JS.between (nth 1 n None) 16 31
         then false
    else true.

Definition sources : list string :=
  [ "https://ip.164746.xyz";
    "https://ip.haogege.xyz/";
    "https://stock.hostmonit.com/CloudFlareYes";
    "https://api.uouin.com/cloudflare.html";
    "https://addressesapi.090227.xyz/CloudFlareYes";
    "https://www.wetest.vip/page/cloudflare/address_v4.html" ].

Definition compareIPs (a b : string) : option Z :=
  Worker.compareParts (map JS.Number_ (JS.split "." a))
                      (map JS.Number_ (JS.split "." b)).

(** The [forEach] over the matches of one source, with its [validCount]. *)
Definition addValid (st : list string * nat) (matches : list string)
  : list string * nat :=
  fold_left
    (fun acc ip =>
       if isValidIPv4 ip then (JS.Set_add (fst acc) ip, S (snd acc)) else acc)
    matches st.

Definition processSource (fetch_text : string -> FetchOutcome)
  (st : list string * list SourceReport) (url : string)
  : list string * list SourceReport :=
  let (set, reports) := st in
  match fetch_text url with
  | Fulfilled text =>
      let matches := JS.String_match ipPattern text in
      let (set', validCount) := addValid (set, O) matches in
      (set',
       (reports ++ [mkSourceReport (Part000.hostname url) success
                      (Some validCount) None])%list)
  | Rejected message =>
      (set, (reports ++ [mkSourceReport url error None (Some message)])%list)
  end.

Definition collect (fetch_text : string -> FetchOutcome) (srcs : list string)
  : Harvest :=
  let (set, reports) := fold_left (processSource fetch_text) srcs ([], []) in
  mkHarvest (JS.sort compareIPs set) reports.

Definition updateAllIPs (fetch_text : string -> FetchOutcome) : Harvest :=
  collect fetch_text sources.

Definition BATCH_SIZE : nat := 10.

Definition autoSpeedTestAndStore (probe : string -> ProbeOutcome)
  (ips : list string) : M unit :=
  let toTest := JS.array_slice 0 AUTO_TEST_MAX_IPS ips in
  let found :=
    JS.forBatches BATCH_SIZE (Part000.probeBatch probe) toTest
      (List.length toTest) 0 [] in
  let fast := JS.array_slice 0 FAST_IP_COUNT (JS.sort Worker.compareLatency found) in
  do t <- Date_now;
  put_fast_ips (mkFastSet fast t (List.length fast) None None).

Definition getTokenConfig : M (option TokenConfig) := get_token_config.

Definition verifyAdmin (request : Request) (env : Env) : M bool :=
  if negb (JS.truthy (ADMIN_PASSWORD env)) then ret true
  else Part000.checkCredentials request.

Definition handleAdminToken (request : Request) (env : Env) : M Served :=
  do allowed <- verifyAdmin request env;
  if negb allowed then ret (Respond (jsonResponse (ErrorBody NeedAdmin) 401))
  else if String.eqb (method request) "GET" then
    do tokenConfig <- getTokenConfig;
    ret (Respond (jsonResponse (TokenConfigBody tokenConfig) 200))
  else if String.eqb (method request) "POST" then
    match json request with
    | None => throw "Unexpected token"
    | Some data =>
        do t <- Date_now;
        do expiresDate <-
          toISOString
            (if req_neverExpire data
             then Some (t + 315360000000)
             else match req_expiresDays data with
                  | Some expiresDays => Some (t + expiresDays * 86400000)
                  | None => None
                  end);
        match req_token data with
        | None => throw "Cannot read properties of undefined"
        | Some tok =>
            let config :=
              mkTokenConfig (JS.trim tok) expiresDate t None (req_neverExpire data) in
            do u <- put_token_config config;
            ret (Respond (jsonResponse (TokenUpdatedBody config) 200))
        end
    end
  else ret Undefined.

Definition handleAdminStatus (env : Env) : M Response :=
  do tokenConfig <- getTokenConfig;
  ret (jsonResponse
         (AdminStatusBody (JS.truthy (ADMIN_PASSWORD env)) None tokenConfig) 200).

Definition fetch (request : Request) (env : Env) : M Served :=
  if negb (IP_STORAGE_bound env) then ret (Respond (mkResponse 500 NotBoundBody))
  else if String.eqb (method request) "OPTIONS" then ret (Respond handleCORS)
  else
    try_catch
      (if String.eqb (pathname request) "/admin-status" then
         do r <- handleAdminStatus env; ret (Respond r)
       else if String.eqb (pathname request) "/admin-token" then
         handleAdminToken request env
       else if existsb (String.eqb (pathname request)) known_routes
       then ret NotModelled
       else ret (Respond (jsonResponse (ErrorBody EndpointNotFound) 404)))
      (fun message =>
         ret (Respond (jsonResponse (ErrorBody (ErrorMessage message)) 500))).

End Part001.

(* ===================================================================== *)
(** * The three scripts side by side                                      *)
(* ===================================================================== *)

Inductive Script : Type :=
| MainWorker      (* src/_worker.js *)
| Rewrite000      (* src/unnamed/part_000 *)
| Rewrite001.     (* src/unnamed/part_001 *)

Definition isValidIPv4_of (s : Script) : string -> bool :=
  match s with
  | MainWorker => Worker.isValidIPv4
  | Rewrite000 => Part000.isValidIPv4
  | Rewrite001 => Part001.isValidIPv4
  end.

Definition sources_of (s : Script) : list string :=
  match s with
  | MainWorker => Worker.urls
  | Rewrite000 => Part000.urls
  | Rewrite001 => Part001.sources
  end.

Definition collect_of (s : Script)
  : (string -> FetchOutcome) -> list string -> Harvest :=
  match s with
  | MainWorker => Worker.collect
  | Rewrite000 => Part000.collect
  | Rewrite001 => Part001.collect
  end.

Definition updateAllIPs_of (s : Script) : (string -> FetchOutcome) -> Harvest :=
  match s with
  | MainWorker => Worker.updateAllIPs
  | Rewrite000 => Part000.updateAllIPs
  | Rewrite001 => Part001.updateAllIPs
  end.

Definition autoSpeedTestAndStore_of (s : Script)
  : (string -> ProbeOutcome) -> list string -> M unit :=
  match s with
  | MainWorker => Worker.autoSpeedTestAndStore
  | Rewrite000 => Part000.autoSpeedTestAndStore
  | Rewrite001 => Part001.autoSpeedTestAndStore
  end.

Definition verifyAdmin_of (s : Script) : Request -> Env -> M bool :=
  match s with
  | MainWorker => Worker.verifyAdmin
  | Rewrite000 => Part000.verifyAdmin
  | Rewrite001 => Part001.verifyAdmin
  end.

Definition fetch_of (s : Script) : Request -> Env -> M Served :=
  match s with
  | MainWorker => Worker.fetch
  | Rewrite000 => Part000.fetch
  | Rewrite001 => Part001.fetch
  end.

(* ===================================================================== *)
(** * Vocabulary of the statements                                        *)
(* ===================================================================== *)

(** ** Credentials of a request *)

(** The session identifier of an [Authorization: Bearer ...] header. *)
Definition bearerSession (request : Request) : option string :=
  match authorization request with
  | Some h => if JS.startsWith h "Bearer " then Some (JS.slice_from 7 h) else None
  | None => None
  end.

(** The token of an [Authorization: Token ...] header. *)
Definition headerToken (request : Request) : option string :=
  match authorization request with
  | Some h => if JS.startsWith h "Token " then Some (JS.slice_from 6 h) else None
  | None => None
  end.

(** The namespace holds a session record for [id]. *)
Definition sessionLive (w : World) (id : option string) : bool :=
  match id with
  | Some i => JS.truthy (kv_sessions w !! ("session_" ++ i)%string)
  | None => false
  end.

(** None of the session identifiers a request carries, in its header or in
    its query, is live. *)
Definition noLiveSession (w : World) (request : Request) : bool :=
  negb (sessionLive w (bearerSession request))
  && negb (sessionLive w (searchParams_get (searchParams request) "session")).

(** The request presents [tok] as its token, in the way the script reads
    it: [src/_worker.js] compares the query parameter and the header one
    after the other, the rewrites compare the query parameter if it is not
    empty and the header otherwise. *)
Definition presentsToken (s : Script) (request : Request) (tok : string) : bool :=
  match s with
  | MainWorker =>
      JS.strictEq (searchParams_get (searchParams request) "token") (Some tok)
      || JS.strictEq (headerToken request) (Some tok)
  | Rewrite000 | Rewrite001 =>
      JS.strictEq (Part000.presentedToken request) (Some tok)
  end.

(** The stored token is past its expiry at the reading [t] of the clock. *)
Definition expired (cfg : TokenConfig) (t : Z) : bool :=
  negb (neverExpire cfg) && (expires cfg <? t).

(** ** Addresses *)

(** A run of one or more decimal digits. *)
Definition decimalGroup (g : string) : bool :=
  negb (String.eqb g "") && JS.allDigits 10 g.

(** The number a decimal group denotes. *)
Definition groupValue (g : string) : Z :=
  match JS.digitsPrefix 10 None g with
  | Some v => v
  | None => 0
  end.

(** The four numbers of a dotted quad. *)
Definition octets (a : string) : list Z := map groupValue (JS.split "." a).

(** The order of two tuples of numbers: the first component that differs
    decides. *)
Fixpoint tuple_le (x y : list Z) : Prop :=
  match x, y with
  | [], _ => True
  | _ :: _, [] => False
  | a :: x', b :: y' => a < b \/ (a = b /\ tuple_le x' y')
  end.

Definition address_le (a b : string) : Prop := tuple_le (octets a) (octets b).

(** A dotted quad: four decimal groups, each at most 255. *)
Definition dottedQuad (a : string) : bool :=
  let groups := JS.split "." a in
  (List.length groups =? 4)%nat
  && forallb (fun g => decimalGroup g && (groupValue g <=? 255)) groups.

(** The validator in the words of the specification: exactly four
    dot-separated decimal groups, each an integer in [0,255] with no leading
    zero in front of another digit, and an address outside the excluded
    ranges. *)
Definition isValid_spec (s : string) : bool :=
  let groups := JS.split "." s in
  (List.length groups =? 4)%nat
  && forallb
       (fun g =>
          decimalGroup g && (groupValue g <=? 255)
          && negb (JS.startsWith g "0" && (1 <? String.length g)%nat))
       groups
  && negb (JS.startsWith s "10.")
  && negb (JS.startsWith s "192.168.")
  && negb (JS.startsWith s "127.")
  && negb (JS.startsWith s "169.254.")
  && negb (String.eqb s "255.255.255.255")
  && negb ((groupValue (nth 0 groups "") =? 172)
           && (16 <=? groupValue (nth 1 groups ""))
           && (groupValue (nth 1 groups "") <=? 31)).

(** The text is its groups with dots between them. *)
Fixpoint join (groups : list string) : string :=
  match groups with
  | [] => ""
  | [g] => g
  | g :: rest => g ++ String "." (join rest)
  end.

(** ** Ranking *)

Definition latency_le (a b : LatencyResult) : Prop := latency a <= latency b.


(** The script keeps the result of the probe of [ip]: the probe succeeded,
    and for [src/_worker.js], whose test is
    [speedData.success && speedData.latency], the latency it measured is not
    [0]. *)
Definition counted (s : Script) (probe : string -> ProbeOutcome) (ip : string)
  : bool :=
  match probe ip with
  | Responded true elapsed =>
      match s with
      | MainWorker => negb (elapsed =? 0)
      | Rewrite000 | Rewrite001 => true
      end
  | Responded false _ => false
  | Failed _ => false
  end.

(** The addresses that are probed, and among them those whose result the
    script keeps. *)
Definition probed (ips : list string) : list string := firstn 200 ips.

Definition successes (s : Script) (probe : string -> ProbeOutcome)
  (ips : list string) : list string :=
  List.filter (counted s probe) (probed ips).


(** ** Runs of the admin gate *)

(** The world after a storage operation that did not throw, and after one that did. *)
Definition passed (w : World) : World := set_faults w (tl (faults w)).
Definition failed (w : World) : World := raise_fault w (tl (faults w)).

(** Nothing but the token record, the fault schedule and the count of
    exceptions differs between two worlds. *)
Definition sameFrame (w w' : World) : Prop :=
  kv_sessions w' = kv_sessions w /\ kv_fast_ips w' = kv_fast_ips w /\ now w' = now w.

(** The decision table of the admin gate when a password is configured. *)
Inductive Verdict (script : Script) (request : Request) (w : World)
  : Outcome bool -> World -> Prop :=
| BySession (w' : World) :
    noLiveSession w request = false ->
    thrown w' = thrown w ->
    kv_token_config w' = kv_token_config w ->
    Verdict script request w (Returned true) w'
| ByToken (cfg : TokenConfig) (w' : World) :
    kv_token_config w = Some cfg ->
    expired cfg (now w) = false ->
    presentsToken script request (token cfg) = true ->
    thrown w' = thrown w ->
    kv_token_config w' = Some (set_lastUsed cfg (now w)) ->
    Verdict script request w (Returned true) w'
| Denied (w' : World) :
    (match kv_token_config w with
     | Some cfg =>
         expired cfg (now w) = true
         \/ presentsToken script request (token cfg) = false
     | None => True
     end) ->
    thrown w' = thrown w ->
    kv_token_config w' = kv_token_config w ->
    Verdict script request w (Returned false) w'
| FaultDenied (w' : World) :
    script <> Rewrite001 ->
    (thrown w < thrown w')%nat ->
    kv_token_config w' = kv_token_config w ->
    Verdict script request w (Returned false) w'
| FaultThrown (e : string) (w' : World) :
    script = Rewrite001 ->
    (thrown w < thrown w')%nat ->
    kv_token_config w' = kv_token_config w ->
    Verdict script request w (Threw e) w'.


(** What holds of the outcome and of the world after running [m] from [w]. *)
Definition post {A : Type} (m : M A) (w : World)
  (P : Outcome A -> World -> Prop) : Prop :=
  P (fst (m w)) (snd (m w)).

(** ** Texts of a pattern, candidates, harvest and ranking *)

Fixpoint pow (L : string -> Prop) (n : nat) (m : string) : Prop :=
  match n with
  | O => m = ""
  | S n' => exists m1 m2, m = m1 ++ m2 /\ L m1 /\ pow L n' m2
  end.

(** The texts of a pattern, the conditions on the neighbours that [\b]
    states left out. *)
Fixpoint lang (r : JS.regex) (m : string) : Prop :=
  match r with
  | JS.RDigit => exists c, JS.isDigit c = true /\ m = String c ""
  | JS.RLit a => m = String a ""
  | JS.RBoundary => m = ""
  | JS.RSeq a b => exists m1 m2, m = m1 ++ m2 /\ lang a m1 /\ lang b m2
  | JS.RRepeat lo hi a => exists n, (lo <= n <= hi)%nat /\ pow (lang a) n m
  end.

(** Four runs of decimal digits with dots between them. *)
Definition digitGroups (a : string) : bool :=
  (List.length (JS.split "." a) =? 4)%nat
  && forallb decimalGroup (JS.split "." a).

(** [trim] leaves a text without white space alone. *)
Fixpoint noWhite (s : string) : bool :=
  match s with
  | EmptyString => true
  | String c r => negb (JS.isWhiteSpace c) && noWhite r
  end.

Definition compareIPs_of (s : Script) : string -> string -> option Z :=
  match s with
  | MainWorker => Worker.compareIPs
  | Rewrite000 => Part000.compareIPs
  | Rewrite001 => Part001.compareIPs
  end.

(** The valid matches of a text that a script adds to its set. *)
Definition addMatches (s : Script) (set : list string) (found : list string)
  : list string :=
  fold_left (fun acc a => if isValidIPv4_of s a then JS.Set_add acc a else acc)
            found set.

(** The set after one source. *)
Definition grow (s : Script) (fetched : string -> FetchOutcome)
  (set : list string) (url : string) : list string :=
  match fetched url with
  | Fulfilled text => addMatches s set (JS.String_match ipPattern text)
  | Rejected _ => set
  end.

(** The report of one source. *)
Definition report (s : Script) (fetched : string -> FetchOutcome) (url : string)
  : SourceReport :=
  match fetched url with
  | Fulfilled text =>
      let found := JS.String_match ipPattern text in
      match s with
      | MainWorker =>
          mkSourceReport (Worker.getSourceName url) success
            (Some (List.length found)) None
      | Rewrite000 =>
          mkSourceReport (Part000.hostname url) success
            (Some (List.length found)) None
      | Rewrite001 =>
          mkSourceReport (Part000.hostname url) success
            (Some (List.length (List.filter Part001.isValidIPv4 found))) None
      end
  | Rejected message =>
      match s with
      | MainWorker =>
          mkSourceReport (Worker.getSourceName url) error (Some 0%nat) (Some message)
      | Rewrite000 | Rewrite001 => mkSourceReport url error None (Some message)
      end
  end.

(** What holds of the set at every point of a harvest: no address twice,
    and only dotted quads that the script's validator accepts. *)
Definition goodSet (script : Script) (set : list string) : Prop :=
  List.NoDup set
  /\ Forall (fun a => dottedQuad a = true /\ isValidIPv4_of script a = true) set.


(** The latency a probe measured, [0] when it got no [ok] response. *)
Definition measured (probe : string -> ProbeOutcome) (a : string) : Z :=
  match probe a with
  | Responded true elapsed => elapsed
  | Responded false _ => 0
  | Failed _ => 0
  end.

(** The results a script collects from the addresses it probes, in their
    order. *)
Definition collected (s : Script) (probe : string -> ProbeOutcome)
  (ips : list string) : list LatencyResult :=
  map (fun a => mkLatencyResult a (measured probe a)) (successes s probe ips).

(** The record of a ranking run. *)
Definition ranked (s : Script) (probe : string -> ProbeOutcome)
  (ips : list string) : list LatencyResult :=
  firstn 25 (JS.sort Worker.compareLatency (collected s probe ips)).

(* ===================================================================== *)
(** * Deployments, requests and networks of the examples                  *)
(* ===================================================================== *)

Definition secured : Env := mkEnv (Some "hunter2") true.
Definition unsecured : Env := mkEnv None true.

(** A token that expired at 1000, read at 2000. *)
Definition staleToken : TokenConfig := mkTokenConfig "tok123" 1000 500 None false.
(** The same token with an expiry ahead of the clock. *)
Definition freshToken : TokenConfig := mkTokenConfig "tok123" 9000 500 None false.

Definition storedSession : gmap string string :=
  {[ "session_abc" := "{loggedIn:true}" ]}.

Definition world (sessions : gmap string string) (cfg : TokenConfig)
  (schedule : list bool) : World :=
  mkWorld sessions (Some cfg) None 2000 schedule 0.

(** [GET /raw?token=tok123] *)
Definition tokenRequest : Request :=
  mkRequest "GET" "/raw" [("token", "tok123")] None None.
(** The same with [Authorization: Bearer abc]. *)
Definition tokenAndSessionRequest : Request :=
  mkRequest "GET" "/raw" [("token", "tok123")] (Some "Bearer abc") None.

(** [GET /admin-status] with nothing else, and with a session. *)
Definition statusRequest : Request :=
  mkRequest "GET" "/admin-status" [] None None.
Definition statusRequestWithSession : Request :=
  mkRequest "GET" "/admin-status" [("session", "abc")] (Some "Bearer abc") None.

(** [POST /admin-token] by a logged-in admin, asking for [days] days. *)
Definition rotation (days : Z) : Request :=
  mkRequest "POST" "/admin-token" [] (Some "Bearer abc")
    (Some (mkTokenRequest (Some " fresh ") (Some days) false)).

(** One source publishes a link-local, a private and a zero-padded address. *)
Definition reservedFetch (url : string) : FetchOutcome :=
  if String.eqb url "https://ip.164746.xyz"
  then Fulfilled "169.254.1.1 172.16.0.1 01.1.1.1 255.255.255.255"
  else Rejected "The operation was aborted".

(** Two sources answer, the others time out. *)
Definition exampleFetch (url : string) : FetchOutcome :=
  if String.eqb url "https://ip.164746.xyz"
  then Fulfilled "10.0.0.1, 2.2.2.2"
  else if String.eqb url "https://ip.haogege.xyz/"
  then Fulfilled "<li>1.1.1.1</li><li>1.1.1.1</li>"
  else Rejected "The operation was aborted".

Definition exampleProbe (a : string) : ProbeOutcome :=
  if String.eqb a "1.1.1.1" then Responded true 40
  else if String.eqb a "8.8.8.8" then Responded true 12
  else if String.eqb a "9.9.9.9" then Responded false 30
  else Failed "timeout".

Definition emptyWorld : World := mkWorld ∅ None None 2000 [] 0.

(* ===================================================================== *)
(** * The other handlers of the worker                                    *)
(* ===================================================================== *)

(** ** More of the language *)

(** Whether a text read after a character of class [prev] ends in a word
    character; the text before a match of a pattern is read with
    [prev = false]. *)
Fixpoint endsInWord (prev : bool) (s : string) : bool :=
  match s with
  | EmptyString => prev
  | String c r => endsInWord (JS.isWordChar c) r
  end.

(** [s.charAt(i)]: the empty text out of range. *)
Definition String_charAt (s : string) (i : nat) : string :=
  match String.get i s with
  | Some c => String c EmptyString
  | None => EmptyString
  end.

(** The line feed of ['\n']. *)
Definition LF : string := String (ascii_of_nat 10) EmptyString.

(** [a.join(sep)] *)
Fixpoint Array_join (sep : string) (a : list string) : string :=
  match a with
  | [] => EmptyString
  | [x] => x
  | x :: rest => x ++ sep ++ Array_join sep rest
  end.

(** [s.includes(c)] for a text [c] of one character. *)
Fixpoint String_includes (s : string) (c : ascii) : bool :=
  match s with
  | EmptyString => false
  | String x r => Ascii.eqb x c || String_includes r c
  end.

(** The characters [encodeURIComponent] leaves alone: letters, digits and
    [- _ . ! ~ * ' ( )]. *)
Definition unreserved (c : ascii) : bool :=
  JS.isDigit c
  || ((65 <=? JS.code c) && (JS.code c <=? 90))
  || ((97 <=? JS.code c) && (JS.code c <=? 122))
  || existsb (Ascii.eqb c) ["-"; "_"; "."; "!"; "~"; "*"; "'"; "("; ")"]%char.

Definition hexUpper (d : Z) : ascii :=
  if d <? 10 then ascii_of_nat (Z.to_nat (48 + d))
  else ascii_of_nat (Z.to_nat (55 + d)).

(** The escape [%XX] of one byte. *)
Definition percent (byte : Z) : string :=
  String "%" (String (hexUpper (byte / 16)) (String (hexUpper (byte mod 16)) EmptyString)).

(** [encodeURIComponent] on one code unit below U+0100: itself when it is
    unreserved, and otherwise the escapes of the one or two bytes of its
    UTF-8 form. *)
Definition encodeUnit (c : ascii) : string :=
  if unreserved c then String c EmptyString
  else if JS.code c <? 128 then percent (JS.code c)
  else percent (192 + JS.code c / 64) ++ percent (128 + JS.code c mod 64).

Fixpoint encodeURIComponent (s : string) : string :=
  match s with
  | EmptyString => EmptyString
  | String c r => encodeUnit c ++ encodeURIComponent r
  end.

(** A character of an address: a digit or the dot. *)
Definition addressChar (c : ascii) : bool := JS.isDigit c || Ascii.eqb c ".".

(** The text is empty, or its last character is neither a word character
    nor a dot; [apart] is the answer for the empty text. *)
Fixpoint endsApart (apart : bool) (s : string) : bool :=
  match s with
  | EmptyString => apart
  | String c r => endsApart (negb (JS.isWordChar c) && negb (Ascii.eqb c ".")) r
  end.

(** The first [n] characters of the text are there, and are characters of an
    address. *)
Fixpoint leadsWith (n : nat) (s : string) : bool :=
  match n, s with
  | O, _ => true
  | S n', String c r => addressChar c && leadsWith n' r
  | S _, EmptyString => false
  end.

(** ** Replies *)

Inductive LoginError : Type :=
| PasswordNotConfigured       (* ADMIN_PASSWORD is not set *)
| WrongPassword.

(** The parts of the page of [serveHTML] in [src/_worker.js] that depend on
    the request and on the namespace: the values its template
    interpolates. *)
Record Page : Type := mkPage {
  page_isLoggedIn : bool;                  (* ${isLoggedIn} *)
  page_hasAdminPassword : bool;            (* ${hasAdminPassword} *)
  page_sessionId : string;                 (* '${sessionId || ''}' *)
  page_tokenConfig : option TokenConfig;   (* the script's [let tokenConfig = ...] *)
  page_tokenSection : option (option TokenConfig);
                                           (* the token section, shown when logged in *)
  page_fastLink : string;                  (* addAuthToUrl('/fast-ips.txt', ...) *)
  page_ipsLink : string;                   (* addAuthToUrl('/ips', ...) *)
  page_ipTxtLink : string;                 (* addAuthToUrl('/ip.txt', ...) *)
  page_count : nat;                        (* ${data.count || 0} *)
  page_lastUpdated : option Z;             (* data.lastUpdated *)
  page_fastIPs : list LatencyResult;       (* the list of fast addresses *)
  page_sources : list SourceReport         (* data.sources *)
}.

(** The record under the key [cloudflare_ips]; [getDefaultData()] is the
    record with no address, no source and no date. *)
Record StoredIPs : Type := mkStoredIPs {
  stored_ips : list string;
  stored_lastUpdated : option Z;
  stored_count : nat;
  stored_sources : list SourceReport
}.

(** The values that the template of [serveHTML] in [part_000]
    interpolates. *)
Record Page000 : Type := mkPage000 {
  home_isLoggedIn : bool;                  (* ${isLoggedIn} *)
  home_count : nat;                        (* ${data.count || 0} *)
  home_fastCount : nat;                    (* ${speedData.count || 0} *)
  home_lastUpdated : option Z;             (* data.lastUpdated *)
  home_tokenSection : option (option string);
                                           (* ${tokenConfig.token}, shown when logged in *)
  home_fastIPs : list LatencyResult;       (* speedData.fastIPs *)
  home_sessionId : string;                 (* let sessionId = "${sessionId}" *)
  home_currentToken : string               (* let currentToken = "${tokenConfig?.token || ''}" *)
}.

(** The bodies of the responses: those of the token handlers, and the ones
    below.  The duration text of an update, which depends on the time its
    fetches take, the fixed message texts, and in [src/_worker.js] the text
    of the error of a failed speed test are left out. *)
Inductive Content : Type :=
| Json (b : ResponseBody)
| LoginRefusedBody (e : LoginError)          (* { success: false, error } *)
| LoggedInBody (sessionId : string) (tokenConfig : TokenConfig)
                                             (* { success: true, sessionId, tokenConfig } *)
| LoggedOutBody                              (* { success: true } *)
| FastIPsBody (data : option FastSet)        (* the stored record; None: the default one *)
| StoredIPsBody (data : StoredIPs)           (* the stored record or the default one *)
| ItdogBody (ips : list string) (count : nat)            (* { ips, count } *)
| IPRequiredBody                             (* { error: 'IP parameter is required' } *)
| SpeedTestBody (success : bool) (ip : string) (time : Z)  (* { success, ip, time } *)
| UpdatedBody (totalIPs : nat) (timestamp : Z) (results : list SourceReport)
                                             (* { success: true, totalIPs, timestamp, results } *)
| UpdateFailedBody (message : string)        (* { success: false, error } *)
| TextBody (text : string)                   (* text/plain *)
| PageBody (page : Page)                     (* text/html *)
| AddressesBody (ips : list string)          (* { ips } *)
| RawBody (data : option StoredIPs)          (* the stored text; None: the text {} *)
| MeasuredBody (success : bool) (latency : Z)  (* { success, latency } *)
| ProbeFailedBody (message : string)         (* { success: false, error } *)
| StartedBody (totalIPs : nat) (timestamp : Z)
                                             (* { success: true, totalIPs, timestamp, message } *)
| Page000Body (page : Page000)               (* text/html of part_000 *)
| StaticPageBody.                            (* the fixed page of part_001 *)

Record Reply : Type := mkReply {
  reply_status : Z;
  content : Content
}.

(** ** The namespace with the address list *)

Record Site : Type := mkSite {
  site_world : World;
  kv_cloudflare_ips : option StoredIPs
}.

Definition Run (A : Type) : Type := Site -> Outcome A * Site.

Definition done {A : Type} (a : A) : Run A := fun s => (Returned a, s).

Definition next {A B : Type} (m : Run A) (f : A -> Run B) : Run B :=
  fun s =>
    match m s with
    | (Returned a, s') => f a s'
    | (Threw e, s') => (Threw e, s')
    end.

(** [try { m } catch (error) { handler(error.message) }] *)
Definition attempt {A : Type} (m : Run A) (handler : string -> Run A) : Run A :=
  fun s =>
    match m s with
    | (Returned a, s') => (Returned a, s')
    | (Threw e, s') => handler e s'
    end.

Definition raise {A : Type} (message : string) : Run A :=
  fun s => (Threw message, s).

(** A computation that leaves the address list alone. *)
Definition lift {A : Type} (m : M A) : Run A :=
  fun s =>
    match m (site_world s) with
    | (o, w) => (o, mkSite w (kv_cloudflare_ips s))
    end.

Notation "'await' x <- m ; k" := (next m (fun x => k))
  (at level 10, x name, m at level 100, k at level 200).

(** [env.IP_STORAGE.get('cloudflare_ips')] followed by [JSON.parse], and
    [env.IP_STORAGE.put('cloudflare_ips', JSON.stringify(d))]: one operation
    of the namespace each. *)
Definition get_cloudflare_ips : Run (option StoredIPs) :=
  await u <- lift (storage (fun _ => tt) (fun w => w));
  fun s => (Returned (kv_cloudflare_ips s), s).

Definition put_cloudflare_ips (d : StoredIPs) : Run unit :=
  await u <- lift (storage (fun _ => tt) (fun w => w));
  fun s => (Returned tt, mkSite (site_world s) (Some d)).

(** [env.IP_STORAGE.get('cloudflare_fast_ips')] followed by [JSON.parse]. *)
Definition get_fast_ips : M (option FastSet) :=
  storage kv_fast_ips (fun w => w).

(** [env.IP_STORAGE.put(`session_${id}`, text, { expirationTtl: 86400 })]. The
    time to live is left out: an entry that expired is an entry the
    namespace no longer holds. *)
Definition set_session (key text : string) (w : World) : World :=
  mkWorld (<[key := text]> (kv_sessions w)) (kv_token_config w) (kv_fast_ips w)
    (now w) (faults w) (thrown w).

Definition put_session (id text : string) : M unit :=
  storage (fun _ => tt) (set_session ("session_" ++ id) text).

(** The body of a login as [const { password } = await request.json()]
    reads it. *)
Inductive LoginBody : Type :=
| Unreadable                      (* json() rejects, or the body is null *)
| Password (password : option string).
                                  (* None: no such field, or not a text *)

(** The double quote of the JSON texts. *)
Definition quoted (s : string) : string :=
  String (ascii_of_nat 34) s ++ String (ascii_of_nat 34) EmptyString.

(** The origin of the random texts: the [k]-th number the generator hands
    out while a request runs.  For [Math.random] it is the value of
    [Math.floor(Math.random() * chars.length)], below [chars.length]; for
    [crypto.getRandomValues] it is a byte. *)
Definition Entropy : Type := nat -> nat.

Module WorkerRoutes.

Definition chars : string :=
  "ABCDEFGHIJKLMNOPQRSTUVWXYZabcdefghijklmnopqrstuvwxyz0123456789".

(** The loop of [generateToken], from the draw [cursor] on. *)
Fixpoint generateLoop (random : Entropy) (cursor rounds : nat) (result : string)
  : string :=
  match rounds with
  | O => result
  | S rounds' =>
      generateLoop random (S cursor) rounds'
        (result ++ String_charAt chars (random cursor))
  end.

Definition generateToken (random : Entropy) (cursor : nat) : string :=
  generateLoop random cursor 32 EmptyString.

Definition reply (data : Content) (status : Z) : Reply := mkReply status data.

(** [JSON.stringify({ loggedIn: true, createdAt })] with the ISO text of the
    date. *)
Definition sessionRecord (createdAt : string) : string :=
  "{" ++ quoted "loggedIn" ++ ":true," ++ quoted "createdAt" ++ ":"
      ++ quoted createdAt ++ "}".

Section Login.
(** The ISO text of an instant, [new Date(t).toISOString()]. *)
Variable isoText : Z -> string.
Variable random : Entropy.

Definition handleAdminLogin (request : Request) (login : LoginBody) (env : Env)
  : M Reply :=
  if negb (String.eqb (method request) "POST")
  then ret (reply (Json (ErrorBody MethodNotAllowed)) 405)
  else
    try_catch
      (match login with
       | Unreadable => throw "Unexpected end of JSON input"
       | Password password =>
           if negb (JS.truthy (ADMIN_PASSWORD env))
           then ret (reply (LoginRefusedBody PasswordNotConfigured) 400)
           else if JS.strictEq password (ADMIN_PASSWORD env) then
             do stored <- Worker.getTokenConfig;
             do made <-
               match stored with
               | Some tokenConfig => ret (tokenConfig, 0%nat)
               | None =>
                   let tok := generateToken random 0 in
                   do t <- Date_now;
                   do expiresDate <- toISOString (Some (t + 30 * 24 * 60 * 60 * 1000));
                   let tokenConfig := mkTokenConfig tok expiresDate t None false in
                   do u <- put_token_config tokenConfig;
                   ret (tokenConfig, 32%nat)
               end;
             let sessionId := generateToken random (snd made) in
             do t <- Date_now;
             do u <- put_session sessionId (sessionRecord (isoText t));
             ret (reply (LoggedInBody sessionId (fst made)) 200)
           else ret (reply (LoginRefusedBody WrongPassword) 401)
       end)
      (fun message => ret (reply (Json (ErrorBody (ErrorMessage message))) 500)).

End Login.

Definition handleAdminLogout (env : Env) : M Reply :=
  try_catch (ret (reply LoggedOutBody 200))
    (fun message => ret (reply (Json (ErrorBody (ErrorMessage message))) 500)).

Definition addAuthToUrl (url : string) (sessionId : option string)
  (tokenConfig : option TokenConfig) : string :=
  if negb (JS.truthy sessionId)
     && negb (match tokenConfig with Some _ => true | None => false end)
  then url
  else
    let separator := if String_includes url "?" then "&" else "?" in
    if JS.truthy sessionId then
      url ++ separator ++ "session="
          ++ encodeURIComponent (match sessionId with
                                 | Some id => id
                                 | None => EmptyString
                                 end)
    else
      match tokenConfig with
      | Some c => url ++ separator ++ "token=" ++ encodeURIComponent (token c)
      | None => url
      end.

(** [getStoredSpeedIPs]: [None] is [getDefaultSpeedData()]. *)
Definition getStoredSpeedIPs (env : Env) : M (option FastSet) :=
  try_catch
    (if negb (IP_STORAGE_bound env) then ret None
     else get_fast_ips)
    (fun _ => ret None).

(** [data.fastIPs || []] *)
Definition fastIPs_of (data : option FastSet) : list LatencyResult :=
  match data with
  | Some f => fastIPs f
  | None => []
  end.

(** [String(n)] of an integer below [10^21] in absolute value: its decimal
    digits, after a minus sign when it is negative. *)
Fixpoint decimalDigits (fuel : nat) (n : Z) (acc : string) : string :=
  match fuel with
  | O => acc
  | S fuel' =>
      let acc' := String (ascii_of_nat (Z.to_nat (48 + n mod 10))) acc in
      if n <? 10 then acc' else decimalDigits fuel' (n / 10) acc'
  end.

Definition Number_toString (n : Z) : string :=
  if n <? 0
  then String "-" (decimalDigits (S (Z.to_nat (Z.log2 (- n)))) (- n) EmptyString)
  else decimalDigits (S (Z.to_nat (Z.log2 n))) n EmptyString.

Definition handleGetFastIPs (env : Env) (request : Request) : M Reply :=
  do allowed <- Worker.verifyAdmin request env;
  if negb allowed then ret (reply (Json (ErrorBody NeedAdmin)) 401)
  else
    do data <- getStoredSpeedIPs env;
    ret (reply (FastIPsBody data) 200).

Definition handleGetFastIPsText (env : Env) (request : Request) : M Reply :=
  do allowed <- Worker.verifyAdmin request env;
  if negb allowed then ret (reply (Json (ErrorBody NeedAdmin)) 401)
  else
    do data <- getStoredSpeedIPs env;
    let ipList :=
      Array_join LF
        (map (fun item => ip item ++ "#" ++ Number_toString (latency item) ++ "ms")
             (fastIPs_of data)) in
    ret (reply (TextBody ipList) 200).

(** The test of one address on request: the probe is the fetch of the test
    address with the name resolved to [ip]. *)
Definition handleSpeedTest (probe : string -> ProbeOutcome) (request : Request)
  (env : Env) : M Reply :=
  let ip := searchParams_get (searchParams request) "ip" in
  match ip with
  | Some address =>
      if negb (JS.truthy ip) then ret (reply IPRequiredBody 400)
      else
        match probe address with
        | Responded true _ =>
            do t <- Date_now;
            ret (reply (SpeedTestBody true address t) 200)
        | Responded false _ =>
            do t <- Date_now;
            ret (reply (SpeedTestBody false address t) 500)
        | Failed _ =>
            do t <- Date_now;
            ret (reply (SpeedTestBody false address t) 500)
        end
  | None => ret (reply IPRequiredBody 400)
  end.

Definition getDefaultData : StoredIPs := mkStoredIPs [] None 0 [].

Definition getStoredIPs (env : Env) : Run StoredIPs :=
  attempt
    (if negb (IP_STORAGE_bound env) then done getDefaultData
     else
       await data <- get_cloudflare_ips;
       match data with
       | Some d => done d
       | None => done getDefaultData
       end)
    (fun _ => done getDefaultData).

Definition handleGetIPs (env : Env) (request : Request) : Run Reply :=
  await allowed <- lift (Worker.verifyAdmin request env);
  if negb allowed then done (reply (Json (ErrorBody NeedAdmin)) 401)
  else
    await data <- getStoredIPs env;
    done (reply (TextBody (Array_join LF (stored_ips data))) 200).

Definition handleRawIPs (env : Env) (request : Request) : Run Reply :=
  await allowed <- lift (Worker.verifyAdmin request env);
  if negb allowed then done (reply (Json (ErrorBody NeedAdmin)) 401)
  else
    await data <- getStoredIPs env;
    done (reply (StoredIPsBody data) 200).

Definition handleItdogData (env : Env) (request : Request) : Run Reply :=
  await allowed <- lift (Worker.verifyAdmin request env);
  if negb allowed then done (reply (Json (ErrorBody NeedAdmin)) 401)
  else
    await data <- getStoredIPs env;
    done (reply (ItdogBody (stored_ips data) (stored_count data)) 200).

(** The harvest, its record, and the ranking run that follows: the body of
    the [try] of [handleUpdate] and of [scheduled]. *)
Definition collectAndStore (fetchURLWithTimeout : string -> FetchOutcome)
  (probe : string -> ProbeOutcome) : Run Harvest :=
  let harvest := Worker.updateAllIPs fetchURLWithTimeout in
  await t <- lift Date_now;
  await u <- put_cloudflare_ips
               (mkStoredIPs (uniqueIPs harvest) (Some t)
                  (List.length (uniqueIPs harvest)) (results harvest));
  await v <- lift (Worker.autoSpeedTestAndStore probe (uniqueIPs harvest));
  done harvest.

Definition handleUpdate (fetchURLWithTimeout : string -> FetchOutcome)
  (probe : string -> ProbeOutcome) (env : Env) (request : Request) : Run Reply :=
  await allowed <- lift (Worker.verifyAdmin request env);
  if negb allowed then done (reply (Json (ErrorBody NeedAdmin)) 401)
  else
    attempt
      (if negb (IP_STORAGE_bound env)
       then raise "KV namespace IP_STORAGE is not bound. Please check your Worker settings."
       else
         await harvest <- collectAndStore fetchURLWithTimeout probe;
         await t <- lift Date_now;
         done (reply (UpdatedBody (List.length (uniqueIPs harvest)) t (results harvest))
                 200))
      (fun message => done (reply (UpdateFailedBody message) 500)).

(** The cron trigger. *)
Definition scheduled (fetchURLWithTimeout : string -> FetchOutcome)
  (probe : string -> ProbeOutcome) (env : Env) : Run unit :=
  attempt
    (if negb (IP_STORAGE_bound env) then done tt
     else
       await harvest <- collectAndStore fetchURLWithTimeout probe;
       done tt)
    (fun _ => done tt).

(** The session identifier that [serveHTML] hands to its page. *)
Definition pageSession (isLoggedIn : bool) (request : Request) : option string :=
  if isLoggedIn then
    let sessionId := searchParams_get (searchParams request) "session" in
    if negb (JS.truthy sessionId) then
      match authorization request with
      | Some authHeader =>
          if JS.startsWith authHeader "Bearer "
          then Some (JS.slice_from 7 authHeader)
          else sessionId
      | None => sessionId
      end
    else sessionId
  else None.

Definition serveHTML (env : Env) (request : Request) : Run Reply :=
  await data <- getStoredIPs env;
  await speedData <- lift (getStoredSpeedIPs env);
  let fastIPs := fastIPs_of speedData in
  await isLoggedIn <- lift (Worker.verifyAdmin request env);
  let hasAdminPassword := JS.truthy (ADMIN_PASSWORD env) in
  await tokenConfig <- lift Worker.getTokenConfig;
  let sessionId := pageSession isLoggedIn request in
  done (reply
          (PageBody
             (mkPage isLoggedIn hasAdminPassword
                (match sessionId with
                 | Some id => if JS.truthy sessionId then id else EmptyString
                 | None => EmptyString
                 end)
                tokenConfig
                (if isLoggedIn then Some tokenConfig else None)
                (addAuthToUrl "/fast-ips.txt" sessionId tokenConfig)
                (addAuthToUrl "/ips" sessionId tokenConfig)
                (addAuthToUrl "/ip.txt" sessionId tokenConfig)
                (stored_count data)
                (stored_lastUpdated data)
                fastIPs
                (stored_sources data)))
          200).

Section Entry.
Variable isoText : Z -> string.
Variable random : Entropy.
Variable fetchURLWithTimeout : string -> FetchOutcome.
Variable probe : string -> ProbeOutcome.

(** The entry point with all its routes. *)
Definition fetch (request : Request) (login : LoginBody) (env : Env) : Run Reply :=
  let path := pathname request in
  if negb (IP_STORAGE_bound env) then done (reply (Json NotBoundBody) 500)
  else if String.eqb (method request) "OPTIONS" then done (reply (Json NoBody) 200)
  else
    attempt
      (if String.eqb path "/" then serveHTML env request
       else if String.eqb path "/update" then
         if negb (String.eqb (method request) "POST")
         then done (reply (Json (ErrorBody MethodNotAllowed)) 405)
         else handleUpdate fetchURLWithTimeout probe env request
       else if String.eqb path "/ips" then handleGetIPs env request
       else if String.eqb path "/ip.txt" then handleGetIPs env request
       else if String.eqb path "/raw" then handleRawIPs env request
       else if String.eqb path "/speedtest" then lift (handleSpeedTest probe request env)
       else if String.eqb path "/itdog-data" then handleItdogData env request
       else if String.eqb path "/fast-ips" then lift (handleGetFastIPs env request)
       else if String.eqb path "/fast-ips.txt" then lift (handleGetFastIPsText env request)
       else if String.eqb path "/admin-login"
       then lift (handleAdminLogin isoText random request login env)
       else if String.eqb path "/admin-status" then
         await r <- lift (Worker.handleAdminStatus env);
         done (reply (Json (body r)) (status r))
       else if String.eqb path "/admin-logout" then lift (handleAdminLogout env)
       else if String.eqb path "/admin-token" then
         await r <- lift (Worker.handleAdminToken request env);
         done (reply (Json (body r)) (status r))
       else done (reply (Json (ErrorBody EndpointNotFound)) 404))
      (fun message => done (reply (Json (ErrorBody (ErrorMessage message))) 500)).

End Entry.

End WorkerRoutes.

(** The token handler of each script. *)
Definition handleAdminToken_of (s : Script) : Request -> Env -> M Served :=
  match s with
  | MainWorker =>
      fun request env =>
        do r <- Worker.handleAdminToken request env;
        ret (Respond r)
  | Rewrite000 => Part000.handleAdminToken
  | Rewrite001 => Part001.handleAdminToken
  end.
(** The gate refuses a request that carries no live session and does not
    present the stored token before its expiry. *)
Definition stranger (script : Script) (request : Request) (w : World) : Prop :=
  noLiveSession w request = true
  /\ match kv_token_config w with
     | Some cfg =>
         expired cfg (now w) = true
         \/ presentsToken script request (token cfg) = false
     | None => True
     end.


(** A text of letters and digits only. *)
Fixpoint alphanumeric (s : string) : bool :=
  match s with
  | EmptyString => true
  | String c r =>
      (JS.isDigit c
       || ((65 <=? JS.code c) && (JS.code c <=? 90))
       || ((97 <=? JS.code c) && (JS.code c <=? 122)))
      && alphanumeric r
  end.

(** The instant thirty days after [t], in milliseconds. *)
Definition thirtyDaysAfter (t : Z) : Z := t + 30 * 24 * 60 * 60 * 1000.

(** The request presents [sid] as its session, in the way the script reads
    it: [src/_worker.js] looks the header up and then the query parameter,
    the rewrites look up the query parameter if it is not empty and the
    header otherwise. *)
Definition presentsSession (s : Script) (request : Request) (sid : string) : bool :=
  match s with
  | MainWorker =>
      JS.strictEq (bearerSession request) (Some sid)
      || (JS.strictEq (searchParams_get (searchParams request) "session") (Some sid)
          && JS.truthy (Some sid))
  | Rewrite000 | Rewrite001 =>
      JS.strictEq (Part000.presentedSession request) (Some sid)
      && JS.truthy (Some sid)
  end.

(** What a handler of the token route hands to [fetch]: its response, or
    nothing when it ends without a [return]. *)
Definition answer (r : Served) : option Reply :=
  match r with
  | Respond r => Some (mkReply (status r) (Json (body r)))
  | Undefined => None
  | NotModelled => None
  end.

Module Part000Routes.

(** [b.toString(16)] of a byte. *)
Definition toString16 (b : nat) : string :=
  if (b <? 16)%nat then String_charAt "0123456789abcdef" b
  else String_charAt "0123456789abcdef" (b / 16)
       ++ String_charAt "0123456789abcdef" (b mod 16).

(** [s.padStart(2, '0')] *)
Definition padStart2 (s : string) : string :=
  match String.length s with
  | 0%nat => "00"
  | 1%nat => "0" ++ s
  | _ => s
  end.

(** The sixteen bytes of [crypto.getRandomValues], each as two hexadecimal
    digits. *)
Definition generateToken (random : Entropy) (cursor : nat) : string :=
  Array_join EmptyString
    (map (fun k => padStart2 (toString16 (random (cursor + k)%nat))) (seq 0 16)).

(** [JSON.stringify({ loggedIn: true })] *)
Definition sessionRecord : string := "{" ++ quoted "loggedIn" ++ ":true}".

Definition handleAdminLogin (random : Entropy) (request : Request)
  (login : LoginBody) (env : Env) : M Reply :=
  if negb (String.eqb (method request) "POST")
  then ret (mkReply 405 (Json (ErrorBody MethodNotAllowed)))
  else
    try_catch
      (match login with
       | Unreadable => throw "Unexpected end of JSON input"
       | Password password =>
           if negb (JS.truthy (ADMIN_PASSWORD env))
           then ret (mkReply 400 (LoginRefusedBody PasswordNotConfigured))
           else if JS.strictEq password (ADMIN_PASSWORD env) then
             do stored <- Part000.getTokenConfig;
             do made <-
               match stored with
               | Some tokenConfig => ret (tokenConfig, 0%nat)
               | None =>
                   let tok := generateToken random 0 in
                   do t <- Date_now;
                   do expiresDate <- toISOString (Some (t + 30 * 24 * 3600 * 1000));
                   let tokenConfig := mkTokenConfig tok expiresDate t None false in
                   do u <- put_token_config tokenConfig;
                   ret (tokenConfig, 16%nat)
               end;
             let sessionId := generateToken random (snd made) in
             do u <- put_session sessionId sessionRecord;
             ret (mkReply 200 (LoggedInBody sessionId (fst made)))
           else ret (mkReply 401 (LoginRefusedBody WrongPassword))
       end)
      (fun message => ret (mkReply 500 (Json (ErrorBody (ErrorMessage message))))).

(** [{ ips: [], sources: [], count: 0 }] *)
Definition emptyData : StoredIPs := mkStoredIPs [] None 0 [].

Definition getStoredIPs : Run StoredIPs :=
  await data <- get_cloudflare_ips;
  done (match data with
        | Some d => d
        | None => emptyData
        end).

(** [getStoredSpeedIPs]: [None] is [{ fastIPs: [], count: 0 }]. *)
Definition getStoredSpeedIPs : M (option FastSet) := get_fast_ips.

Definition handleUpdate (fetch_text : string -> FetchOutcome)
  (probe : string -> ProbeOutcome) (env : Env) (request : Request) : Run Reply :=
  await allowed <- lift (Part000.verifyAdmin request env);
  if negb allowed then done (mkReply 401 (Json (ErrorBody NeedAdmin)))
  else
    let harvest := Part000.updateAllIPs fetch_text in
    await t <- lift Date_now;
    await u <- put_cloudflare_ips
                 (mkStoredIPs (uniqueIPs harvest) (Some t)
                    (List.length (uniqueIPs harvest)) (results harvest));
    await v <- lift (Part000.autoSpeedTestAndStore probe (uniqueIPs harvest));
    await timestamp <- lift Date_now;
    done (mkReply 200
            (UpdatedBody (List.length (uniqueIPs harvest)) timestamp (results harvest))).

Definition handleGetIPs (env : Env) (request : Request) : Run Reply :=
  await allowed <- lift (Part000.verifyAdmin request env);
  if negb allowed then done (mkReply 401 (Json (ErrorBody NeedAdmin)))
  else
    await data <- getStoredIPs;
    done (mkReply 200 (TextBody (Array_join LF (stored_ips data)))).

Definition handleGetFastIPsText (env : Env) (request : Request) : M Reply :=
  do allowed <- Part000.verifyAdmin request env;
  if negb allowed then ret (mkReply 401 (Json (ErrorBody NeedAdmin)))
  else
    do data <- getStoredSpeedIPs;
    ret (mkReply 200
           (TextBody
              (Array_join LF
                 (map (fun i => ip i ++ "#" ++ WorkerRoutes.Number_toString (latency i)
                                     ++ "ms")
                      (WorkerRoutes.fastIPs_of data))))).

Definition handleGetFastIPs (env : Env) (request : Request) : M Reply :=
  do allowed <- Part000.verifyAdmin request env;
  if negb allowed then ret (mkReply 401 (Json (ErrorBody NeedAdmin)))
  else
    do data <- getStoredSpeedIPs;
    ret (mkReply 200 (FastIPsBody data)).

Definition handleRawIPs (env : Env) (request : Request) : Run Reply :=
  await allowed <- lift (Part000.verifyAdmin request env);
  if negb allowed then done (mkReply 401 (Json (ErrorBody NeedAdmin)))
  else
    await data <- getStoredIPs;
    done (mkReply 200 (StoredIPsBody data)).

(** The probe is the fetch of the test address; any response counts. *)
Definition handleSpeedTest (probe : string -> ProbeOutcome) (request : Request)
  (env : Env) : M Reply :=
  let ip := searchParams_get (searchParams request) "ip" in
  match ip with
  | Some address =>
      if negb (JS.truthy ip) then ret (mkReply 400 IPRequiredBody)
      else
        match probe address with
        | Responded _ elapsed => ret (mkReply 200 (MeasuredBody true elapsed))
        | Failed message => ret (mkReply 200 (ProbeFailedBody message))
        end
  | None => ret (mkReply 400 IPRequiredBody)
  end.

Definition handleAdminLogout : M Reply := ret (mkReply 200 LoggedOutBody).

Definition handleItdogData (env : Env) (request : Request) : Run Reply :=
  await allowed <- lift (Part000.verifyAdmin request env);
  if negb allowed then done (mkReply 401 (Json (ErrorBody NeedAdmin)))
  else
    await data <- getStoredIPs;
    done (mkReply 200 (AddressesBody (stored_ips data))).

Definition serveHTML (env : Env) (request : Request) : Run Reply :=
  await data <- getStoredIPs;
  await speedData <- lift getStoredSpeedIPs;
  await isLoggedIn <- lift (Part000.verifyAdmin request env);
  await tokenConfig <- lift Part000.getTokenConfig;
  let sessionId :=
    match searchParams_get (searchParams request) "session" with
    | Some id => id
    | None => EmptyString
    end in
  done (mkReply 200
          (Page000Body
             (mkPage000 isLoggedIn
                (stored_count data)
                (match speedData with
                 | Some f => count f
                 | None => 0%nat
                 end)
                (stored_lastUpdated data)
                (if isLoggedIn then Some (option_map token tokenConfig) else None)
                (WorkerRoutes.fastIPs_of speedData)
                sessionId
                (match tokenConfig with
                 | Some c => token c
                 | None => EmptyString
                 end)))).

(** The cron trigger. *)
Definition scheduled (fetch_text : string -> FetchOutcome)
  (probe : string -> ProbeOutcome) (env : Env) : Run unit :=
  attempt
    (if negb (IP_STORAGE_bound env) then done tt
     else
       let harvest := Part000.updateAllIPs fetch_text in
       await t <- lift Date_now;
       await u <- put_cloudflare_ips
                    (mkStoredIPs (uniqueIPs harvest) (Some t)
                       (List.length (uniqueIPs harvest)) (results harvest));
       lift (Part000.autoSpeedTestAndStore probe (uniqueIPs harvest)))
    (fun _ => done tt).

Section Entry.
Variable random : Entropy.
Variable fetch_text : string -> FetchOutcome.
Variable probe : string -> ProbeOutcome.

(** The entry point with all its routes; [/update] runs on any method. *)
Definition fetch (request : Request) (login : LoginBody) (env : Env)
  : Run (option Reply) :=
  let path := pathname request in
  if negb (IP_STORAGE_bound env) then done (Some (mkReply 500 (Json NotBoundBody)))
  else if String.eqb (method request) "OPTIONS"
  then done (Some (mkReply 200 (Json NoBody)))
  else
    attempt
      (if String.eqb path "/" then
         await r <- serveHTML env request; done (Some r)
       else if String.eqb path "/update" then
         await r <- handleUpdate fetch_text probe env request; done (Some r)
       else if String.eqb path "/ips" then
         await r <- handleGetIPs env request; done (Some r)
       else if String.eqb path "/ip.txt" then
         await r <- handleGetIPs env request; done (Some r)
       else if String.eqb path "/raw" then
         await r <- handleRawIPs env request; done (Some r)
       else if String.eqb path "/speedtest" then
         await r <- lift (handleSpeedTest probe request env); done (Some r)
       else if String.eqb path "/itdog-data" then
         await r <- handleItdogData env request; done (Some r)
       else if String.eqb path "/fast-ips" then
         await r <- lift (handleGetFastIPs env request); done (Some r)
       else if String.eqb path "/fast-ips.txt" then
         await r <- lift (handleGetFastIPsText env request); done (Some r)
       else if String.eqb path "/admin-login" then
         await r <- lift (handleAdminLogin random request login env); done (Some r)
       else if String.eqb path "/admin-status" then
         await r <- lift (Part000.handleAdminStatus env);
         done (Some (mkReply (status r) (Json (body r))))
       else if String.eqb path "/admin-logout" then
         await r <- lift handleAdminLogout; done (Some r)
       else if String.eqb path "/admin-token" then
         await r <- lift (Part000.handleAdminToken request env);
         done (answer r)
       else done (Some (mkReply 404 (Json (ErrorBody EndpointNotFound)))))
      (fun message =>
         done (Some (mkReply 500 (Json (ErrorBody (ErrorMessage message)))))).

End Entry.

End Part000Routes.

Module Part001Routes.

Definition generateRandomString (random : Entropy) (cursor len : nat) : string :=
  WorkerRoutes.generateLoop random cursor len EmptyString.

Definition handleAdminLogin (random : Entropy) (request : Request)
  (login : LoginBody) (env : Env) : M Reply :=
  if negb (String.eqb (method request) "POST")
  then ret (mkReply 405 (Json (ErrorBody MethodNotAllowed)))
  else
    match login with
    | Unreadable => throw "Unexpected end of JSON input"
    | Password password =>
        if negb (JS.truthy (ADMIN_PASSWORD env))
        then ret (mkReply 400 (LoginRefusedBody PasswordNotConfigured))
        else if JS.strictEq password (ADMIN_PASSWORD env) then
          do stored <- Part001.getTokenConfig;
          do made <-
            match stored with
            | Some tokenConfig => ret (tokenConfig, 0%nat)
            | None =>
                let tok := generateRandomString random 0 32 in
                do t <- Date_now;
                do expiresDate <- toISOString (Some (t + 30 * 86400000));
                let tokenConfig := mkTokenConfig tok expiresDate t None false in
                do u <- put_token_config tokenConfig;
                ret (tokenConfig, 32%nat)
            end;
          let sessionId := generateRandomString random (snd made) 32 in
          do u <- put_session sessionId Part000Routes.sessionRecord;
          ret (mkReply 200 (LoggedInBody sessionId (fst made)))
        else ret (mkReply 401 (LoginRefusedBody WrongPassword))
    end.

(** The promises handed to [ctx.waitUntil]: work that goes on after the
    response. *)
Definition Waiting : Type := list (M unit).

Definition handleUpdate (fetch_text : string -> FetchOutcome)
  (probe : string -> ProbeOutcome) (env : Env) (request : Request)
  : Run (Reply * Waiting) :=
  await allowed <- lift (Part001.verifyAdmin request env);
  if negb allowed then done (mkReply 401 (Json (ErrorBody NeedAdmin)), [])
  else
    let harvest := Part001.updateAllIPs fetch_text in
    await t <- lift Date_now;
    await u <- put_cloudflare_ips
                 (mkStoredIPs (uniqueIPs harvest) (Some t)
                    (List.length (uniqueIPs harvest)) (results harvest));
    let waiting := [Part001.autoSpeedTestAndStore probe (uniqueIPs harvest)] in
    await timestamp <- lift Date_now;
    done (mkReply 200 (StartedBody (List.length (uniqueIPs harvest)) timestamp),
          waiting).

Definition handleGetIPs (env : Env) (request : Request) : Run Reply :=
  await allowed <- lift (Part001.verifyAdmin request env);
  if negb allowed then done (mkReply 401 (Json (ErrorBody NeedAdmin)))
  else
    await data <- get_cloudflare_ips;
    let ips := match data with
               | Some d => stored_ips d
               | None => []
               end in
    done (mkReply 200 (TextBody (Array_join LF ips))).

Definition handleGetFastIPs (env : Env) (request : Request) : M Reply :=
  do allowed <- Part001.verifyAdmin request env;
  if negb allowed then ret (mkReply 401 (Json (ErrorBody NeedAdmin)))
  else
    do data <- get_fast_ips;
    ret (mkReply 200 (FastIPsBody data)).

Definition handleGetFastIPsText (env : Env) (request : Request) : M Reply :=
  do allowed <- Part001.verifyAdmin request env;
  if negb allowed then ret (mkReply 401 (Json (ErrorBody NeedAdmin)))
  else
    do data <- get_fast_ips;
    let fast := match data with
                | Some f => fastIPs f
                | None => []
                end in
    ret (mkReply 200
           (TextBody
              (Array_join LF
                 (map (fun i => ip i ++ "#" ++ WorkerRoutes.Number_toString (latency i)
                                     ++ "ms")
                      fast)))).

Definition handleRawIPs (env : Env) (request : Request) : Run Reply :=
  await allowed <- lift (Part001.verifyAdmin request env);
  if negb allowed then done (mkReply 401 (Json (ErrorBody NeedAdmin)))
  else
    await data <- get_cloudflare_ips;
    done (mkReply 200 (RawBody data)).

Definition handleAdminLogout : M Reply := ret (mkReply 200 LoggedOutBody).

Definition handleItdogData (env : Env) (request : Request) : Run Reply :=
  await allowed <- lift (Part001.verifyAdmin request env);
  if negb allowed then done (mkReply 401 (Json (ErrorBody NeedAdmin)))
  else
    await data <- get_cloudflare_ips;
    done (mkReply 200
            (AddressesBody (match data with
                            | Some d => stored_ips d
                            | None => []
                            end))).

(** The probe is the fetch of the test address; [success] is [res.ok]. *)
Definition handleSpeedTest (probe : string -> ProbeOutcome) (request : Request)
  (env : Env) : M Reply :=
  let ip := searchParams_get (searchParams request) "ip" in
  match ip with
  | Some address =>
      if negb (JS.truthy ip) then ret (mkReply 400 IPRequiredBody)
      else
        match probe address with
        | Responded ok elapsed => ret (mkReply 200 (MeasuredBody ok elapsed))
        | Failed message => ret (mkReply 200 (ProbeFailedBody message))
        end
  | None => ret (mkReply 400 IPRequiredBody)
  end.

Definition serveHTML (env : Env) (request : Request) : Run Reply :=
  done (mkReply 200 StaticPageBody).

(** The cron trigger. *)
Definition scheduled (fetch_text : string -> FetchOutcome)
  (probe : string -> ProbeOutcome) (env : Env) : Run unit :=
  attempt
    (if negb (IP_STORAGE_bound env) then done tt
     else
       let harvest := Part001.updateAllIPs fetch_text in
       await t <- lift Date_now;
       await u <- put_cloudflare_ips
                    (mkStoredIPs (uniqueIPs harvest) (Some t)
                       (List.length (uniqueIPs harvest)) (results harvest));
       lift (Part001.autoSpeedTestAndStore probe (uniqueIPs harvest)))
    (fun _ => done tt).

Section Entry.
Variable random : Entropy.
Variable fetch_text : string -> FetchOutcome.
Variable probe : string -> ProbeOutcome.

(** The entry point with all its routes; [/update] runs on any method. *)
Definition fetch (request : Request) (login : LoginBody) (env : Env)
  : Run (option Reply * Waiting) :=
  let path := pathname request in
  if negb (IP_STORAGE_bound env) then done (Some (mkReply 500 (Json NotBoundBody)), [])
  else if String.eqb (method request) "OPTIONS"
  then done (Some (mkReply 200 (Json NoBody)), [])
  else
    attempt
      (if String.eqb path "/" then
         await r <- serveHTML env request; done (Some r, [])
       else if String.eqb path "/update" then
         await r <- handleUpdate fetch_text probe env request;
         done (Some (fst r), snd r)
       else if String.eqb path "/ips" then
         await r <- handleGetIPs env request; done (Some r, [])
       else if String.eqb path "/ip.txt" then
         await r <- handleGetIPs env request; done (Some r, [])
       else if String.eqb path "/raw" then
         await r <- handleRawIPs env request; done (Some r, [])
       else if String.eqb path "/speedtest" then
         await r <- lift (handleSpeedTest probe request env); done (Some r, [])
       else if String.eqb path "/itdog-data" then
         await r <- handleItdogData env request; done (Some r, [])
       else if String.eqb path "/fast-ips" then
         await r <- lift (handleGetFastIPs env request); done (Some r, [])
       else if String.eqb path "/fast-ips.txt" then
         await r <- lift (handleGetFastIPsText env request); done (Some r, [])
       else if String.eqb path "/admin-login" then
         await r <- lift (handleAdminLogin random request login env); done (Some r, [])
       else if String.eqb path "/admin-status" then
         await r <- lift (Part001.handleAdminStatus env);
         done (Some (mkReply (status r) (Json (body r))), [])
       else if String.eqb path "/admin-logout" then
         await r <- lift handleAdminLogout; done (Some r, [])
       else if String.eqb path "/admin-token" then
         await r <- lift (Part001.handleAdminToken request env);
         done (answer r, [])
       else done (Some (mkReply 404 (Json (ErrorBody EndpointNotFound))), []))
      (fun message =>
         done (Some (mkReply 500 (Json (ErrorBody (ErrorMessage message)))), [])).

(** The runtime settles what was handed to [ctx.waitUntil] after the
    response; a promise that rejects there changes nothing of the
    response. *)
Fixpoint settle (waiting : Waiting) : Run unit :=
  match waiting with
  | [] => done tt
  | promise :: rest =>
      await u <- lift (try_catch promise (fun _ => ret tt));
      settle rest
  end.

Definition serve (request : Request) (login : LoginBody) (env : Env)
  : Run (option Reply) :=
  await r <- fetch request login env;
  await u <- settle (snd r);
  done (fst r).

End Entry.

End Part001Routes.

(** The login handler of each script, and the texts it draws: the token of a
    first login from the draw 0 on, the session identifier after it. *)
Definition handleAdminLogin_of (s : Script) (isoText : Z -> string)
  (random : Entropy) : Request -> LoginBody -> Env -> M Reply :=
  match s with
  | MainWorker => WorkerRoutes.handleAdminLogin isoText random
  | Rewrite000 => Part000Routes.handleAdminLogin random
  | Rewrite001 => Part001Routes.handleAdminLogin random
  end.

Definition generateToken_of (s : Script) (random : Entropy) (cursor : nat) : string :=
  match s with
  | MainWorker => WorkerRoutes.generateToken random cursor
  | Rewrite000 => Part000Routes.generateToken random cursor
  | Rewrite001 => Part001Routes.generateRandomString random cursor 32
  end.

Definition draws_of (s : Script) : nat :=
  match s with
  | MainWorker | Rewrite001 => 32%nat
  | Rewrite000 => 16%nat
  end.

(** The token record and the session identifier of a login from [w]. *)
Definition loginToken (s : Script) (random : Entropy) (w : World) : TokenConfig :=
  match kv_token_config w with
  | Some c => c
  | None =>
      mkTokenConfig (generateToken_of s random 0) (thirtyDaysAfter (now w)) (now w)
        None false
  end.

Definition loginSession (s : Script) (random : Entropy) (w : World) : string :=
  generateToken_of s random
    (match kv_token_config w with
     | Some _ => 0%nat
     | None => draws_of s
     end).

(** A request served by each script, to the end of the work it started. *)
Definition serve_of (s : Script) (isoText : Z -> string) (random : Entropy)
  (fetched : string -> FetchOutcome) (probe : string -> ProbeOutcome)
  : Request -> LoginBody -> Env -> Run (option Reply) :=
  match s with
  | MainWorker =>
      fun request login env =>
        await r <- WorkerRoutes.fetch isoText random fetched probe request login env;
        done (Some r)
  | Rewrite000 => Part000Routes.fetch random fetched probe
  | Rewrite001 => Part001Routes.serve random fetched probe
  end.

Definition scheduled_of (s : Script)
  : (string -> FetchOutcome) -> (string -> ProbeOutcome) -> Env -> Run unit :=
  match s with
  | MainWorker => WorkerRoutes.scheduled
  | Rewrite000 => Part000Routes.scheduled
  | Rewrite001 => Part001Routes.scheduled
  end.

(** The routes that ask for credentials. *)
Definition protectedRoutes : list string :=
  ["/ips"; "/ip.txt"; "/raw"; "/itdog-data"; "/fast-ips"; "/fast-ips.txt";
   "/admin-token"; "/update"].

(** The routes that read the list or the ranking. *)
Definition readingRoutes : list string :=
  ["/ips"; "/ip.txt"; "/raw"; "/itdog-data"; "/fast-ips"; "/fast-ips.txt"].

(** A body with no address in it. *)
Definition holdsNoAddress (c : Content) : bool :=
  match c with
  | TextBody text => String.eqb text EmptyString
  | StoredIPsBody d => (List.length (stored_ips d) =? 0)%nat
  | ItdogBody ips _ => (List.length ips =? 0)%nat
  | AddressesBody ips => (List.length ips =? 0)%nat
  | FastIPsBody data => (List.length (WorkerRoutes.fastIPs_of data) =? 0)%nat
  | _ => false
  end.

(** The records of the namespace are the same in two sites. *)
Definition sameRecords (s s' : Site) : Prop :=
  kv_cloudflare_ips s' = kv_cloudflare_ips s
  /\ kv_token_config (site_world s') = kv_token_config (site_world s)
  /\ kv_sessions (site_world s') = kv_sessions (site_world s)
  /\ kv_fast_ips (site_world s') = kv_fast_ips (site_world s).

(** A line of [/fast-ips.txt]. *)
Definition fastLine (item : LatencyResult) : string :=
  ip item ++ "#" ++ WorkerRoutes.Number_toString (latency item) ++ "ms".

(** ** Visitors, sites and draws of the examples *)

(** [GET <path>] with no credentials, and with the session of the examples. *)
Definition visitor (path : string) : Request := mkRequest "GET" path [] None None.
Definition admin (verb path : string) : Request :=
  mkRequest verb path [] (Some "Bearer abc") None.

(** A site with a session, a token ahead of the clock, no list and no fault. *)
Definition exampleSite : Site := mkSite (world storedSession freshToken []) None.

(** Draws that walk through the alphabet, and a stub for the ISO text. *)
Definition exampleDraws : Entropy := fun k => (k mod 62)%nat.
Definition exampleISO (t : Z) : string := "1970-01-01T00:00:02.000Z".

(** The same site with a namespace whose third operation throws, and one
    that holds a list and whose second operation throws. *)
Definition faultySite : Site :=
  mkSite (world storedSession freshToken [false; false; true]) None.
Definition brokenSite : Site :=
  mkSite (world storedSession freshToken [false; true])
    (Some (mkStoredIPs ["1.1.1.1"] (Some 1000) 1 [])).

(** Twenty-six addresses, [1.1.1.1] to [1.1.1.26], and a probe that succeeds
    on each of them, the faster the higher its last number. *)
Definition crowd : list string :=
  map (fun k => "1.1.1." ++ WorkerRoutes.Number_toString (Z.of_nat k)) (seq 1 26).
Definition crowdProbe (a : string) : ProbeOutcome :=
  match JS.parseInt (nth 3 (JS.split "." a) EmptyString) with
  | Some n => Responded true (100 - n)
  | None => Failed "timeout"
  end.

(** [/speedtest?ip=1.1.1.1] from a visitor. *)
Definition speedRequest : Request :=
  mkRequest "GET" "/speedtest" [("ip", "1.1.1.1")] None None.

(** A login with the password of the examples. *)
Definition loginRequest : Request := mkRequest "POST" "/admin-login" [] None None.

(* ===================================================================== *)
(** * Reasoning about runs                                                *)
(* ===================================================================== *)

Lemma post_ret {A : Type} (a : A) (w : World) (P : Outcome A -> World -> Prop) :
  P (Returned a) w -> post (ret a) w P.
Proof. exact (fun H => H). Qed.

Lemma post_throw {A : Type} (e : string) (w : World) (P : Outcome A -> World -> Prop) :
  P (Threw e) w -> post (throw e) w P.
Proof. exact (fun H => H). Qed.

Lemma post_bind {A B : Type} (m : M A) (k : A -> M B) (w : World)
  (P : Outcome B -> World -> Prop) :
  post m w (fun r w1 =>
              match r with
              | Returned a => post (k a) w1 P
              | Threw e => P (Threw e) w1
              end) ->
  post (bind m k) w P.
Proof.
  unfold post, bind. destruct (m w) as [[a | e] w1]; simpl; auto.
Qed.

Lemma post_try_catch {A : Type} (m : M A) (h : string -> M A) (w : World)
  (P : Outcome A -> World -> Prop) :
  post m w (fun r w1 =>
              match r with
              | Returned a => P (Returned a) w1
              | Threw e => post (h e) w1 P
              end) ->
  post (try_catch m h) w P.
Proof.
  unfold post, try_catch. destruct (m w) as [[a | e] w1]; simpl; auto.
Qed.

Lemma post_storage {A : Type} (read : World -> A) (write : World -> World)
  (w : World) (P : Outcome A -> World -> Prop) :
  P (Returned (read w)) (write (passed w)) ->
  P (Threw "KV") (failed w) ->
  post (storage read write) w P.
Proof.
  unfold post, storage, passed, failed.
  destruct (faults w) as [|[] rest]; simpl; auto.
Qed.

Lemma post_Date_now (w : World) (P : Outcome Z -> World -> Prop) :
  P (Returned (now w)) w -> post Date_now w P.
Proof. exact (fun H => H). Qed.

Lemma post_lookupSession (id : string) (w : World) (P : Outcome bool -> World -> Prop) :
  P (Returned (sessionLive w (Some id))) (passed w) ->
  P (Threw "KV") (failed w) ->
  post (lookupSession id) w P.
Proof.
  intros H1 H2. unfold lookupSession, get_session.
  apply post_bind, post_storage; [apply post_ret; exact H1 | exact H2].
Qed.

(** One step of the symbolic run of a computation. *)
Ltac wp_step :=
  lazymatch goal with
  | |- post (bind _ _) _ _ => apply post_bind
  | |- post (try_catch _ _) _ _ => apply post_try_catch
  | |- post (ret _) _ _ => apply post_ret
  | |- post (throw _) _ _ => apply post_throw
  | |- post Date_now _ _ => apply post_Date_now
  | |- post (lookupSession _) _ _ => apply post_lookupSession
  | |- post (storage _ _) _ _ => apply post_storage
  | |- post (get_token_config) _ _ => apply post_storage
  | |- post (put_token_config _) _ _ => apply post_storage
  | |- post (put_fast_ips _) _ _ => apply post_storage
  | |- post (if ?b then _ else _) _ _ => destruct b eqn:?
  | |- post (match ?x with _ => _ end) _ _ => destruct x eqn:?
  end; cbv beta iota.

Ltac wp := repeat wp_step.

(** Projections of the worlds a run goes through. *)
Ltac worlds :=
  unfold passed, failed, set_token_config, set_faults, raise_fault, sessionLive in *;
  cbn [kv_sessions kv_token_config kv_fast_ips now faults thrown] in *.

Ltac use_eqs :=
  repeat match goal with
         | H : ?x = _ |- context [?x] => rewrite H
         end.

Ltac verdict_leaf :=
  split; [| repeat split; reflexivity];
  worlds;
  first
    [ apply FaultDenied; [discriminate | cbn [thrown]; lia | reflexivity]
    | eapply FaultThrown; [reflexivity | cbn [thrown]; lia | reflexivity]
    | apply BySession;
      [ unfold noLiveSession, bearerSession, sessionLive; use_eqs;
        rewrite ?andb_false_r; reflexivity
      | reflexivity | reflexivity ]
    | eapply ByToken;
      [ eassumption
      | unfold expired; assumption
      | unfold presentsToken, headerToken; use_eqs; cbn [JS.strictEq]; use_eqs;
        rewrite ?orb_true_r; reflexivity
      | reflexivity | reflexivity ]
    | apply Denied;
      [ use_eqs; auto;
        first [ left; unfold expired; assumption
              | right; unfold presentsToken, headerToken; use_eqs;
                cbn [JS.strictEq]; use_eqs; reflexivity ]
      | reflexivity | reflexivity ] ].

Lemma Worker_verifyAdmin_verdict (request : Request) (env : Env) (w : World) :
  JS.truthy (ADMIN_PASSWORD env) = true ->
  post (Worker.verifyAdmin request env) w
    (fun r w' => Verdict MainWorker request w r w' /\ sameFrame w w').
Proof.
  intros Hpw. unfold Worker.verifyAdmin. rewrite Hpw. simpl negb. cbv iota.
  unfold Worker.checkHeaderSession, Worker.checkQuerySession, Worker.checkToken,
    Worker.getTokenConfig, Worker.touch.
  wp.
  all: verdict_leaf.
Qed.

Lemma noLive_presented (w : World) (request : Request) :
  sessionLive w (Part000.presentedSession request) = true ->
  noLiveSession w request = false.
Proof.
  unfold Part000.presentedSession, JS.orElse, noLiveSession.
  fold (bearerSession request).
  destruct (JS.truthy (searchParams_get (searchParams request) "session"));
    intros ->; rewrite ?andb_false_r; reflexivity.
Qed.

Lemma Part000_checkCredentials_verdict (script : Script) (handled : bool)
  (request : Request) (w : World) :
  script = (if handled then Rewrite000 else Rewrite001) ->
  post (Part000.checkCredentials request) w
    (fun r w' =>
       match r with
       | Returned _ => Verdict script request w r w'
       | Threw _ =>
           (thrown w < thrown w')%nat /\ kv_token_config w' = kv_token_config w
       end /\ sameFrame w w').
Proof.
  intros Hs.
  unfold Part000.checkCredentials, Part000.checkSession, Part000.checkToken,
    Part000.getTokenConfig.
  wp.
  all: split; [| repeat split; reflexivity]; worlds.
  all: try (split; [lia | first [reflexivity | assumption]]).
  all: subst script; destruct handled;
    first
      [ apply BySession;
        [ apply noLive_presented; unfold sessionLive; use_eqs;
          first [assumption | reflexivity]
        | reflexivity | reflexivity ]
      | eapply ByToken;
        [ eassumption | unfold expired; assumption
        | unfold presentsToken; assumption | reflexivity | reflexivity ]
      | apply Denied;
        [ use_eqs; auto;
          first [ left; unfold expired; assumption
                | right; unfold presentsToken; assumption ]
        | reflexivity | reflexivity ] ].
Qed.

Lemma post_consequence {A : Type} (m : M A) (w : World)
  (P Q : Outcome A -> World -> Prop) :
  post m w P -> (forall r w', P r w' -> Q r w') -> post m w Q.
Proof. unfold post. auto. Qed.

(** The decision table holds of the three scripts. *)
Lemma verifyAdmin_verdict (script : Script) (request : Request) (env : Env)
  (w : World) :
  JS.truthy (ADMIN_PASSWORD env) = true ->
  post (verifyAdmin_of script request env) w
    (fun r w' => Verdict script request w r w' /\ sameFrame w w').
Proof.
  intros Hpw. destruct script.
  - apply Worker_verifyAdmin_verdict, Hpw.
  - unfold verifyAdmin_of, Part000.verifyAdmin. rewrite Hpw. cbn [negb].
    apply post_try_catch.
    apply (post_consequence _ _ _ _
             (Part000_checkCredentials_verdict Rewrite000 true request w eq_refl)).
    intros [b | e] w' [H F]; [split; assumption|].
    apply post_ret. split; [|exact F].
    destruct H as [Ht Hc]. apply FaultDenied; [discriminate | exact Ht | exact Hc].
  - unfold verifyAdmin_of, Part001.verifyAdmin. rewrite Hpw. cbn [negb].
    apply (post_consequence _ _ _ _
             (Part000_checkCredentials_verdict Rewrite001 false request w eq_refl)).
    intros [b | e] w' [H F]; [split; assumption|].
    split; [|exact F].
    destruct H as [Ht Hc]. apply FaultThrown; [reflexivity | exact Ht | exact Hc].
Qed.

Lemma verifyAdmin_open (script : Script) (request : Request) (env : Env) (w : World) :
  JS.truthy (ADMIN_PASSWORD env) = false ->
  verifyAdmin_of script request env w = (Returned true, w).
Proof.
  intros H. destruct script; cbn [verifyAdmin_of];
    unfold Worker.verifyAdmin, Part000.verifyAdmin, Part001.verifyAdmin;
    rewrite H; reflexivity.
Qed.

(** ** The token rotation *)

Lemma post_toISOString (t : option Z) (w : World) (P : Outcome Z -> World -> Prop) :
  (forall v, t = Some v -> - MAX_TIME <= v <= MAX_TIME -> P (Returned v) w) ->
  P (Threw "Invalid time value") w ->
  post (toISOString t) w P.
Proof.
  intros Hin Hout. unfold post, toISOString.
  destruct t as [v|]; [|exact Hout].
  destruct ((- MAX_TIME <=? v) && (v <=? MAX_TIME)) eqn:E; [|exact Hout].
  apply andb_true_iff in E. destruct E as [E1 E2].
  apply Z.leb_le in E1. apply Z.leb_le in E2.
  apply Hin; [reflexivity | lia].
Qed.

Ltac wp_step' :=
  first [ apply post_toISOString; [intros ? ? ? |] | wp_step ].

(** X8. The rotation handler of [src/_worker.js] keeps the expiry within 1 and
    365 days: outside the bounds it answers 400 and writes nothing, and a
    200 comes with the record it stored. *)
Lemma Worker_handleAdminToken_bounds (request : Request) (env : Env) (w w1 : World)
  (data : TokenRequest) (d : Z) :
  method request = "POST" ->
  json request = Some data ->
  req_neverExpire data = false ->
  req_expiresDays data = Some d ->
  Worker.verifyAdmin request env w = (Returned true, w1) ->
  post (Worker.handleAdminToken request env) w
    (fun o w2 =>
       (d < 1 \/ 365 < d ->
        (exists e, o = Returned (jsonResponse (ErrorBody e) 400)) /\ w2 = w1)
       /\ (forall resp, o = Returned resp -> status resp = 200 ->
           1 <= d <= 365
           /\ exists tok,
                req_token data = Some tok
                /\ body resp
                   = TokenUpdatedBody
                       (mkTokenConfig (JS.trim tok) (now w + d * Worker.DAY_MS)
                          (now w) None false)
                /\ kv_token_config w2
                   = Some (mkTokenConfig (JS.trim tok) (now w + d * Worker.DAY_MS)
                             (now w) None false))).
Proof.
  intros Hm Hj Hn Hd Hauth.
  assert (Hnow : now w1 = now w).
  { destruct (JS.truthy (ADMIN_PASSWORD env)) eqn:Hpw.
    - destruct (verifyAdmin_verdict MainWorker request env w Hpw) as [_ [_ [_ F]]].
      cbn [verifyAdmin_of] in F. rewrite Hauth in F. exact F.
    - pose proof (verifyAdmin_open MainWorker request env w Hpw) as O.
      cbn [verifyAdmin_of] in O. congruence. }
  unfold Worker.handleAdminToken.
  apply post_bind. unfold post at 1. rewrite Hauth. cbn [fst snd negb].
  rewrite Hm, Hj, Hn, Hd.
  change (String.eqb "POST" "GET") with false.
  change (String.eqb "POST" "POST") with true.
  cbv iota.
  repeat wp_step'.
  all: worlds.
  all: repeat match goal with
         | H : (_ || _) = false |- _ => apply orb_false_iff in H; destruct H
         | H : (_ <? _) = false |- _ => apply Z.ltb_ge in H
         | H : (_ >? _) = false |- _ => rewrite Z.gtb_ltb in H; apply Z.ltb_ge in H
         | H : (_ =? _) = false |- _ => apply Z.eqb_neq in H
         | H : Some _ = Some _ |- _ => injection H as H
         end.
  all: split;
    [ intros Hr;
      first [ split; [eexists; reflexivity | reflexivity] | exfalso; lia ]
    | intros resp E Hs; injection E as E; subst resp; cbn in Hs;
      try discriminate ].
  (* the one answer with status 200 *)
  split; [lia|].
  destruct (req_token data) as [tok|]; [|discriminate].
  exists tok. subst. rewrite Hnow. repeat split; reflexivity.
Qed.

(** ** Matches of a pattern *)

Lemma string_app_cons (x : ascii) (a b : string) :
  String x a ++ b = String x (a ++ b).
Proof. reflexivity. Qed.

Lemma string_app_assoc (a b c : string) : (a ++ b) ++ c = a ++ (b ++ c).
Proof.
  induction a as [|x a IH]; [reflexivity|].
  rewrite !string_app_cons, IH. reflexivity.
Qed.

Lemma string_length_app (a b : string) :
  String.length (a ++ b) = (String.length a + String.length b)%nat.
Proof.
  induction a as [|x a IH]; [reflexivity|].
  rewrite string_app_cons. cbn [String.length]. rewrite IH. reflexivity.
Qed.

Lemma substring_prefix (a b : string) :
  String.substring 0 (String.length a) (a ++ b) = a.
Proof.
  induction a as [|x a IH].
  - destruct b; reflexivity.
  - rewrite string_app_cons. cbn [String.length String.substring].
    rewrite IH. reflexivity.
Qed.

(** A successful match consumed a text of the pattern and handed the rest
    to its continuation. *)
Lemma rmatch_sound (r : JS.regex) :
  forall prev s k rest,
    JS.rmatch r prev s k = Some rest ->
    exists m s' p, s = m ++ s' /\ lang r m /\ k p s' = Some rest.
Proof.
  induction r as [| a | | a IHa b IHb | lo hi a IHa]; intros prev s k rest H.
  - simpl in H. destruct s as [|c s']; [discriminate|].
    destruct (JS.isDigit c) eqn:D; [|discriminate].
    exists (String c ""), s', (JS.isWordChar c). simpl. eauto.
  - simpl in H. destruct s as [|c s']; [discriminate|].
    destruct (Ascii.eqb_spec c a) as [->|]; [|discriminate].
    exists (String a ""), s', (JS.isWordChar a). simpl. eauto.
  - simpl in H. destruct (xorb prev (JS.nextIsWord s)); [|discriminate].
    exists "", s, prev. simpl. eauto.
  - simpl in H. apply IHa in H. destruct H as (m1 & s1 & p1 & -> & L1 & H).
    apply IHb in H. destruct H as (m2 & s2 & p2 & -> & L2 & H).
    exists (m1 ++ m2), s2, p2. rewrite string_app_assoc. simpl. eauto 10.
  - simpl in H. revert lo prev s k rest H.
    induction hi as [|n IHn]; intros lo prev s k rest H.
    + destruct lo; [|discriminate].
      exists "", s, prev. simpl. split; [reflexivity|]. split; [|exact H].
      exists 0%nat. simpl. split; [lia | reflexivity].
    + destruct lo as [|lo'].
      * destruct (JS.rmatch a prev s _) as [rest'|] eqn:E.
        -- injection H as ->. apply IHa in E.
           destruct E as (m1 & s1 & p1 & -> & L1 & E).
           apply IHn in E. destruct E as (m2 & s2 & p2 & -> & (j & Hj & Pj) & E).
           exists (m1 ++ m2), s2, p2. rewrite string_app_assoc.
           split; [reflexivity|]. split; [|exact E].
           exists (S j). split; [lia|]. simpl. eauto.
        -- exists "", s, prev. split; [reflexivity|]. split; [|exact H].
           exists 0%nat. simpl. split; [lia | reflexivity].
      * apply IHa in H. destruct H as (m1 & s1 & p1 & -> & L1 & E).
        apply IHn in E. destruct E as (m2 & s2 & p2 & -> & (j & Hj & Pj) & E).
        exists (m1 ++ m2), s2, p2. rewrite string_app_assoc.
        split; [reflexivity|]. split; [|exact E].
        exists (S j). split; [lia|]. simpl. eauto.
Qed.

Lemma exec_at_sound (r : JS.regex) (prev : bool) (s m : string) :
  JS.exec_at r prev s = Some m -> lang r m.
Proof.
  unfold JS.exec_at.
  destruct (JS.rmatch r prev s _) as [rest|] eqn:E; [|discriminate].
  apply rmatch_sound in E. destruct E as (m' & s' & p & -> & L & E).
  injection E as ->. intros H. injection H as <-.
  rewrite string_length_app.
  replace (String.length m' + String.length rest - String.length rest)%nat
    with (String.length m') by lia.
  rewrite substring_prefix. exact L.
Qed.

Lemma scan_sound (r : JS.regex) (s : string) :
  forall prev skip, Forall (lang r) (JS.scan r prev skip s).
Proof.
  induction s as [|c s IH]; intros prev skip; simpl; [constructor|].
  destruct skip; [|apply IH].
  destruct (JS.exec_at r prev (String c s)) as [m|] eqn:E; [|apply IH].
  constructor; [eapply exec_at_sound; exact E | apply IH].
Qed.

Lemma String_match_sound (r : JS.regex) (s : string) :
  Forall (lang r) (JS.String_match r s).
Proof. apply scan_sound. Qed.

(** ** Decimal digits *)

Lemma digitValue_10 (c : ascii) :
  JS.digitValue 10 c = if JS.isDigit c then Some (JS.code c - 48) else None.
Proof. unfold JS.digitValue. destruct (JS.isDigit c); reflexivity. Qed.

Lemma isDigit_code (c : ascii) : JS.isDigit c = true -> 48 <= JS.code c <= 57.
Proof. unfold JS.isDigit. intros H. apply andb_true_iff in H. lia. Qed.

(** A digit is none of the characters the parsers treat specially. *)
Lemma digit_not (c d : ascii) :
  JS.isDigit c = true -> JS.isDigit d = false -> Ascii.eqb c d = false.
Proof.
  intros Hc Hd. destruct (Ascii.eqb_spec c d) as [->|]; [congruence | reflexivity].
Qed.

Lemma digit_not_white (c : ascii) : JS.isDigit c = true -> JS.isWhiteSpace c = false.
Proof. intros H. apply isDigit_code in H. unfold JS.isWhiteSpace. lia. Qed.

Lemma allDigits_cons (c : ascii) (g : string) :
  JS.allDigits 10 (String c g) = JS.isDigit c && JS.allDigits 10 g.
Proof. cbn [JS.allDigits]. rewrite digitValue_10. destruct (JS.isDigit c); reflexivity. Qed.

Lemma digitsPrefix_some (g : string) :
  forall acc, JS.allDigits 10 g = true -> 0 <= acc ->
              exists v, JS.digitsPrefix 10 (Some acc) g = Some v /\ 0 <= v.
Proof.
  induction g as [|c g IH]; intros acc H Hacc.
  - exists acc. split; [reflexivity | exact Hacc].
  - rewrite allDigits_cons in H. apply andb_true_iff in H. destruct H as [Hc Hg].
    cbn [JS.digitsPrefix]. rewrite digitValue_10, Hc.
    apply IH; [exact Hg|]. apply isDigit_code in Hc. lia.
Qed.

(** The parsers agree on a decimal group: each reads its number. *)
Lemma decimalGroup_value (g : string) :
  decimalGroup g = true ->
  JS.digitsPrefix 10 None g = Some (groupValue g) /\ 0 <= groupValue g.
Proof.
  unfold decimalGroup, groupValue. intros H. apply andb_true_iff in H.
  destruct H as [Hne Hd]. destruct g as [|c g]; [vm_compute in Hne; discriminate|].
  rewrite allDigits_cons in Hd. apply andb_true_iff in Hd. destruct Hd as [Hc Hg].
  cbn [JS.digitsPrefix]. rewrite digitValue_10, Hc.
  destruct (digitsPrefix_some g (10 * 0 + (JS.code c - 48)) Hg) as (v & E & Hv).
  { apply isDigit_code in Hc. lia. }
  rewrite E. split; [reflexivity | exact Hv].
Qed.

Lemma decimalGroup_head (g : string) :
  decimalGroup g = true ->
  exists c r, g = String c r /\ JS.isDigit c = true /\ JS.allDigits 10 r = true.
Proof.
  unfold decimalGroup. intros H. apply andb_true_iff in H. destruct H as [Hne Hd].
  destruct g as [|c r]; [vm_compute in Hne; discriminate|].
  rewrite allDigits_cons in Hd. apply andb_true_iff in Hd. destruct Hd.
  eauto.
Qed.

Lemma parseInt10_group (g : string) :
  decimalGroup g = true -> JS.parseInt10 g = Some (groupValue g).
Proof.
  intros H. destruct (decimalGroup_value g H) as [E _].
  destruct (decimalGroup_head g H) as (c & r & -> & Hc & Hr).
  unfold JS.parseInt10. cbn [JS.skipWhiteSpace]. rewrite (digit_not_white c Hc).
  unfold JS.stripSign.
  rewrite (digit_not c "-" Hc eq_refl), (digit_not c "+" Hc eq_refl).
  rewrite E. reflexivity.
Qed.

Lemma hexPrefix_group (g : string) :
  decimalGroup g = true -> JS.hexPrefix g = None.
Proof.
  intros H. destruct (decimalGroup_head g H) as (c & r & -> & Hc & Hr).
  unfold JS.hexPrefix. destruct r as [|c1 r]; [reflexivity|].
  rewrite allDigits_cons in Hr. apply andb_true_iff in Hr. destruct Hr as [Hc1 _].
  rewrite (digit_not c1 "x" Hc1 eq_refl), (digit_not c1 "X" Hc1 eq_refl).
  rewrite andb_false_r. reflexivity.
Qed.

Lemma parseInt_group (g : string) :
  decimalGroup g = true -> JS.parseInt g = Some (groupValue g).
Proof.
  intros H. destruct (decimalGroup_value g H) as [E _].
  pose proof (hexPrefix_group g H) as Hx.
  destruct (decimalGroup_head g H) as (c & r & -> & Hc & Hr).
  unfold JS.parseInt. cbn [JS.skipWhiteSpace]. rewrite (digit_not_white c Hc).
  unfold JS.stripSign.
  rewrite (digit_not c "-" Hc eq_refl), (digit_not c "+" Hc eq_refl).
  rewrite Hx, E. reflexivity.
Qed.

Lemma rev_string_rev (s : string) :
  forall a b, JS.rev_string a (JS.rev_string b s) = JS.rev_string (s ++ a) b.
Proof.
  induction s as [|c s IH]; intros a b; [reflexivity|].
  cbn [JS.rev_string]. rewrite IH. reflexivity.
Qed.

Lemma rev_string_noWhite (s : string) :
  forall a, noWhite s = true -> noWhite a = true -> noWhite (JS.rev_string a s) = true.
Proof.
  induction s as [|c s IH]; intros a Hs Ha; [exact Ha|].
  cbn [noWhite] in Hs. apply andb_true_iff in Hs. destruct Hs as [Hc Hs].
  cbn [JS.rev_string]. apply IH; [exact Hs|]. cbn [noWhite]. rewrite Hc, Ha. reflexivity.
Qed.

Lemma skipWhiteSpace_noWhite (s : string) :
  noWhite s = true -> JS.skipWhiteSpace s = s.
Proof.
  destruct s as [|c s]; [reflexivity|]. cbn [noWhite JS.skipWhiteSpace].
  intros H. apply andb_true_iff in H. destruct H as [Hc _].
  destruct (JS.isWhiteSpace c); [discriminate | reflexivity].
Qed.

Lemma trim_noWhite (s : string) : noWhite s = true -> JS.trim s = s.
Proof.
  intros H. unfold JS.trim. rewrite (skipWhiteSpace_noWhite s H).
  rewrite skipWhiteSpace_noWhite by (apply rev_string_noWhite; [exact H | reflexivity]).
  rewrite rev_string_rev. cbn [JS.rev_string].
  clear H. induction s as [|c s IH]; [reflexivity|].
  rewrite string_app_cons, IH. reflexivity.
Qed.

Lemma allDigits_noWhite (g : string) : JS.allDigits 10 g = true -> noWhite g = true.
Proof.
  induction g as [|c g IH]; [reflexivity|]. rewrite allDigits_cons.
  intros H. apply andb_true_iff in H. destruct H as [Hc Hg].
  cbn [noWhite]. rewrite (digit_not_white c Hc), (IH Hg). reflexivity.
Qed.

Lemma Number_group (g : string) :
  decimalGroup g = true -> JS.Number_ g = Some (groupValue g).
Proof.
  intros H. destruct (decimalGroup_value g H) as [E _].
  pose proof (hexPrefix_group g H) as Hx.
  destruct (decimalGroup_head g H) as (c & r & -> & Hc & Hr).
  assert (Hall : JS.allDigits 10 (String c r) = true).
  { rewrite allDigits_cons, Hc, Hr. reflexivity. }
  unfold JS.Number_. rewrite (trim_noWhite _ (allDigits_noWhite _ Hall)).
  rewrite Hx. unfold JS.stripSign.
  rewrite (digit_not c "-" Hc eq_refl), (digit_not c "+" Hc eq_refl).
  rewrite Hall, E. reflexivity.
Qed.

Lemma string_app_nil_l (a : string) : "" ++ a = a.
Proof. reflexivity. Qed.

Lemma string_app_nil_r (a : string) : a ++ "" = a.
Proof.
  induction a as [|c a IH]; [reflexivity | rewrite string_app_cons, IH; reflexivity].
Qed.

(** ** Splitting at the dots *)

Lemma split_group (g : string) :
  JS.allDigits 10 g = true -> JS.split "." g = [g].
Proof.
  induction g as [|c g IH]; [reflexivity|]. rewrite allDigits_cons.
  intros H. apply andb_true_iff in H. destruct H as [Hc Hg].
  cbn [JS.split]. rewrite (digit_not c "." Hc eq_refl), (IH Hg). reflexivity.
Qed.

Lemma split_group_dot (g rest : string) :
  JS.allDigits 10 g = true ->
  JS.split "." (g ++ String "." rest) = g :: JS.split "." rest.
Proof.
  induction g as [|c g IH]; [reflexivity|]. rewrite allDigits_cons.
  intros H. apply andb_true_iff in H. destruct H as [Hc Hg].
  rewrite string_app_cons. cbn [JS.split].
  rewrite (digit_not c "." Hc eq_refl), (IH Hg). reflexivity.
Qed.

Lemma pow_digits (n : nat) :
  forall g, pow (lang JS.RDigit) n g ->
            JS.allDigits 10 g = true /\ String.length g = n.
Proof.
  induction n as [|n IH]; intros g H.
  - cbn in H. subst g. split; reflexivity.
  - cbn [pow] in H. destruct H as (m1 & m2 & -> & (c & Hc & ->) & H).
    apply IH in H. destruct H as [Hd Hl].
    rewrite string_app_cons. change ("" ++ m2) with m2.
    rewrite allDigits_cons, Hc, Hd. cbn [String.length]. rewrite Hl.
    split; reflexivity.
Qed.

Lemma digit_run (g : string) :
  lang (JS.RRepeat 1 3 JS.RDigit) g ->
  JS.allDigits 10 g = true /\ decimalGroup g = true.
Proof.
  intros (n & Hn & H). apply pow_digits in H. destruct H as [Hd Hl].
  split; [exact Hd|]. unfold decimalGroup. rewrite Hd.
  destruct g; [cbn in Hl; lia | reflexivity].
Qed.

(** Every match of the worker's pattern is four decimal groups with dots
    between them. *)
Lemma ipPattern_digitGroups (m : string) :
  lang ipPattern m -> digitGroups m = true.
Proof.
  unfold ipPattern. cbn [lang].
  intros (b1 & r1 & -> & -> & m3 & r2 & -> & (n & Hn & P3) & g4 & b2 & -> & G4 & ->).
  assert (n = 3%nat) by lia. subst n. cbn [pow] in P3.
  destruct P3 as (x1 & y1 & -> & (g1 & d1 & -> & G1 & ->)
                  & x2 & y2 & -> & (g2 & d2 & -> & G2 & ->)
                  & x3 & y3 & -> & (g3 & d3 & -> & G3 & ->) & ->).
  apply digit_run in G1, G2, G3, G4.
  destruct G1 as [A1 D1], G2 as [A2 D2], G3 as [A3 D3], G4 as [A4 D4].
  assert (E : JS.split "." ("" ++ ((g1 ++ ".") ++ (g2 ++ ".") ++ (g3 ++ ".") ++ "") ++ g4 ++ "")
              = [g1; g2; g3; g4]).
  { rewrite !string_app_assoc, !string_app_cons, !string_app_nil_l, string_app_nil_r.
    rewrite (split_group_dot g1 _ A1), (split_group_dot g2 _ A2),
      (split_group_dot g3 _ A3), (split_group g4 A4).
    reflexivity. }
  unfold digitGroups. rewrite E. cbn [List.length forallb Nat.eqb].
  rewrite D1, D2, D3, D4. reflexivity.
Qed.

(** ** The sort *)

Section SortFacts.
Context {A : Type} (comparefn : A -> A -> option Z).
Context (P : A -> Prop) (R : A -> A -> Prop).
Hypothesis below : forall x y, P x -> P y -> JS.SortCompare comparefn x y <= 0 -> R x y.
Hypothesis above : forall x y, P x -> P y -> ~ JS.SortCompare comparefn x y <= 0 -> R y x.

Lemma sort_insert_Permutation (x : A) (l : list A) :
  Permutation (JS.sort_insert comparefn x l) (x :: l).
Proof.
  induction l as [|y l IH]; cbn [JS.sort_insert]; [reflexivity|].
  destruct (JS.SortCompare comparefn x y <=? 0); [reflexivity|].
  rewrite IH. apply perm_swap.
Qed.

Lemma sort_Permutation (l : list A) : Permutation (JS.sort comparefn l) l.
Proof.
  induction l as [|x l IH]; cbn [JS.sort]; [reflexivity|].
  rewrite sort_insert_Permutation. apply perm_skip, IH.
Qed.

Lemma sort_insert_HdRel (x y : A) (l : list A) :
  R y x -> HdRel R y l -> HdRel R y (JS.sort_insert comparefn x l).
Proof.
  intros Hyx Hd. destruct l as [|z l]; cbn [JS.sort_insert]; [constructor; exact Hyx|].
  destruct (JS.SortCompare comparefn x z <=? 0); constructor;
    [exact Hyx | inversion Hd; assumption].
Qed.

Lemma sort_insert_Sorted (x : A) (l : list A) :
  P x -> Forall P l -> Sorted R l -> Sorted R (JS.sort_insert comparefn x l).
Proof.
  intros Px Pl Sl. induction l as [|y l IH]; cbn [JS.sort_insert].
  - repeat constructor.
  - inversion Pl as [|? ? Py Pl']; subst. inversion Sl as [|? ? Sl' Hd]; subst.
    destruct (Z.leb_spec (JS.SortCompare comparefn x y) 0) as [Hle | Hgt].
    + constructor; [exact Sl | constructor; apply below; assumption].
    + constructor; [apply IH; assumption|].
      apply sort_insert_HdRel; [|exact Hd]. apply above; [assumption .. | lia].
Qed.

Lemma sort_Sorted (l : list A) : Forall P l -> Sorted R (JS.sort comparefn l).
Proof.
  induction l as [|x l IH]; intros Pl; cbn [JS.sort]; [constructor|].
  inversion Pl; subst. apply sort_insert_Sorted; [assumption | | apply IH; assumption].
  eapply Permutation_Forall; [symmetry; apply sort_Permutation | assumption].
Qed.
End SortFacts.

(** ** Candidates *)

Lemma digitGroups_parts (a : string) :
  digitGroups a = true ->
  exists g1 g2 g3 g4,
    JS.split "." a = [g1; g2; g3; g4]
    /\ decimalGroup g1 = true /\ decimalGroup g2 = true
    /\ decimalGroup g3 = true /\ decimalGroup g4 = true.
Proof.
  unfold digitGroups. intros H. apply andb_true_iff in H. destruct H as [Hl Hf].
  apply Nat.eqb_eq in Hl.
  destruct (JS.split "." a) as [|g1 [|g2 [|g3 [|g4 [|g5 l]]]]]; try discriminate.
  cbn [forallb] in Hf. rewrite !andb_true_iff in Hf.
  exists g1, g2, g3, g4. intuition.
Qed.

(** What the validator of each script grants about a candidate of the
    pattern: its four numbers are at most 255. *)
Lemma valid_candidate_dottedQuad (script : Script) (a : string) :
  digitGroups a = true -> isValidIPv4_of script a = true -> dottedQuad a = true.
Proof.
  intros Hd Hv.
  destruct (digitGroups_parts a Hd) as (g1 & g2 & g3 & g4 & E & D1 & D2 & D3 & D4).
  unfold dottedQuad. rewrite E. cbn [List.length Nat.eqb forallb andb].
  rewrite D1, D2, D3, D4. cbn [andb].
  destruct script; cbn [isValidIPv4_of] in Hv.
  - unfold Worker.isValidIPv4 in Hv. rewrite E in Hv.
    cbn [List.length Nat.eqb negb forallb] in Hv.
    unfold Worker.partOk in Hv.
    rewrite !parseInt10_group in Hv by assumption.
    repeat match goal with
           | H : context [if ?b then _ else _] |- _ => destruct b eqn:?; try discriminate
           end.
    repeat match goal with
           | H : (_ || _) = false |- _ => apply orb_false_iff in H; destruct H
           | H : (_ >? _) = false |- _ => rewrite Z.gtb_ltb in H; apply Z.ltb_ge in H
           end.
    rewrite !andb_true_iff, !Z.leb_le. lia.
  - unfold Part000.isValidIPv4 in Hv. rewrite E in Hv.
    cbn [List.length Nat.eqb negb forallb] in Hv.
    rewrite !parseInt_group in Hv by assumption.
    destruct (_ || _) in Hv; [discriminate|].
    unfold JS.between in Hv. rewrite !andb_true_iff, !Z.leb_le in Hv.
    rewrite !andb_true_iff, !Z.leb_le. lia.
  - unfold Part001.isValidIPv4 in Hv. rewrite E in Hv.
    cbn [List.length Nat.eqb negb map existsb] in Hv.
    rewrite !Number_group in Hv by assumption.
    cbn [orb] in Hv.
    destruct (_ || _) eqn:B in Hv; [discriminate|].
    rewrite !orb_false_iff in B.
    repeat match goal with
           | H : _ /\ _ |- _ => destruct H
           | H : (_ >? _) = false |- _ => rewrite Z.gtb_ltb in H; apply Z.ltb_ge in H
           end.
    rewrite !andb_true_iff, !Z.leb_le. lia.
Qed.

(** ** The harvest as a fold over the sources *)

(** The batched loop walks its array once, front to back. *)
Lemma forBatches_fold {A S : Type} (size : nat) (body : list A -> S -> S)
  (f : S -> A -> S) (a : list A) :
  (0 < size)%nat ->
  (forall b st, body b st = fold_left f b st) ->
  forall fuel i st,
    (List.length a - i <= fuel)%nat ->
    JS.forBatches size body a fuel i st = fold_left f (skipn i a) st.
Proof.
  intros Hsize Hbody. induction fuel as [|fuel IH]; intros i st Hfuel.
  - cbn [JS.forBatches]. rewrite skipn_all2 by lia. reflexivity.
  - cbn [JS.forBatches]. destruct (Nat.ltb_spec i (List.length a)) as [Hi | Hi].
    + rewrite IH by lia. rewrite Hbody. unfold JS.array_slice.
      replace (i + size - i)%nat with size by lia.
      rewrite <- fold_left_app.
      replace (skipn (i + size) a) with (skipn size (skipn i a))
        by (rewrite skipn_skipn; f_equal; lia).
      rewrite firstn_skipn. reflexivity.
    + rewrite skipn_all2 by lia. reflexivity.
Qed.

Lemma fold_step {S R : Type} (g : S -> string -> S) (r : string -> R)
  (step : S * list R -> string -> S * list R) :
  (forall st u, step st u = (g (fst st) u, (snd st ++ [r u])%list)) ->
  forall l st,
    fold_left step l st = (fold_left g l (fst st), (snd st ++ map r l)%list).
Proof.
  intros Hstep. induction l as [|u l IH]; intros [set reps]; cbn [fold_left map fst snd].
  - rewrite app_nil_r. reflexivity.
  - rewrite IH, Hstep. cbn [fst snd]. rewrite <- app_assoc. reflexivity.
Qed.

Lemma Part001_addValid (found : list string) :
  forall set n,
    Part001.addValid (set, n) found
    = (addMatches Rewrite001 set found,
       (n + List.length (List.filter Part001.isValidIPv4 found))%nat).
Proof.
  unfold Part001.addValid, addMatches. cbn [isValidIPv4_of].
  induction found as [|a found IH]; intros set n; cbn [fold_left List.filter].
  - rewrite Nat.add_0_r. reflexivity.
  - destruct (Part001.isValidIPv4 a); cbn [fst snd]; rewrite IH; cbn [List.length];
      f_equal; lia.
Qed.

(** The harvest of each script: the set grown source by source, sorted, and
    one report per source. *)
Lemma collect_fold (script : Script) (fetched : string -> FetchOutcome)
  (srcs : list string) :
  collect_of script fetched srcs
  = mkHarvest
      (JS.sort (compareIPs_of script) (fold_left (grow script fetched) srcs []))
      (map (report script fetched) srcs).
Proof.
  destruct script; cbn [collect_of compareIPs_of].
  - unfold Worker.collect.
    rewrite (forBatches_fold Worker.BATCH_SIZE _
               (fun st url => Worker.processResult st (url, fetched url)));
      [ | unfold Worker.BATCH_SIZE; lia | | lia ].
    + cbn [skipn].
      rewrite (fold_step (grow MainWorker fetched) (report MainWorker fetched)).
      * reflexivity.
      * intros [set reps] u. unfold Worker.processResult, grow, report.
        destruct (fetched u); reflexivity.
    + intros b st. unfold Worker.processBatch. revert st.
      induction b as [|u b IH]; intros st; [reflexivity|]. cbn [map fold_left]. apply IH.
  - unfold Part000.collect.
    rewrite (fold_step (grow Rewrite000 fetched) (report Rewrite000 fetched)).
    + reflexivity.
    + intros [set reps] u. unfold Part000.processSource, grow, report.
      destruct (fetched u); reflexivity.
  - unfold Part001.collect.
    rewrite (fold_step (grow Rewrite001 fetched) (report Rewrite001 fetched)).
    + reflexivity.
    + intros [set reps] u. unfold Part001.processSource, grow, report.
      destruct (fetched u); [|reflexivity].
      rewrite Part001_addValid. reflexivity.
Qed.

Lemma dottedQuad_parts (a : string) :
  dottedQuad a = true ->
  exists g1 g2 g3 g4,
    JS.split "." a = [g1; g2; g3; g4]
    /\ (decimalGroup g1 = true /\ 0 <= groupValue g1 <= 255)
    /\ (decimalGroup g2 = true /\ 0 <= groupValue g2 <= 255)
    /\ (decimalGroup g3 = true /\ 0 <= groupValue g3 <= 255)
    /\ (decimalGroup g4 = true /\ 0 <= groupValue g4 <= 255).
Proof.
  unfold dottedQuad. intros H. apply andb_true_iff in H. destruct H as [Hl Hf].
  apply Nat.eqb_eq in Hl.
  destruct (JS.split "." a) as [|g1 [|g2 [|g3 [|g4 [|g5 l]]]]]; try discriminate.
  cbn [forallb] in Hf. rewrite !andb_true_iff, !Z.leb_le in Hf.
  exists g1, g2, g3, g4.
  assert (N : forall g, decimalGroup g = true -> 0 <= groupValue g)
    by (intros g Hg; apply (decimalGroup_value g Hg)).
  intuition.
Qed.

(** On dotted quads, the comparison function of each script orders by the
    four numbers. *)
Lemma compare_address_le (script : Script) (a b : string) :
  dottedQuad a = true -> dottedQuad b = true ->
  JS.SortCompare (compareIPs_of script) a b <= 0 <-> address_le a b.
Proof.
  intros Ha Hb.
  destruct (dottedQuad_parts a Ha)
    as (a1 & a2 & a3 & a4 & Ea & [A1 RA1] & [A2 RA2] & [A3 RA3] & [A4 RA4]).
  destruct (dottedQuad_parts b Hb)
    as (b1 & b2 & b3 & b4 & Eb & [B1 RB1] & [B2 RB2] & [B3 RB3] & [B4 RB4]).
  unfold address_le, octets. rewrite Ea, Eb. cbn [map tuple_le].
  unfold JS.SortCompare.
  destruct script; cbn [compareIPs_of].
  - unfold Worker.compareIPs. rewrite Ea, Eb. cbn [map].
    rewrite !parseInt10_group by assumption.
    unfold Worker.compareParts, JS.index. cbn [nth_error JS.strictNeq JS.minus].
    destruct (Z.eqb_spec (groupValue a1) (groupValue b1));
      destruct (Z.eqb_spec (groupValue a2) (groupValue b2));
      destruct (Z.eqb_spec (groupValue a3) (groupValue b3));
      destruct (Z.eqb_spec (groupValue a4) (groupValue b4));
      cbn [negb]; lia.
  - unfold Part000.compareIPs, Part000.ipValue. rewrite Ea, Eb. cbn [map].
    rewrite !Number_group by assumption.
    change (256 ^ 3) with 16777216. change (256 ^ 2) with 65536.
    change (256 ^ 1) with 256. change (256 ^ 0) with 1.
    lia.
  - unfold Part001.compareIPs. rewrite Ea, Eb. cbn [map].
    rewrite !Number_group by assumption.
    unfold Worker.compareParts, JS.index. cbn [nth_error JS.strictNeq JS.minus].
    destruct (Z.eqb_spec (groupValue a1) (groupValue b1));
      destruct (Z.eqb_spec (groupValue a2) (groupValue b2));
      destruct (Z.eqb_spec (groupValue a3) (groupValue b3));
      destruct (Z.eqb_spec (groupValue a4) (groupValue b4));
      cbn [negb]; lia.
Qed.

Lemma address_le_total (a b : string) :
  dottedQuad a = true -> dottedQuad b = true -> address_le a b \/ address_le b a.
Proof.
  intros Ha Hb.
  destruct (dottedQuad_parts a Ha) as (a1 & a2 & a3 & a4 & Ea & _).
  destruct (dottedQuad_parts b Hb) as (b1 & b2 & b3 & b4 & Eb & _).
  unfold address_le, octets. rewrite Ea, Eb. cbn [map tuple_le]. lia.
Qed.

(** ** The set of a harvest *)

Lemma Set_has_In (set : list string) (a : string) :
  JS.Set_has set a = true <-> In a set.
Proof.
  unfold JS.Set_has. rewrite existsb_exists. split.
  - intros (x & Hx & E). apply String.eqb_eq in E. subst. exact Hx.
  - intros H. exists a. split; [exact H | apply String.eqb_refl].
Qed.

Lemma Set_add_NoDup (set : list string) (a : string) :
  List.NoDup set -> List.NoDup (JS.Set_add set a).
Proof.
  intros H. unfold JS.Set_add. destruct (JS.Set_has set a) eqn:E; [exact H|].
  apply (Permutation_NoDup (l := a :: set)); [apply Permutation_cons_append|].
  constructor; [|exact H].
  intros Hin. apply Set_has_In in Hin. congruence.
Qed.

Lemma Set_add_Forall (P : string -> Prop) (set : list string) (a : string) :
  Forall P set -> P a -> Forall P (JS.Set_add set a).
Proof.
  intros Hs Ha. unfold JS.Set_add. destruct (JS.Set_has set a); [exact Hs|].
  apply Forall_app. split; [exact Hs | repeat constructor; exact Ha].
Qed.

Lemma addMatches_good (script : Script) (found : list string) :
  Forall (lang ipPattern) found ->
  forall set, goodSet script set -> goodSet script (addMatches script set found).
Proof.
  unfold addMatches. induction 1 as [|a found La Lf IH]; intros set G; [exact G|].
  cbn [fold_left]. apply IH.
  destruct (isValidIPv4_of script a) eqn:V; [|exact G].
  destruct G as [N F]. split; [apply Set_add_NoDup, N|].
  apply Set_add_Forall; [exact F|]. split; [|exact V].
  apply (valid_candidate_dottedQuad script); [apply ipPattern_digitGroups, La | exact V].
Qed.

Lemma grow_good (script : Script) (fetched : string -> FetchOutcome)
  (srcs : list string) :
  forall set, goodSet script set ->
              goodSet script (fold_left (grow script fetched) srcs set).
Proof.
  induction srcs as [|u srcs IH]; intros set G; [exact G|].
  cbn [fold_left]. apply IH. unfold grow. destruct (fetched u); [|exact G].
  apply addMatches_good; [apply String_match_sound | exact G].
Qed.

Lemma Sorted_firstn {A : Type} (R : A -> A -> Prop) (n : nat) :
  forall l, Sorted R l -> Sorted R (firstn n l).
Proof.
  induction n as [|n IH]; intros l S; [constructor|].
  destruct l as [|x l]; [constructor|].
  cbn [firstn]. inversion S as [|? ? S' Hd]; subst.
  constructor; [apply IH, S'|].
  destruct Hd as [|y l Hxy]; destruct n; constructor. exact Hxy.
Qed.

(** ** The harvest: claims *)

Lemma updateAllIPs_collect (script : Script) (fetched : string -> FetchOutcome) :
  updateAllIPs_of script fetched = collect_of script fetched (sources_of script).
Proof. destruct script; reflexivity. Qed.

Lemma collect_unique_sorted (script : Script) (fetched : string -> FetchOutcome)
  (srcs : list string) :
  List.NoDup (uniqueIPs (collect_of script fetched srcs))
  /\ Sorted address_le (uniqueIPs (collect_of script fetched srcs))
  /\ Forall (fun a => dottedQuad a = true) (uniqueIPs (collect_of script fetched srcs)).
Proof.
  rewrite collect_fold. cbn [uniqueIPs].
  destruct (grow_good script fetched srcs []) as [N F].
  { split; constructor. }
  set (set := fold_left (grow script fetched) srcs []) in *.
  assert (Q : Forall (fun a => dottedQuad a = true) set).
  { eapply List.Forall_impl; [|exact F]. cbn. tauto. }
  split; [|split].
  - eapply Permutation_NoDup; [symmetry; apply sort_Permutation | exact N].
  - apply (sort_Sorted _ (fun a => dottedQuad a = true)); [ | | exact Q].
    + intros x y Hx Hy. apply compare_address_le; assumption.
    + intros x y Hx Hy Hn.
      destruct (address_le_total x y Hx Hy) as [L | L]; [|exact L].
      exfalso. apply Hn. apply compare_address_le; assumption.
  - eapply Permutation_Forall; [symmetry; apply sort_Permutation | exact Q].
Qed.

(** C5. Whatever the sources answer, the address list of a harvest has no
    duplicates and is sorted ascending by the four numbers of each address
    (the first that differs decides, as integers); every address in it is a
    dotted quad.  Sources that publish 10.0.0.1, 2.2.2.2 and twice 1.1.1.1
    yield exactly 1.1.1.1, 2.2.2.2.  This holds of the three scripts. *)
Theorem harvest_unique_and_sorted (script : Script)
  (fetched : string -> FetchOutcome) :
  List.NoDup (uniqueIPs (updateAllIPs_of script fetched))
  /\ Sorted address_le (uniqueIPs (updateAllIPs_of script fetched))
  /\ Forall (fun a => dottedQuad a = true) (uniqueIPs (updateAllIPs_of script fetched))
  /\ uniqueIPs (updateAllIPs_of script exampleFetch) = ["1.1.1.1"; "2.2.2.2"].
Proof.
  rewrite updateAllIPs_collect.
  destruct (collect_unique_sorted script fetched (sources_of script)) as (N & S & Q).
  repeat split; try assumption.
  destruct script; vm_compute; reflexivity.
Qed.




(** ** The ranking run *)

Lemma probed_slice (ips : list string) : JS.array_slice 0 200 ips = probed ips.
Proof. reflexivity. Qed.

Lemma fold_collect (s : Script) (probe : string -> ProbeOutcome)
  (f : list LatencyResult -> string -> list LatencyResult) :
  (forall acc a,
     f acc a = if counted s probe a
               then (acc ++ [mkLatencyResult a (measured probe a)])%list
               else acc) ->
  forall l acc,
    fold_left f l acc
    = (acc ++ map (fun a => mkLatencyResult a (measured probe a))
                (List.filter (counted s probe) l))%list.
Proof.
  intros Hf. induction l as [|a l IH]; intros acc; cbn [fold_left List.filter].
  - rewrite app_nil_r. reflexivity.
  - rewrite IH, Hf. destruct (counted s probe a); [|reflexivity].
    cbn [map]. rewrite <- app_assoc. reflexivity.
Qed.

Lemma Worker_speedResults (probe : string -> ProbeOutcome) (l : list string) :
  JS.forBatches Worker.SPEED_BATCH_SIZE (Worker.probeBatch probe) l (List.length l) 0 []
  = map (fun a => mkLatencyResult a (measured probe a))
      (List.filter (counted MainWorker probe) l).
Proof.
  rewrite (forBatches_fold _ _
             (fun acc a =>
                match Worker.usable (Worker.testIPSpeed probe a) with
                | Some l0 => (acc ++ [mkLatencyResult a l0])%list
                | None => acc
                end));
    [ | unfold Worker.SPEED_BATCH_SIZE; lia | reflexivity | lia ].
  cbn [skipn]. rewrite (fold_collect MainWorker probe); [reflexivity|].
  intros acc a. unfold Worker.usable, Worker.testIPSpeed, counted, measured.
  destruct (probe a) as [[] t |]; cbn; [|reflexivity..].
  destruct (t =? 0); reflexivity.
Qed.

Lemma rewrites_found (s : Script) (size : nat) (probe : string -> ProbeOutcome)
  (l : list string) :
  s <> MainWorker -> (0 < size)%nat ->
  JS.forBatches size (Part000.probeBatch probe) l (List.length l) 0 []
  = map (fun a => mkLatencyResult a (measured probe a))
      (List.filter (counted s probe) l).
Proof.
  intros Hs Hsize.
  rewrite (forBatches_fold _ _
             (fun acc a =>
                (acc ++ match Part000.probeOne probe a with
                        | Some r => [r]
                        | None => []
                        end)%list));
    [ | exact Hsize | | lia ].
  - cbn [skipn]. rewrite (fold_collect s probe); [reflexivity|].
    intros acc a. unfold Part000.probeOne, counted, measured.
    destruct (probe a) as [[] t |]; destruct s; try congruence;
      rewrite ?app_nil_r; reflexivity.
  - intros b. unfold Part000.probeBatch.
    induction b as [|a b IH]; intros st; cbn [flat_map fold_left].
    + rewrite app_nil_r. reflexivity.
    + rewrite <- IH. rewrite app_assoc. reflexivity.
Qed.

Lemma ranked_facts (s : Script) (probe : string -> ProbeOutcome) (ips : list string) :
  (List.length (ranked s probe ips) <= 25)%nat
  /\ Sorted latency_le (ranked s probe ips)
  /\ List.length (ranked s probe ips)
     = Nat.min 25 (List.length (successes s probe ips))
  /\ Forall (fun e => In (ip e) (successes s probe ips)
                      /\ probe (ip e) = Responded true (latency e))
       (ranked s probe ips).
Proof.
  unfold ranked.
  pose proof (sort_Permutation Worker.compareLatency (collected s probe ips)) as Perm.
  split; [|split; [|split]].
  - rewrite length_firstn. lia.
  - apply Sorted_firstn.
    apply (sort_Sorted _ (fun _ => True)).
    + intros x y _ _. unfold JS.SortCompare, Worker.compareLatency, latency_le. lia.
    + intros x y _ _. unfold JS.SortCompare, Worker.compareLatency, latency_le. lia.
    + apply List.Forall_forall. trivial.
  - rewrite length_firstn, (Permutation_length Perm).
    unfold collected. rewrite length_map. reflexivity.
  - apply List.Forall_forall. intros e He.
    assert (Hin : In e (collected s probe ips)).
    { eapply Permutation_in; [exact Perm|].
      rewrite <- (firstn_skipn 25). apply in_or_app. left. exact He. }
    unfold collected in Hin. apply in_map_iff in Hin.
    destruct Hin as (a & <- & Ha). cbn [ip latency]. split; [exact Ha|].
    unfold successes in Ha. apply filter_In in Ha. destruct Ha as [_ Hc].
    unfold counted in Hc. unfold measured.
    destruct (probe a) as [[] t |]; try discriminate. reflexivity.
Qed.

(** What each script writes, when its write does not throw. *)
Lemma autoSpeedTestAndStore_run (script : Script) (probe : string -> ProbeOutcome)
  (ips : list string) (w : World) :
  (script = MainWorker -> ips <> []) ->
  hd false (faults w) = false ->
  exists tested total,
    autoSpeedTestAndStore_of script probe ips w
    = (Returned tt,
       set_fast_ips
         (mkFastSet (ranked script probe ips) (now w)
            (List.length (ranked script probe ips)) tested total)
         (passed w)).
Proof.
  intros Hne Hf.
  assert (Hs : forall f,
             put_fast_ips f w = (Returned tt, set_fast_ips f (passed w))).
  { intros f. unfold put_fast_ips, storage, passed.
    destruct (faults w) as [|[] rest]; cbn in Hf; try discriminate; reflexivity. }
  destruct script; cbn [autoSpeedTestAndStore_of].
  - unfold Worker.autoSpeedTestAndStore.
    destruct ips as [|a ips]; [exfalso; apply Hne; reflexivity|].
    cbn [List.length Nat.eqb]. unfold Worker.AUTO_TEST_MAX_IPS, Worker.FAST_IP_COUNT.
    rewrite probed_slice, Worker_speedResults.
    unfold bind, Date_now. rewrite Hs. do 2 eexists. reflexivity.
  - unfold Part000.autoSpeedTestAndStore, Part000.AUTO_TEST_MAX_IPS,
      Part000.FAST_IP_COUNT.
    rewrite probed_slice, (rewrites_found Rewrite000) by (discriminate || lia).
    unfold bind, Date_now. rewrite Hs. do 2 eexists. reflexivity.
  - unfold Part001.autoSpeedTestAndStore, Part001.AUTO_TEST_MAX_IPS,
      Part001.FAST_IP_COUNT, Part001.BATCH_SIZE.
    rewrite probed_slice, (rewrites_found Rewrite001) by (discriminate || lia).
    unfold bind, Date_now. rewrite Hs. do 2 eexists. reflexivity.
Qed.





(** ** The admin gate: claims *)

(** C3. With no admin secret configured, [verifyAdmin] answers [true] for
    every request, whatever it carries, in the three scripts, and touches
    nothing. *)
Theorem verifyAdmin_open_mode (script : Script) (request : Request) (env : Env)
  (w : World) :
  ADMIN_PASSWORD env = None ->
  verifyAdmin_of script request env w = (Returned true, w).
Proof.
  intros H. apply verifyAdmin_open. rewrite H. reflexivity.
Qed.

Lemma verifyAdmin_open_mode_witness :
  ADMIN_PASSWORD unsecured = None
  /\ verifyAdmin_of MainWorker tokenRequest unsecured (world ∅ staleToken [])
     = (Returned true, world ∅ staleToken []).
Proof.
  split; [reflexivity|].
  apply (verifyAdmin_open_mode MainWorker tokenRequest unsecured
           (world ∅ staleToken [])).
  reflexivity.
Defined.

(** C2. When a storage operation of the credential lookup throws (the count
    of exceptions grows during the run), [verifyAdmin] does not return
    [true]: it returns [false], or, in [part_001], which has no [catch], the
    exception leaves [verifyAdmin]. *)
Theorem verifyAdmin_fails_closed (script : Script) (request : Request)
  (env : Env) (w : World) :
  (thrown w < thrown (snd (verifyAdmin_of script request env w)))%nat ->
  fst (verifyAdmin_of script request env w) <> Returned true
  /\ (fst (verifyAdmin_of script request env w) = Returned false
      \/ (script = Rewrite001
          /\ exists e, fst (verifyAdmin_of script request env w) = Threw e)).
Proof.
  intros Hthrown.
  destruct (JS.truthy (ADMIN_PASSWORD env)) eqn:Hpw.
  - destruct (verifyAdmin_verdict script request env w Hpw) as [V _].
    destruct (verifyAdmin_of script request env w) as [r w'].
    cbn [fst snd] in *.
    inversion V; subst; try lia.
    + split; [discriminate | left; reflexivity].
    + split; [discriminate | right; split; [reflexivity | eexists; reflexivity]].
  - rewrite (verifyAdmin_open script request env w Hpw) in Hthrown.
    cbn [snd] in Hthrown. lia.
Qed.

Lemma verifyAdmin_fails_closed_witness :
  fst (verifyAdmin_of MainWorker tokenRequest secured
         (world ∅ freshToken [false; true]))
  <> Returned true
  /\ (fst (verifyAdmin_of MainWorker tokenRequest secured
             (world ∅ freshToken [false; true]))
      = Returned false
      \/ (MainWorker = Rewrite001
          /\ exists e,
               fst (verifyAdmin_of MainWorker tokenRequest secured
                      (world ∅ freshToken [false; true]))
               = Threw e)).
Proof.
  apply (verifyAdmin_fails_closed MainWorker tokenRequest secured
           (world ∅ freshToken [false; true])).
  vm_compute. lia.
Defined.

(** C1, as the claim states it, fails: a request that also carries a live
    session is authorized by the session although its token is the stored
    one and expired, and with no admin secret every request is authorized. *)
Lemma expired_token_counterexample :
  presentsToken MainWorker tokenAndSessionRequest (token staleToken) = true
  /\ neverExpire staleToken = false
  /\ expires staleToken < now (world storedSession staleToken [])
  /\ fst (verifyAdmin_of MainWorker tokenAndSessionRequest secured
            (world storedSession staleToken []))
     = Returned true
  /\ fst (verifyAdmin_of MainWorker tokenRequest unsecured
            (world ∅ staleToken []))
     = Returned true.
Proof. vm_compute. repeat split; reflexivity. Qed.

(** C1, amended. With an admin secret configured and no live session among
    the identifiers the request carries, a stored token with
    [neverExpire = false] and [expires] before the clock authorizes nothing:
    whatever the request presents as its token, the stored value included,
    [verifyAdmin] returns [false] (in [part_001] a storage exception leaves
    [verifyAdmin] instead). *)
Theorem expired_token_is_denied (script : Script) (request : Request)
  (env : Env) (w : World) (cfg : TokenConfig) :
  JS.truthy (ADMIN_PASSWORD env) = true ->
  noLiveSession w request = true ->
  kv_token_config w = Some cfg ->
  neverExpire cfg = false ->
  expires cfg < now w ->
  presentsToken script request (token cfg) = true ->
  fst (verifyAdmin_of script request env w) = Returned false
  \/ (script = Rewrite001
      /\ (thrown w < thrown (snd (verifyAdmin_of script request env w)))%nat
      /\ exists e, fst (verifyAdmin_of script request env w) = Threw e).
Proof.
  intros Hpw Hlive Hcfg Hnever Hexp _.
  assert (Hx : expired cfg (now w) = true).
  { unfold expired. rewrite Hnever. apply Z.ltb_lt in Hexp. rewrite Hexp. reflexivity. }
  destruct (verifyAdmin_verdict script request env w Hpw) as [V _].
  destruct (verifyAdmin_of script request env w) as [r w'].
  cbn [fst snd] in *.
  inversion V; subst.
  - congruence.
  - congruence.
  - left; reflexivity.
  - left; reflexivity.
  - right. split; [reflexivity | split; [assumption | eexists; reflexivity]].
Qed.

Lemma expired_token_is_denied_witness :
  presentsToken MainWorker tokenRequest (token staleToken) = true
  /\ (fst (verifyAdmin_of MainWorker tokenRequest secured (world ∅ staleToken []))
      = Returned false
      \/ (MainWorker = Rewrite001
          /\ (thrown (world ∅ staleToken [])
              < thrown (snd (verifyAdmin_of MainWorker tokenRequest secured
                               (world ∅ staleToken []))))%nat
          /\ exists e,
               fst (verifyAdmin_of MainWorker tokenRequest secured
                      (world ∅ staleToken []))
               = Threw e)).
Proof.
  split; [reflexivity|].
  apply (expired_token_is_denied MainWorker tokenRequest secured
           (world ∅ staleToken []) staleToken);
    first [reflexivity | vm_compute; reflexivity].
Defined.

(** C9. The claim asks that a failure to persist [lastUsed] does not deny
    the request.  At a request that presents the stored, unexpired token,
    with the read of the record passing and the write of [lastUsed]
    throwing, [src/_worker.js] and [part_000] answer [false] and [part_001]
    lets the exception out: the three await the write before they answer,
    the first two inside the [try] whose [catch] denies. *)
Theorem lastUsed_write_failure_denies :
  presentsToken MainWorker tokenRequest (token freshToken) = true
  /\ expired freshToken (now (world ∅ freshToken [false; true])) = false
  /\ verifyAdmin_of MainWorker tokenRequest secured (world ∅ freshToken [false; true])
     = (Returned false, mkWorld ∅ (Some freshToken) None 2000 [] 1)
  /\ verifyAdmin_of Rewrite000 tokenRequest secured (world ∅ freshToken [false; true])
     = (Returned false, mkWorld ∅ (Some freshToken) None 2000 [] 1)
  /\ verifyAdmin_of Rewrite001 tokenRequest secured (world ∅ freshToken [false; true])
     = (Threw "KV", mkWorld ∅ (Some freshToken) None 2000 [] 1).
Proof. vm_compute. repeat split; reflexivity. Qed.

(** What the gate does with a request that presents the stored, unexpired
    token, with an admin secret configured and no live session among the
    identifiers the request carries: it authorizes exactly when no storage
    operation throws, and then the stored record carries [lastUsed]; when
    one throws, the write of [lastUsed] included, it does not authorize and
    the stored record is as before. *)
Lemma token_request_and_the_lastUsed_write (script : Script) (request : Request)
  (env : Env) (w : World) (cfg : TokenConfig) :
  JS.truthy (ADMIN_PASSWORD env) = true ->
  noLiveSession w request = true ->
  kv_token_config w = Some cfg ->
  expired cfg (now w) = false ->
  presentsToken script request (token cfg) = true ->
  let run := verifyAdmin_of script request env w in
  (thrown (snd run) = thrown w ->
   fst run = Returned true
   /\ kv_token_config (snd run) = Some (set_lastUsed cfg (now w)))
  /\ ((thrown w < thrown (snd run))%nat ->
      fst run <> Returned true
      /\ kv_token_config (snd run) = Some cfg)
  /\ (thrown w <= thrown (snd run))%nat.
Proof.
  intros Hpw Hlive Hcfg Hx Hpres run. subst run.
  destruct (verifyAdmin_verdict script request env w Hpw) as [V _].
  destruct (verifyAdmin_of script request env w) as [r w'].
  cbn [fst snd] in *.
  inversion V; subst.
  - (* by a session: the request carries no live one *)
    congruence.
  - (* by the token *)
    repeat split; try lia; try discriminate; congruence.
  - (* denied with no fault: the token is there, presented and not expired *)
    match goal with
    | H : match kv_token_config w with _ => _ end |- _ =>
        rewrite Hcfg in H; destruct H; congruence
    end.
  - repeat split; try lia; try discriminate; congruence.
  - repeat split; try lia; try discriminate; congruence.
Qed.

Lemma eqb_admin_status : String.eqb "/admin-status" "/admin-status" = true.
Proof. reflexivity. Qed.

(** C10. Two requests to [/admin-status] with the same method get the same
    response, whatever credentials they carry; and for a method other than
    [OPTIONS], when the read of the record does not throw, the body holds
    the stored token record as it is, its [token] included.  This holds of
    the three scripts. *)
Theorem admin_status_discloses_token (script : Script) (env : Env) (w : World)
  (request1 request2 : Request) :
  pathname request1 = "/admin-status" ->
  pathname request2 = "/admin-status" ->
  method request1 = method request2 ->
  fetch_of script request1 env w = fetch_of script request2 env w
  /\ (IP_STORAGE_bound env = true ->
      String.eqb (method request1) "OPTIONS" = false ->
      hd false (faults w) = false ->
      exists hasToken,
        fetch_of script request1 env w
        = (Returned
             (Respond
                (mkResponse 200
                   (AdminStatusBody (JS.truthy (ADMIN_PASSWORD env)) hasToken
                      (kv_token_config w)))),
           passed w)).
Proof.
  intros P1 P2 Hm. split.
  - destruct script; cbn [fetch_of];
      unfold Worker.fetch, Part000.fetch, Part001.fetch;
      rewrite P1, P2, Hm; reflexivity.
  - intros Hb Ho Hf.
    assert (Hs : forall A (read : World -> A),
               storage read (fun w0 => w0) w = (Returned (read w), passed w)).
    { intros A read. unfold storage, passed.
      destruct (faults w) as [|[] rest]; cbn in Hf; try discriminate; reflexivity. }
    destruct script; cbn [fetch_of];
      unfold Worker.fetch, Part000.fetch, Part001.fetch,
        Worker.handleAdminStatus, Part000.handleAdminStatus, Part001.handleAdminStatus,
        Worker.getTokenConfig, Part000.getTokenConfig, Part001.getTokenConfig,
        get_token_config;
      rewrite P1, Hb, Ho; cbn [negb];
      unfold try_catch, bind, ret; rewrite eqb_admin_status, Hs;
      eexists; reflexivity.
Qed.

Lemma admin_status_discloses_token_witness :
  fetch_of MainWorker statusRequest secured (world storedSession freshToken [])
  = fetch_of MainWorker statusRequestWithSession secured
      (world storedSession freshToken [])
  /\ exists hasToken,
       fetch_of MainWorker statusRequest secured (world storedSession freshToken [])
       = (Returned
            (Respond
               (mkResponse 200
                  (AdminStatusBody true hasToken (Some freshToken)))),
          passed (world storedSession freshToken [])).
Proof.
  destruct (admin_status_discloses_token MainWorker secured
              (world storedSession freshToken [])
              statusRequest statusRequestWithSession
              eq_refl eq_refl eq_refl) as [Same Body].
  split; [exact Same | exact (Body eq_refl eq_refl eq_refl)].
Defined.

(** C8. The two rewrites take any number of days: the rotation that a
    logged-in admin posts with 1000 days is answered 200 and replaces the
    stored record by one that expires 1000 days ahead, where
    [src/_worker.js] answers 400 and leaves the record. *)
Theorem rewrites_accept_any_expiry :
  let w := world storedSession freshToken [] in
  let rotated :=
    mkTokenConfig "fresh" (2000 + 1000 * 86400000) 2000 None false in
  fst (verifyAdmin_of Rewrite000 (rotation 1000) secured w) = Returned true
  /\ fst (Part000.handleAdminToken (rotation 1000) secured w)
     = Returned (Respond (mkResponse 200 (TokenUpdatedBody rotated)))
  /\ kv_token_config (snd (Part000.handleAdminToken (rotation 1000) secured w))
     = Some rotated
  /\ fst (Part001.handleAdminToken (rotation 1000) secured w)
     = Returned (Respond (mkResponse 200 (TokenUpdatedBody rotated)))
  /\ kv_token_config (snd (Part001.handleAdminToken (rotation 1000) secured w))
     = Some rotated
  /\ fst (Worker.handleAdminToken (rotation 1000) secured w)
     = Returned (mkResponse 400 (ErrorBody ExpiryOutOfRange))
  /\ kv_token_config (snd (Worker.handleAdminToken (rotation 1000) secured w))
     = Some freshToken.
Proof. vm_compute. repeat split; reflexivity. Qed.

(** ** The validator on decimal groups *)

Lemma code_inj (c d : ascii) : JS.code c = JS.code d -> c = d.
Proof.
  unfold JS.code. intros H. apply Nat2Z.inj in H.
  rewrite <- (ascii_nat_embedding c), <- (ascii_nat_embedding d), H. reflexivity.
Qed.

Lemma ascii_eqb_code (c d : ascii) : Ascii.eqb c d = (JS.code c =? JS.code d).
Proof.
  destruct (Ascii.eqb_spec c d) as [-> | Hne].
  - symmetry. apply Z.eqb_refl.
  - symmetry. apply Z.eqb_neq. intros H. apply Hne, code_inj, H.
Qed.

Lemma split_nonempty (s : string) : JS.split "." s <> [].
Proof.
  destruct s as [|c s]; cbn [JS.split]; [discriminate|].
  destruct (Ascii.eqb c "."); [discriminate|].
  destruct (JS.split "." s); discriminate.
Qed.

Lemma join_split (s : string) : join (JS.split "." s) = s.
Proof.
  induction s as [|c s IH]; [reflexivity|].
  cbn [JS.split]. destruct (Ascii.eqb_spec c ".") as [-> | Hne].
  - pose proof (split_nonempty s) as N.
    destruct (JS.split "." s) as [|p ps]; [contradiction|].
    cbn [join] in *. rewrite IH. reflexivity.
  - destruct (JS.split "." s) as [|p ps] eqn:E; [exfalso; eapply split_nonempty; exact E|].
    destruct ps; cbn [join] in *; rewrite <- IH; reflexivity.
Qed.

Lemma digitsPrefix_lower (g : string) :
  forall acc v,
    JS.allDigits 10 g = true -> 0 <= acc ->
    JS.digitsPrefix 10 (Some acc) g = Some v ->
    acc <= v /\ (g <> "" -> 10 * acc <= v).
Proof.
  induction g as [|c g IH]; intros acc v Hd Hacc E.
  - cbn in E. injection E as <-. split; [lia | congruence].
  - rewrite allDigits_cons in Hd. apply andb_true_iff in Hd. destruct Hd as [Hc Hg].
    cbn [JS.digitsPrefix] in E. rewrite digitValue_10, Hc in E.
    pose proof (isDigit_code c Hc) as Bc.
    apply IH in E; [|exact Hg | lia]. lia.
Qed.

Lemma leadingZero_head (c : ascii) (r : string) :
  JS.startsWith (String c r) "0" = Ascii.eqb c "0".
Proof.
  unfold JS.startsWith. cbn [String.prefix].
  destruct (ascii_dec "0" c) as [<- | Hne].
  - destruct r; reflexivity.
  - symmetry. apply Ascii.eqb_neq. congruence.
Qed.

(** A decimal group with no zero in front of another digit denotes 172
    only if it is the text [172]. *)
Lemma group_172 (g : string) :
  decimalGroup g = true ->
  JS.startsWith g "0" && (1 <? String.length g)%nat = false ->
  (groupValue g =? 172) = String.eqb g "172".
Proof.
  intros Hg Hz.
  destruct (decimalGroup_value g Hg) as [Ev _].
  destruct (decimalGroup_head g Hg) as (c1 & r1 & -> & H1 & A1).
  rewrite leadingZero_head in Hz.
  pose proof (isDigit_code c1 H1) as B1.
  cbn [JS.digitsPrefix] in Ev. rewrite digitValue_10, H1 in Ev.
  cbn [String.eqb]. rewrite !ascii_eqb_code in *.
  change (JS.code "1") with 49. change (JS.code "0") with 48 in Hz.
  destruct r1 as [|c2 r2].
  { cbn in Ev. injection Ev as Ev.
    destruct (Z.eqb_spec (JS.code c1) 49); [|apply Z.eqb_neq; lia]; apply Z.eqb_neq; lia. }
  rewrite allDigits_cons in A1. apply andb_true_iff in A1. destruct A1 as [H2 A2].
  pose proof (isDigit_code c2 H2) as B2.
  cbn [String.length] in Hz.
  assert (N1 : JS.code c1 <> 48).
  { destruct (Z.eqb_spec (JS.code c1) 48); [discriminate Hz | assumption]. }
  cbn [JS.digitsPrefix] in Ev. rewrite digitValue_10, H2 in Ev.
  cbn [String.eqb]. rewrite !ascii_eqb_code. change (JS.code "7") with 55.
  destruct r2 as [|c3 r3].
  { cbn in Ev. injection Ev as Ev.
    destruct (Z.eqb_spec (JS.code c1) 49), (Z.eqb_spec (JS.code c2) 55);
      apply Z.eqb_neq; lia. }
  rewrite allDigits_cons in A2. apply andb_true_iff in A2. destruct A2 as [H3 A3].
  pose proof (isDigit_code c3 H3) as B3.
  cbn [JS.digitsPrefix] in Ev. rewrite digitValue_10, H3 in Ev.
  cbn [String.eqb]. rewrite !ascii_eqb_code. change (JS.code "2") with 50.
  destruct r3 as [|c4 r4].
  { cbn in Ev. injection Ev as Ev.
    destruct (Z.eqb_spec (JS.code c1) 49), (Z.eqb_spec (JS.code c2) 55),
      (Z.eqb_spec (JS.code c3) 50);
      first [apply Z.eqb_eq; lia | apply Z.eqb_neq; lia]. }
  assert (A4 : JS.allDigits 10 (String c4 r4) = true) by exact A3.
  apply digitsPrefix_lower in Ev; [|exact A4 | lia].
  destruct Ev as [_ Ev]. specialize (Ev ltac:(discriminate)).
  destruct (Z.eqb_spec (JS.code c1) 49), (Z.eqb_spec (JS.code c2) 55),
    (Z.eqb_spec (JS.code c3) 50); apply Z.eqb_neq; lia.
Qed.

Lemma prefix_cons (c d : ascii) (p s : string) :
  String.prefix (String c p) (String d s) = Ascii.eqb d c && String.prefix p s.
Proof.
  cbn [String.prefix]. destruct (ascii_dec c d) as [<- | Hne].
  - rewrite Ascii.eqb_refl. reflexivity.
  - destruct (Ascii.eqb_spec d c); [congruence | reflexivity].
Qed.

Lemma prefix_nil (s : string) : String.prefix "" s = true.
Proof. destruct s; reflexivity. Qed.

(** In front of a dot, a run of digits starts with [172.] only if it is the
    text [172]. *)
Lemma startsWith_172 (a r : string) :
  JS.allDigits 10 a = true ->
  JS.startsWith (a ++ String "." r) "172." = String.eqb a "172".
Proof.
  intros Ha. unfold JS.startsWith.
  destruct a as [|c1 a]; [reflexivity|].
  rewrite string_app_cons, prefix_cons. cbn [String.eqb].
  destruct (Ascii.eqb c1 "1"); [|reflexivity]. rewrite andb_true_l.
  rewrite allDigits_cons in Ha. apply andb_true_iff in Ha. destruct Ha as [_ Ha].
  destruct a as [|c2 a]; [reflexivity|].
  rewrite string_app_cons, prefix_cons. cbn [String.eqb].
  destruct (Ascii.eqb c2 "7"); [|reflexivity]. rewrite andb_true_l.
  rewrite allDigits_cons in Ha. apply andb_true_iff in Ha. destruct Ha as [_ Ha].
  destruct a as [|c3 a]; [reflexivity|].
  rewrite string_app_cons, prefix_cons. cbn [String.eqb].
  destruct (Ascii.eqb c3 "2"); [|reflexivity]. rewrite andb_true_l.
  rewrite allDigits_cons in Ha. apply andb_true_iff in Ha. destruct Ha as [_ Ha].
  destruct a as [|c4 a].
  - rewrite string_app_nil_l, prefix_cons, prefix_nil. reflexivity.
  - rewrite allDigits_cons in Ha. apply andb_true_iff in Ha. destruct Ha as [H4 _].
    rewrite string_app_cons, prefix_cons, (digit_not c4 "." H4 eq_refl). reflexivity.
Qed.

Lemma partOk_group (g : string) :
  decimalGroup g = true ->
  Worker.partOk g
  = (decimalGroup g && (groupValue g <=? 255)
     && negb (JS.startsWith g "0" && (1 <? String.length g)%nat)).
Proof.
  intros H. unfold Worker.partOk. rewrite (parseInt10_group g H), H.
  destruct (decimalGroup_value g H) as [_ Hv].
  destruct (Z.ltb_spec (groupValue g) 0) as [|_]; [lia|].
  rewrite orb_false_l, andb_true_l.
  rewrite Z.gtb_ltb.
  destruct (Z.ltb_spec 255 (groupValue g)), (Z.leb_spec (groupValue g) 255); try lia.
  all: cbn [orb andb negb].
  all: destruct (JS.startsWith g "0" && (1 <? String.length g)%nat); reflexivity.
Qed.

Lemma forallb_ext_in {A} (f g : A -> bool) (l : list A) :
  (forall x, In x l -> f x = g x) -> forallb f l = forallb g l.
Proof.
  induction l as [|x l IH]; intros H; [reflexivity|].
  cbn [forallb]. rewrite (H x (or_introl eq_refl)), IH; [reflexivity|].
  intros y Hy. apply H. right. exact Hy.
Qed.

(** X3. On a text made of decimal groups the validator of the main worker
    computes the rule of the specification. *)
Lemma Worker_isValidIPv4_rule (s : string) :
  forallb decimalGroup (JS.split "." s) = true ->
  Worker.isValidIPv4 s = isValid_spec s.
Proof.
  intros Hg. unfold Worker.isValidIPv4, isValid_spec. cbv zeta.
  pose proof (join_split s) as Hs.
  set (ok := fun g => decimalGroup g && (groupValue g <=? 255)
                      && negb (JS.startsWith g "0" && (1 <? String.length g)%nat)).
  assert (Hp : forallb Worker.partOk (JS.split "." s) = forallb ok (JS.split "." s)).
  { apply forallb_ext_in. intros g Hin. apply partOk_group.
    rewrite forallb_forall in Hg. apply Hg, Hin. }
  rewrite Hp.
  destruct (JS.split "." s) as [|a [|b [|c [|d [|e rest]]]]] eqn:E;
    try reflexivity.
  change (negb (List.length [a; b; c; d] =? 4)%nat) with false.
  change (List.length [a; b; c; d] =? 4)%nat with true.
  cbv iota. rewrite andb_true_l.
  destruct (forallb ok [a; b; c; d]) eqn:Hok; [|reflexivity].
  cbn [negb nth]. rewrite andb_true_l.
  cbn [forallb] in Hg, Hok.
  repeat (apply andb_true_iff in Hg; destruct Hg as [? Hg]).
  apply andb_true_iff in Hok. destruct Hok as [Hoa Hok].
  apply andb_true_iff in Hok. destruct Hok as [Hob _].
  unfold ok in Hoa. apply andb_true_iff in Hoa. destruct Hoa as [_ Hza].
  apply negb_true_iff in Hza.
  rewrite (parseInt_group b) by assumption. unfold JS.between.
  assert (E172 : JS.startsWith s "172." = (groupValue a =? 172)).
  { rewrite (group_172 a) by assumption.
    rewrite <- Hs. cbn [join].
    apply startsWith_172.
    unfold decimalGroup in *.
    match goal with H : negb (String.eqb a _) && _ = true |- _ =>
      apply andb_true_iff in H; apply H end. }
  rewrite E172.
  destruct (JS.startsWith s "10."), (JS.startsWith s "192.168."),
    (JS.startsWith s "127."), (JS.startsWith s "169.254."),
    (String.eqb s "255.255.255.255"), (groupValue a =? 172),
    (16 <=? groupValue b), (groupValue b <=? 31); reflexivity.
Qed.

(** ** The validator: claim *)

(** C4. The validators accept texts that the rule rejects:
    [src/_worker.js] reads [1abc] as [1] and does not see the range of
    [ 172.16.0.1] behind the leading blank; the rewrites accept 169.254.1.1
    and zero-padded groups, [part_000] also 172.16.0.1; and through the
    rewrites these addresses reach the harvest. *)
Theorem validators_accept_what_the_rule_rejects :
  (Worker.isValidIPv4 "1abc.2.3.4" = true /\ isValid_spec "1abc.2.3.4" = false)
  /\ (Worker.isValidIPv4 " 172.16.0.1" = true /\ isValid_spec " 172.16.0.1" = false)
  /\ (Part000.isValidIPv4 "169.254.1.1" = true
      /\ Part001.isValidIPv4 "169.254.1.1" = true
      /\ Worker.isValidIPv4 "169.254.1.1" = false
      /\ isValid_spec "169.254.1.1" = false)
  /\ (Part000.isValidIPv4 "172.16.0.1" = true /\ isValid_spec "172.16.0.1" = false)
  /\ (Part000.isValidIPv4 "01.1.1.1" = true
      /\ Part001.isValidIPv4 "01.1.1.1" = true
      /\ isValid_spec "01.1.1.1" = false)
  /\ uniqueIPs (Part000.updateAllIPs reservedFetch)
     = ["01.1.1.1"; "169.254.1.1"; "172.16.0.1"; "255.255.255.255"]
  /\ uniqueIPs (Part001.updateAllIPs reservedFetch)
     = ["01.1.1.1"; "169.254.1.1"; "255.255.255.255"]
  /\ uniqueIPs (Worker.updateAllIPs reservedFetch) = [].
Proof. vm_compute. repeat split; reflexivity. Qed.

(* ===================================================================== *)
(** * The other handlers: properties                                     *)
(* ===================================================================== *)

(** ** The harvest, address by address *)

Lemma Set_add_In (set : list string) (x a : string) :
  In a (JS.Set_add set x) <-> In a set \/ a = x.
Proof.
  unfold JS.Set_add. destruct (JS.Set_has set x) eqn:E.
  - apply Set_has_In in E. split; [auto|]. intros [H | ->]; assumption.
  - rewrite in_app_iff. cbn [In]. intuition.
Qed.

Lemma addMatches_In (script : Script) (found : list string) (a : string) :
  forall set,
    In a (addMatches script set found)
    <-> In a set \/ (In a found /\ isValidIPv4_of script a = true).
Proof.
  unfold addMatches. induction found as [|x found IH]; intros set; cbn [fold_left In].
  - tauto.
  - rewrite IH. destruct (isValidIPv4_of script x) eqn:V.
    + rewrite Set_add_In. split.
      * intros [[H | ->] | H]; [tauto | right; split; [left; reflexivity | exact V] | tauto].
      * intros [H | [[-> | H] Hv]]; tauto.
    + split; [tauto|]. intros [H | [[-> | H] Hv]]; [tauto | congruence | tauto].
Qed.

Lemma grow_In (script : Script) (fetched : string -> FetchOutcome)
  (srcs : list string) (a : string) :
  forall set,
    In a (fold_left (grow script fetched) srcs set)
    <-> In a set
        \/ (isValidIPv4_of script a = true
            /\ exists url text,
                 In url srcs /\ fetched url = Fulfilled text
                 /\ In a (JS.String_match ipPattern text)).
Proof.
  induction srcs as [|u srcs IH]; intros set; cbn [fold_left].
  - split; [tauto|]. intros [H | (_ & url & text & [] & _)]. exact H.
  - rewrite IH. unfold grow. destruct (fetched u) as [text | message] eqn:E.
    + rewrite addMatches_In. split.
      * intros [[H | [Hf Hv]] | (Hv & url & t & Hin & Hu & Hm)].
        -- left. exact H.
        -- right. split; [exact Hv|]. exists u, text. cbn [In]. auto.
        -- right. split; [exact Hv|]. exists url, t. cbn [In]. auto.
      * intros [H | (Hv & url & t & [<- | Hin] & Hu & Hm)].
        -- auto.
        -- rewrite E in Hu. injection Hu as <-. auto.
        -- right. split; [exact Hv|]. exists url, t. auto.
    + split.
      * intros [H | (Hv & url & t & Hin & Hu & Hm)]; [auto|].
        right. split; [exact Hv|]. exists url, t. cbn [In]. auto.
      * intros [H | (Hv & url & t & [<- | Hin] & Hu & Hm)]; [auto | congruence |].
        right. split; [exact Hv|]. exists url, t. auto.
Qed.

(** The members of a harvest over any list of sources. *)
Lemma collect_In (script : Script) (fetched : string -> FetchOutcome)
  (srcs : list string) (a : string) :
  In a (uniqueIPs (collect_of script fetched srcs))
  <-> isValidIPv4_of script a = true
      /\ exists url text,
           In url srcs /\ fetched url = Fulfilled text
           /\ In a (JS.String_match ipPattern text).
Proof.
  rewrite collect_fold. cbn [uniqueIPs].
  pose proof (sort_Permutation (compareIPs_of script)
                (fold_left (grow script fetched) srcs [])) as Perm.
  split.
  - intros H. apply (Permutation_in _ Perm) in H.
    apply grow_In in H. destruct H as [[] | H]. exact H.
  - intros H. apply (Permutation_in _ (Permutation_sym Perm)).
    apply grow_In. right. exact H.
Qed.

(** X1. An address is in the list of a harvest exactly when the validator of
    the script accepts it and the pattern found it in the text of a source
    that answered. *)
Theorem harvest_is_the_valid_matches (script : Script)
  (fetched : string -> FetchOutcome) (a : string) :
  In a (uniqueIPs (updateAllIPs_of script fetched))
  <-> isValidIPv4_of script a = true
      /\ exists url text,
           In url (sources_of script) /\ fetched url = Fulfilled text
           /\ In a (JS.String_match ipPattern text).
Proof.
  rewrite updateAllIPs_collect. apply collect_In.
Qed.

(** ** The ranking: the entries left out *)

Lemma Sorted_latency_split (l : list LatencyResult) (n : nat) :
  Sorted latency_le l ->
  forall e r, In e (firstn n l) -> In r (skipn n l) -> latency e <= latency r.
Proof.
  intros S. apply Sorted_StronglySorted in S;
    [| intros x y z; unfold latency_le; lia].
  revert n. induction S as [|x l S IH Hx]; intros n e r He Hr.
  - rewrite firstn_nil in He. destruct He.
  - destruct n as [|n]; [destruct He|]. cbn [firstn skipn In] in He, Hr.
    destruct He as [<- | He].
    + rewrite List.Forall_forall in Hx. apply Hx.
      rewrite <- (firstn_skipn n l). apply in_or_app. right. exact Hr.
    + eapply IH; eassumption.
Qed.

(** X4. The record of a ranking run holds the fastest: a probe of one of the
    first 200 addresses that succeeded and whose result is not in the
    record measured no less than every entry of the record.  In
    [src/_worker.js] this holds of the probes that succeeded with a latency
    other than [0]: a success at [0] ms is never in its record, while the
    rewrites keep it. *)
Theorem ranking_keeps_the_fastest (script : Script)
  (probe : string -> ProbeOutcome) (ips : list string) (w : World) :
  (script = MainWorker -> ips <> []) ->
  hd false (faults w) = false ->
  exists fs,
    kv_fast_ips (snd (autoSpeedTestAndStore_of script probe ips w)) = Some fs
    /\ (forall e a t,
          In e (fastIPs fs) ->
          In a (probed ips) ->
          probe a = Responded true t ->
          (script = MainWorker -> t <> 0) ->
          ~ In (mkLatencyResult a t) (fastIPs fs) ->
          latency e <= t)
    /\ (script = MainWorker -> Forall (fun e => latency e <> 0) (fastIPs fs)).
Proof.
  intros Hne Hf.
  destruct (autoSpeedTestAndStore_run script probe ips w Hne Hf) as (tested & total & E).
  rewrite E. eexists. cbn [snd set_fast_ips kv_fast_ips].
  split; [reflexivity|]. cbn [fastIPs]. split.
  - intros e a t He Ha Hp Ht Hout. unfold ranked in *.
    set (sorted := JS.sort Worker.compareLatency (collected script probe ips)) in *.
    assert (S : Sorted latency_le sorted).
    { apply (sort_Sorted _ (fun _ => True)).
      - intros x y _ _. unfold JS.SortCompare, Worker.compareLatency, latency_le. lia.
      - intros x y _ _. unfold JS.SortCompare, Worker.compareLatency, latency_le. lia.
      - apply List.Forall_forall. trivial. }
    assert (Hs : In a (successes script probe ips)).
    { unfold successes. apply filter_In. split; [exact Ha|].
      unfold counted. rewrite Hp. destruct script; try reflexivity.
      destruct (Z.eqb_spec t 0) as [E0 |]; [exfalso; apply (Ht eq_refl E0) | reflexivity]. }
    assert (Hm : measured probe a = t) by (unfold measured; rewrite Hp; reflexivity).
    assert (Hin : In (mkLatencyResult a t) sorted).
    { apply (Permutation_in _ (Permutation_sym (sort_Permutation _ _))).
      unfold collected. rewrite <- Hm.
      apply (in_map (fun a => mkLatencyResult a (measured probe a))). exact Hs. }
    rewrite <- (firstn_skipn 25 sorted) in Hin. apply in_app_or in Hin.
    destruct Hin as [Hin | Hin]; [contradiction|].
    apply (Sorted_latency_split sorted 25 S e _ He Hin).
  - intros ->. destruct (ranked_facts MainWorker probe ips) as (_ & _ & _ & F).
    eapply List.Forall_impl; [|exact F]. cbn. intros e [Hin Hp].
    unfold successes in Hin. apply filter_In in Hin. destruct Hin as [_ Hc].
    unfold counted in Hc. rewrite Hp in Hc.
    destruct (Z.eqb_spec (latency e) 0); [discriminate Hc | assumption].
Qed.

(** ** Where a match sits in its text *)

Lemma endsInWord_app (a b : string) :
  forall prev, endsInWord prev (a ++ b) = endsInWord (endsInWord prev a) b.
Proof.
  induction a as [|c a IH]; intros prev; [reflexivity|].
  rewrite string_app_cons. cbn [endsInWord]. apply IH.
Qed.

(** A successful match hands its continuation the class of the last
    character it consumed. *)
Lemma rmatch_tracks (r : JS.regex) :
  forall prev s k rest,
    JS.rmatch r prev s k = Some rest ->
    exists m s', s = m ++ s' /\ lang r m /\ k (endsInWord prev m) s' = Some rest.
Proof.
  induction r as [| a | | a IHa b IHb | lo hi a IHa]; intros prev s k rest H.
  - simpl in H. destruct s as [|c s']; [discriminate|].
    destruct (JS.isDigit c) eqn:D; [|discriminate].
    exists (String c ""), s'. simpl. eauto.
  - simpl in H. destruct s as [|c s']; [discriminate|].
    destruct (Ascii.eqb_spec c a) as [->|]; [|discriminate].
    exists (String a ""), s'. simpl. eauto.
  - simpl in H. destruct (xorb prev (JS.nextIsWord s)); [|discriminate].
    exists "", s. simpl. eauto.
  - simpl in H. apply IHa in H. destruct H as (m1 & s1 & -> & L1 & H).
    apply IHb in H. destruct H as (m2 & s2 & -> & L2 & H).
    exists (m1 ++ m2), s2. rewrite string_app_assoc, endsInWord_app. simpl. eauto 10.
  - simpl in H. revert lo prev s k rest H.
    induction hi as [|n IHn]; intros lo prev s k rest H.
    + destruct lo; [|discriminate].
      exists "", s. simpl. split; [reflexivity|]. split; [|exact H].
      exists 0%nat. simpl. split; [lia | reflexivity].
    + destruct lo as [|lo'].
      * destruct (JS.rmatch a prev s _) as [rest'|] eqn:E.
        -- injection H as ->. apply IHa in E.
           destruct E as (m1 & s1 & -> & L1 & E).
           apply IHn in E. destruct E as (m2 & s2 & -> & (j & Hj & Pj) & E).
           exists (m1 ++ m2), s2. rewrite string_app_assoc, endsInWord_app.
           split; [reflexivity|]. split; [|exact E].
           exists (S j). split; [lia|]. simpl. eauto.
        -- exists "", s. split; [reflexivity|]. split; [|exact H].
           exists 0%nat. simpl. split; [lia | reflexivity].
      * apply IHa in H. destruct H as (m1 & s1 & -> & L1 & E).
        apply IHn in E. destruct E as (m2 & s2 & -> & (j & Hj & Pj) & E).
        exists (m1 ++ m2), s2. rewrite string_app_assoc, endsInWord_app.
        split; [reflexivity|]. split; [|exact E].
        exists (S j). split; [lia|]. simpl. eauto.
Qed.

Lemma rmatch_seq (a b : JS.regex) (prev : bool) (s : string)
  (k : bool -> string -> option string) :
  JS.rmatch (JS.RSeq a b) prev s k
  = JS.rmatch a prev s (fun p s' => JS.rmatch b p s' k).
Proof. reflexivity. Qed.

Lemma rmatch_boundary (prev : bool) (s : string)
  (k : bool -> string -> option string) :
  JS.rmatch JS.RBoundary prev s k
  = if xorb prev (JS.nextIsWord s) then k prev s else None.
Proof. reflexivity. Qed.

Lemma digit_isWordChar (c : ascii) : JS.isDigit c = true -> JS.isWordChar c = true.
Proof. intros H. unfold JS.isWordChar. rewrite H. reflexivity. Qed.

Lemma endsInWord_digits (g : string) :
  forall prev, JS.allDigits 10 g = true -> g <> "" -> endsInWord prev g = true.
Proof.
  induction g as [|c g IH]; intros prev Hd Hne; [congruence|].
  rewrite allDigits_cons in Hd. apply andb_true_iff in Hd. destruct Hd as [Hc Hg].
  cbn [endsInWord]. destruct g as [|d g].
  - cbn [endsInWord]. apply digit_isWordChar, Hc.
  - apply IH; [exact Hg | discriminate].
Qed.

(** The groups of a text of the pattern: four runs of one to three digits. *)
Lemma ipPattern_groups (m : string) :
  lang ipPattern m ->
  exists g1 g2 g3 g4,
    m = g1 ++ String "." (g2 ++ String "." (g3 ++ String "." g4))
    /\ JS.split "." m = [g1; g2; g3; g4]
    /\ Forall (fun g => decimalGroup g = true /\ JS.allDigits 10 g = true
                        /\ (1 <= String.length g <= 3)%nat)
         [g1; g2; g3; g4].
Proof.
  unfold ipPattern. cbn [lang].
  intros (b1 & r1 & -> & -> & m3 & r2 & -> & (n & Hn & P3) & g4 & b2 & -> & G4 & ->).
  assert (n = 3%nat) by lia. subst n. cbn [pow] in P3.
  destruct P3 as (x1 & y1 & -> & (g1 & d1 & -> & G1 & ->)
                  & x2 & y2 & -> & (g2 & d2 & -> & G2 & ->)
                  & x3 & y3 & -> & (g3 & d3 & -> & G3 & ->) & ->).
  assert (R : forall g, lang (JS.RRepeat 1 3 JS.RDigit) g ->
                        decimalGroup g = true /\ JS.allDigits 10 g = true
                        /\ (1 <= String.length g <= 3)%nat).
  { intros g Hg. destruct (digit_run g Hg) as [A D].
    destruct Hg as (k & Hk & Hp). apply pow_digits in Hp. destruct Hp as [_ Hl].
    repeat split; try assumption; lia. }
  apply R in G1, G2, G3, G4.
  exists g1, g2, g3, g4.
  rewrite !string_app_assoc, !string_app_cons, !string_app_nil_l, string_app_nil_r.
  split; [reflexivity|]. split.
  - destruct G1 as (_ & A1 & _), G2 as (_ & A2 & _), G3 as (_ & A3 & _),
      G4 as (_ & A4 & _).
    rewrite (split_group_dot g1 _ A1), (split_group_dot g2 _ A2),
      (split_group_dot g3 _ A3), (split_group g4 A4).
    reflexivity.
  - repeat (apply List.Forall_cons; [assumption|]). apply List.Forall_nil.
Qed.

Lemma nextIsWord_digits (g rest : string) :
  JS.allDigits 10 g = true -> g <> "" -> JS.nextIsWord (g ++ rest) = true.
Proof.
  destruct g as [|c g]; [congruence|]. rewrite allDigits_cons. intros H _.
  apply andb_true_iff in H. destruct H as [Hc _].
  rewrite string_app_cons. cbn [JS.nextIsWord]. apply digit_isWordChar, Hc.
Qed.

(** An attempt of the worker's pattern that succeeds starts after a character
    that is no word character, and stops in front of one that is none. *)
Lemma exec_at_ipPattern (prev : bool) (s m : string) :
  JS.exec_at ipPattern prev s = Some m ->
  prev = false
  /\ lang ipPattern m
  /\ exists rest, s = m ++ rest /\ JS.nextIsWord rest = false.
Proof.
  intros H. pose proof (exec_at_sound _ _ _ _ H) as L.
  split; [|split; [exact L|]]; revert H; unfold JS.exec_at;
    destruct (JS.rmatch ipPattern prev s _) as [rest|] eqn:E; try discriminate;
    intros H; injection H as <-;
    unfold ipPattern in E; rewrite rmatch_seq, rmatch_boundary in E;
    destruct (xorb prev (JS.nextIsWord s)) eqn:X; try discriminate;
    rewrite rmatch_seq in E; apply rmatch_tracks in E;
    destruct E as (mA & sA & -> & LA & E);
    rewrite rmatch_seq in E; apply rmatch_tracks in E;
    destruct E as (mB & sB & -> & LB & E);
    rewrite rmatch_boundary in E;
    destruct (xorb _ (JS.nextIsWord sB)) eqn:Y; try discriminate;
    injection E as <-.
  - (* the character before *)
    destruct LA as (n & Hn & P). assert (n = 3%nat) by lia. subst n.
    cbn [pow] in P. destruct P as (x1 & y1 & -> & (g1 & d1 & -> & G1 & ->) & _).
    apply digit_run in G1. destruct G1 as [A1 D1].
    rewrite !string_app_assoc in X.
    rewrite nextIsWord_digits in X; [destruct prev; [discriminate | reflexivity] | exact A1 |].
    intros ->. discriminate.
  - (* the character after *)
    exists sB. split.
    + rewrite <- string_app_assoc. rewrite string_length_app.
      replace (String.length (mA ++ mB) + String.length sB - String.length sB)%nat
        with (String.length (mA ++ mB)) by lia.
      rewrite substring_prefix. reflexivity.
    + destruct (digit_run mB LB) as [AB DB].
      rewrite endsInWord_digits in Y; [ | exact AB | intros ->; discriminate].
      destruct (JS.nextIsWord sB); [discriminate | reflexivity].
Qed.

Lemma scan_places (text : string) :
  forall s before prev skip,
    text = before ++ s ->
    prev = endsInWord false before ->
    Forall (fun m => lang ipPattern m
                     /\ exists b a, text = b ++ m ++ a
                                    /\ endsInWord false b = false
                                    /\ JS.nextIsWord a = false)
      (JS.scan ipPattern prev skip s).
Proof.
  induction s as [|c s IH]; intros before prev skip Ht Hp; cbn [JS.scan]; [constructor|].
  assert (Hnext : forall k,
             Forall (fun m => lang ipPattern m
                     /\ exists b a, text = b ++ m ++ a
                                    /\ endsInWord false b = false
                                    /\ JS.nextIsWord a = false)
               (JS.scan ipPattern (JS.isWordChar c) k s)).
  { intros k. apply (IH (before ++ String c "")).
    - rewrite string_app_assoc. exact Ht.
    - rewrite endsInWord_app. reflexivity. }
  destruct skip; [|apply Hnext].
  destruct (JS.exec_at ipPattern prev (String c s)) as [m|] eqn:E; [|apply Hnext].
  constructor; [|apply Hnext].
  apply exec_at_ipPattern in E. destruct E as (P & L & rest & Es & Hr).
  split; [exact L|]. exists before, rest. rewrite <- Es.
  split; [exact Ht|]. split; [congruence | exact Hr].
Qed.

(** X2. Every candidate that the pattern extracts is a piece of the text,
    made of four groups of one to three digits with dots between them, and
    it stands alone: no letter, digit or underscore comes right before it or
    right after it. *)
Theorem candidates_stand_alone (text : string) :
  Forall (fun m =>
            (exists g1 g2 g3 g4,
               m = g1 ++ String "." (g2 ++ String "." (g3 ++ String "." g4))
               /\ Forall (fun g => JS.allDigits 10 g = true
                                   /\ (1 <= String.length g <= 3)%nat)
                    [g1; g2; g3; g4])
            /\ exists before after,
                 text = before ++ m ++ after
                 /\ endsInWord false before = false
                 /\ JS.nextIsWord after = false)
    (JS.String_match ipPattern text).
Proof.
  unfold JS.String_match.
  eapply List.Forall_impl; [|apply (scan_places text text "" false 0%nat); reflexivity].
  intros m [L P]. split; [|exact P].
  destruct (ipPattern_groups m L) as (g1 & g2 & g3 & g4 & E & _ & F).
  exists g1, g2, g3, g4. split; [exact E|].
  eapply List.Forall_impl; [|exact F]. cbn. tauto.
Qed.

(** ** Runs with no storage fault *)

(** A storage operation in a world whose next fault flag is down. *)
Lemma storage_passes {A : Type} (read : World -> A) (write : World -> World)
  (w : World) :
  hd false (faults w) = false ->
  storage read write w = (Returned (read w), write (passed w)).
Proof.
  unfold storage, passed. destruct (faults w) as [|[] rest]; cbn; intros H;
    [reflexivity | discriminate | reflexivity].
Qed.

Lemma post_storage_calm {A : Type} (read : World -> A) (write : World -> World)
  (w : World) (P : Outcome A -> World -> Prop) :
  hd false (faults w) = false ->
  P (Returned (read w)) (write (passed w)) ->
  post (storage read write) w P.
Proof. intros Hf H. unfold post. rewrite storage_passes by exact Hf. exact H. Qed.

Lemma verifyAdmin_stranger (script : Script) (request : Request) (env : Env)
  (w : World) :
  JS.truthy (ADMIN_PASSWORD env) = true ->
  stranger script request w ->
  post (verifyAdmin_of script request env) w
    (fun r w' =>
       (r = Returned false \/ (script = Rewrite001 /\ exists e, r = Threw e))
       /\ kv_token_config w' = kv_token_config w
       /\ sameFrame w w').
Proof.
  intros Hpw [Hs Ht].
  apply (post_consequence _ _ _ _ (verifyAdmin_verdict script request env w Hpw)).
  intros r w' [V F].
  destruct V as [w' Hl _ _ | cfg w' Hc He Hp _ _ | w' _ _ Hk | w' _ _ Hk | e w' Hr _ Hk].
  - congruence.
  - rewrite Hc in Ht. destruct Ht; congruence.
  - auto.
  - auto.
  - split; [right; split; [exact Hr | eauto] | auto].
Qed.

(** X6. A stranger cannot read or rotate the token through [/admin-token]:
    the handler of each script answers 401 (the rewrite with no handler of
    its own lets a storage exception through), and the namespace keeps its
    token record, its sessions and its ranking. *)
Theorem token_handler_refuses_strangers (script : Script) (request : Request)
  (env : Env) (w : World) :
  JS.truthy (ADMIN_PASSWORD env) = true ->
  stranger script request w ->
  (fst (handleAdminToken_of script request env w)
   = Returned (Respond (jsonResponse (ErrorBody NeedAdmin) 401))
   \/ (script = Rewrite001
       /\ exists e, fst (handleAdminToken_of script request env w) = Threw e))
  /\ kv_token_config (snd (handleAdminToken_of script request env w))
     = kv_token_config w
  /\ kv_sessions (snd (handleAdminToken_of script request env w)) = kv_sessions w
  /\ kv_fast_ips (snd (handleAdminToken_of script request env w)) = kv_fast_ips w.
Proof.
  intros Hpw Hs.
  pose proof (verifyAdmin_stranger script request env w Hpw Hs) as V.
  assert (G : forall (k : bool -> M Served),
             (forall w', k false w'
                         = (Returned (Respond (jsonResponse (ErrorBody NeedAdmin) 401)), w')) ->
             post (bind (verifyAdmin_of script request env) k) w
               (fun r w' =>
                  (r = Returned (Respond (jsonResponse (ErrorBody NeedAdmin) 401))
                   \/ (script = Rewrite001 /\ exists e, r = Threw e))
                  /\ kv_token_config w' = kv_token_config w
                  /\ kv_sessions w' = kv_sessions w
                  /\ kv_fast_ips w' = kv_fast_ips w)).
  { intros k Hk. apply post_bind.
    apply (post_consequence _ _ _ _ V).
    intros r w' ([-> | [Hr [e ->]]] & Hc & Hse & Hf & _).
    - unfold post. rewrite Hk. cbn [fst snd]. auto.
    - split; [right; split; [exact Hr | eauto] | auto]. }
  destruct script; cbn [handleAdminToken_of verifyAdmin_of] in *.
  - unfold Worker.handleAdminToken. revert V. unfold post, bind.
    destruct (Worker.verifyAdmin request env w) as [[[] | e] w1]; cbn [fst snd negb].
    + intros ([H | [H _]] & _); discriminate.
    + intros (_ & Hc & Hse & Hf & _). auto.
    + intros ([H | [H _]] & _); discriminate.
  - unfold Part000.handleAdminToken. apply G. reflexivity.
  - unfold Part001.handleAdminToken. apply G. reflexivity.
Qed.

(** ** The rotation and the gate *)

Ltac calm_step :=
  lazymatch goal with
  | |- post (bind _ _) _ _ => apply post_bind
  | |- post (try_catch _ _) _ _ => apply post_try_catch
  | |- post (ret _) _ _ => apply post_ret
  | |- post (throw _) _ _ => apply post_throw
  | |- post Date_now _ _ => apply post_Date_now
  | |- post (lookupSession _) _ _ => unfold lookupSession, get_session
  | |- post (storage _ _) _ _ => apply post_storage_calm; [reflexivity|]
  | |- post get_token_config _ _ => unfold get_token_config
  | |- post (put_token_config _) _ _ => unfold put_token_config
  | |- post (if ?b then _ else _) _ _ => destruct b eqn:?
  | |- post (match ?x with _ => _ end) _ _ => destruct x eqn:?
  end; cbv beta iota.

(** With no fault scheduled the gate raises none. *)
Lemma verifyAdmin_calm (script : Script) (request : Request) (env : Env) (w : World) :
  faults w = [] ->
  thrown (snd (verifyAdmin_of script request env w)) = thrown w.
Proof.
  intros Hf. destruct w as [ss tc fi t fl th]. cbn in Hf. subst fl.
  change (post (verifyAdmin_of script request env) (mkWorld ss tc fi t [] th)
            (fun _ w' => thrown w' = th)).
  destruct script; cbn [verifyAdmin_of];
    unfold Worker.verifyAdmin, Part000.verifyAdmin, Part001.verifyAdmin,
      Worker.checkHeaderSession, Worker.checkQuerySession, Worker.checkToken,
      Worker.getTokenConfig, Worker.touch,
      Part000.checkCredentials, Part000.checkSession, Part000.checkToken,
      Part000.getTokenConfig;
    repeat calm_step; reflexivity.
Qed.

(** A request that presents the stored token before its expiry is let in
    when the namespace does not fail. *)
Lemma verifyAdmin_admits (script : Script) (request : Request) (env : Env)
  (w : World) (cfg : TokenConfig) :
  kv_token_config w = Some cfg ->
  expired cfg (now w) = false ->
  presentsToken script request (token cfg) = true ->
  faults w = [] ->
  fst (verifyAdmin_of script request env w) = Returned true.
Proof.
  intros Hc He Hp Hf.
  destruct (JS.truthy (ADMIN_PASSWORD env)) eqn:Hpw;
    [| rewrite (verifyAdmin_open script request env w Hpw); reflexivity].
  pose proof (verifyAdmin_calm script request env w Hf) as Calm.
  destruct (verifyAdmin_verdict script request env w Hpw) as [V _].
  destruct V as [w' _ _ _ | c w' _ _ _ _ _ | w' Hd _ _ | w' _ Ht _ | e w' _ Ht _];
    try reflexivity; try lia.
  rewrite Hc in Hd. destruct Hd; congruence.
Qed.

Lemma verifyAdmin_clock (script : Script) (request : Request) (env : Env) (w : World) :
  now (snd (verifyAdmin_of script request env w)) = now w.
Proof.
  destruct (JS.truthy (ADMIN_PASSWORD env)) eqn:Hpw.
  - destruct (verifyAdmin_verdict script request env w Hpw) as [_ (_ & _ & F)]. exact F.
  - rewrite (verifyAdmin_open script request env w Hpw). reflexivity.
Qed.

(** What a rotation that answers 200 has stored. *)
Lemma rotation_stores (script : Script) (request : Request) (env : Env) (w : World)
  (data : TokenRequest) (tok : string) :
  method request = "POST" ->
  json request = Some data ->
  req_token data = Some tok ->
  post (handleAdminToken_of script request env) w
    (fun r w' =>
       forall resp,
         r = Returned (Respond resp) -> status resp = 200 ->
         exists e,
           body resp
           = TokenUpdatedBody
               (mkTokenConfig (JS.trim tok) e (now w) None (req_neverExpire data))
           /\ kv_token_config w'
              = Some (mkTokenConfig (JS.trim tok) e (now w) None (req_neverExpire data))
           /\ (req_neverExpire data = false ->
               exists d, req_expiresDays data = Some d /\ e = now w + d * 86400000)).
Proof.
  intros Hm Hj Ht.
  pose proof (verifyAdmin_clock script request env w) as Clock.
  destruct script; cbn [handleAdminToken_of verifyAdmin_of] in *.
  - apply post_bind. unfold Worker.handleAdminToken.
    apply post_bind. revert Clock. unfold post at 1.
    destruct (Worker.verifyAdmin request env w) as [[[] | e] w1]; cbn [fst snd negb];
      intros Clock.
    + rewrite Hm, Hj, Ht.
      change (String.eqb "POST" "GET") with false.
      change (String.eqb "POST" "POST") with true. cbv iota.
      repeat wp_step'. all: worlds.
      all: intros resp E Hs; try discriminate; injection E as E; subst resp;
        cbn in Hs; try discriminate.
      all: eexists; split; [rewrite Clock; reflexivity|];
        split; [rewrite Clock; reflexivity|].
      all: intros Hn; try congruence.
      eexists. split; [reflexivity|].
      match goal with H : Some _ = Some _ |- _ => injection H as H end.
      subst. unfold Worker.DAY_MS. lia.
    + apply post_ret. apply post_ret. intros resp E Hs. injection E as <-. discriminate.
    + intros resp E. discriminate.
  - unfold Part000.handleAdminToken.
    apply post_bind. revert Clock. unfold post at 1.
    destruct (Part000.verifyAdmin request env w) as [[[] | e] w1]; cbn [fst snd negb];
      intros Clock.
    + rewrite Hm, Hj, Ht.
      change (String.eqb "POST" "GET") with false.
      change (String.eqb "POST" "POST") with true. cbv iota.
      repeat wp_step'. all: worlds.
      all: intros resp E Hs; try discriminate; injection E as E; subst resp;
        cbn in Hs; try discriminate.
      all: eexists; split; [rewrite Clock; reflexivity|];
        split; [rewrite Clock; reflexivity|].
      all: intros Hn; try congruence.
      all: rewrite Hn in *; destruct (req_expiresDays data) as [d|]; try discriminate.
      all: eexists; split; [reflexivity|].
      all: match goal with H : Some _ = Some _ |- _ => injection H as H end.
      all: subst; lia.
    + apply post_ret. intros resp E Hs. injection E as <-. discriminate.
    + intros resp E. discriminate.
  - unfold Part001.handleAdminToken.
    apply post_bind. revert Clock. unfold post at 1.
    destruct (Part001.verifyAdmin request env w) as [[[] | e] w1]; cbn [fst snd negb];
      intros Clock.
    + rewrite Hm, Hj, Ht.
      change (String.eqb "POST" "GET") with false.
      change (String.eqb "POST" "POST") with true. cbv iota.
      repeat wp_step'. all: worlds.
      all: intros resp E Hs; try discriminate; injection E as E; subst resp;
        cbn in Hs; try discriminate.
      all: eexists; split; [rewrite Clock; reflexivity|];
        split; [rewrite Clock; reflexivity|].
      all: intros Hn; try congruence.
      all: rewrite Hn in *; destruct (req_expiresDays data) as [d|]; try discriminate.
      all: eexists; split; [reflexivity|].
      all: match goal with H : Some _ = Some _ |- _ => injection H as H end.
      all: subst; lia.
    + apply post_ret. intros resp E Hs. injection E as <-. discriminate.
    + intros resp E. discriminate.
Qed.

Lemma strictEq_Some (x : option string) (s : string) :
  JS.strictEq x (Some s) = true -> x = Some s.
Proof.
  destruct x as [a|]; cbn; [|discriminate].
  intros H. apply String.eqb_eq in H. congruence.
Qed.

(** A request that presents a live session is let in when the namespace
    does not fail. *)
Lemma verifyAdmin_by_session (script : Script) (request : Request) (env : Env)
  (w : World) (sid : string) :
  presentsSession script request sid = true ->
  JS.truthy (kv_sessions w !! ("session_" ++ sid)) = true ->
  faults w = [] ->
  fst (verifyAdmin_of script request env w) = Returned true
  /\ kv_token_config (snd (verifyAdmin_of script request env w)) = kv_token_config w.
Proof.
  intros Hp Hl Hf.
  destruct (JS.truthy (ADMIN_PASSWORD env)) eqn:Hpw;
    [| rewrite (verifyAdmin_open script request env w Hpw); split; reflexivity].
  destruct w as [ss tc fi t fl th]. cbn in Hf, Hl. subst fl.
  change (post (verifyAdmin_of script request env) (mkWorld ss tc fi t [] th)
            (fun r w' => r = Returned true /\ kv_token_config w' = tc)).
  destruct script; cbn [verifyAdmin_of presentsSession] in *.
  - unfold Worker.verifyAdmin. rewrite Hpw. cbn [negb].
    unfold Worker.checkHeaderSession, Worker.checkQuerySession.
    apply orb_true_iff in Hp. destruct Hp as [Hp | Hp].
    + apply strictEq_Some in Hp. unfold bearerSession in Hp.
      destruct (authorization request) as [h|]; [|discriminate].
      destruct (JS.startsWith h "Bearer "); [|discriminate].
      assert (E : JS.slice_from 7 h = sid) by congruence. clear Hp. subst sid.
      repeat calm_step; try (split; reflexivity).
      all: unfold passed, set_faults in *;
        cbn [kv_sessions kv_token_config kv_fast_ips now faults thrown] in *;
        congruence.
    + apply andb_true_iff in Hp. destruct Hp as [Hp Ht].
      apply strictEq_Some in Hp. rewrite Hp, Ht.
      apply post_try_catch, post_bind.
      match goal with
      | |- post ?m ?w ?P =>
          assert (Calm : post m w (fun r w' => exists b, r = Returned b
                                                         /\ faults w' = []
                                                         /\ kv_sessions w' = ss
                                                         /\ kv_token_config w' = tc))
      end.
      { repeat calm_step; eexists; repeat split; reflexivity. }
      apply (post_consequence _ _ _ _ Calm).
      intros r w' (b & -> & Hf' & Hs' & Ht'). destruct b; [apply post_ret; split; [reflexivity | exact Ht'] |].
      destruct w' as [ss' tc' fi' t' fl' th']. cbn in Hf', Hs', Ht'. subst.
      repeat calm_step; try (split; reflexivity).
      all: unfold passed, set_faults in *;
        cbn [kv_sessions kv_token_config kv_fast_ips now faults thrown] in *;
        congruence.
  - unfold Part000.verifyAdmin. rewrite Hpw. cbn [negb].
    unfold Part000.checkCredentials, Part000.checkSession.
    apply andb_true_iff in Hp. destruct Hp as [Hp Ht].
    apply strictEq_Some in Hp. rewrite Hp, Ht.
    repeat calm_step; try (split; reflexivity).
    all: unfold passed, set_faults in *;
      cbn [kv_sessions kv_token_config kv_fast_ips now faults thrown] in *;
      congruence.
  - unfold Part001.verifyAdmin. rewrite Hpw. cbn [negb].
    unfold Part000.checkCredentials, Part000.checkSession.
    apply andb_true_iff in Hp. destruct Hp as [Hp Ht].
    apply strictEq_Some in Hp. rewrite Hp, Ht.
    repeat calm_step; try (split; reflexivity).
    all: unfold passed, set_faults in *;
      cbn [kv_sessions kv_token_config kv_fast_ips now faults thrown] in *;
      congruence.
Qed.

Lemma verifyAdmin_session (script : Script) (request : Request) (env : Env)
  (w : World) (sid : string) :
  presentsSession script request sid = true ->
  JS.truthy (kv_sessions w !! ("session_" ++ sid)) = true ->
  faults w = [] ->
  fst (verifyAdmin_of script request env w) = Returned true.
Proof. intros Hp Hl Hf. apply (verifyAdmin_by_session script request env w sid Hp Hl Hf). Qed.

(** The gate leaves the sessions, the ranking and the clock alone. *)
Lemma verifyAdmin_frame (script : Script) (request : Request) (env : Env) (w : World) :
  sameFrame w (snd (verifyAdmin_of script request env w)).
Proof.
  destruct (JS.truthy (ADMIN_PASSWORD env)) eqn:Hpw.
  - destruct (verifyAdmin_verdict script request env w Hpw) as [_ F]. exact F.
  - rewrite (verifyAdmin_open script request env w Hpw). repeat split.
Qed.

(** With no fault scheduled the gate leaves none behind. *)
Lemma verifyAdmin_quiet (script : Script) (request : Request) (env : Env) (w : World) :
  faults w = [] ->
  faults (snd (verifyAdmin_of script request env w)) = [].
Proof.
  intros Hf. destruct w as [ss tc fi t fl th]. cbn in Hf. subst fl.
  change (post (verifyAdmin_of script request env) (mkWorld ss tc fi t [] th)
            (fun _ w' => faults w' = [])).
  destruct script; cbn [verifyAdmin_of];
    unfold Worker.verifyAdmin, Part000.verifyAdmin, Part001.verifyAdmin,
      Worker.checkHeaderSession, Worker.checkQuerySession, Worker.checkToken,
      Worker.getTokenConfig, Worker.touch,
      Part000.checkCredentials, Part000.checkSession, Part000.checkToken,
      Part000.getTokenConfig;
    repeat calm_step; reflexivity.
Qed.

(** The gate changes nothing of the stored token record but [lastUsed]. *)
Lemma verifyAdmin_keeps_the_token (script : Script) (request : Request) (env : Env)
  (w : World) (cfg : TokenConfig) :
  kv_token_config w = Some cfg ->
  exists cfg',
    kv_token_config (snd (verifyAdmin_of script request env w)) = Some cfg'
    /\ token cfg' = token cfg
    /\ expires cfg' = expires cfg
    /\ neverExpire cfg' = neverExpire cfg.
Proof.
  intros Hc.
  destruct (JS.truthy (ADMIN_PASSWORD env)) eqn:Hpw.
  - destruct (verifyAdmin_verdict script request env w Hpw) as [V _].
    destruct (verifyAdmin_of script request env w) as [r w']. cbn [fst snd] in *.
    inversion V; subst;
      try (exists cfg; split; [congruence | repeat split]).
    match goal with
    | H : kv_token_config w' = Some (set_lastUsed ?c _) |- _ =>
        exists (set_lastUsed c (now w)); split; [exact H|];
        assert (c = cfg) by congruence; subst; repeat split
    end.
  - rewrite (verifyAdmin_open script request env w Hpw). cbn [snd].
    exists cfg. split; [exact Hc | repeat split].
Qed.

(** A number of days that is [null] reads as [0] in the rewrites: the record
    they store expires now. *)
Lemma rewrites_read_a_null_expiry_as_zero :
  fst (handleAdminToken_of Rewrite000 (rotation 0) secured
         (world storedSession freshToken []))
  = Returned (Respond (mkResponse 200
                         (TokenUpdatedBody
                            (mkTokenConfig "fresh" 2000 2000 None false))))
  /\ fst (handleAdminToken_of Rewrite001 (rotation 0) secured
            (world storedSession freshToken []))
     = Returned (Respond (mkResponse 200
                            (TokenUpdatedBody
                               (mkTokenConfig "fresh" 2000 2000 None false))))
  /\ fst (handleAdminToken_of MainWorker (rotation 0) secured
            (world storedSession freshToken []))
     = Returned (Respond (mkResponse 400 (ErrorBody ExpiryEmpty))).
Proof. vm_compute. repeat split; reflexivity. Qed.

(** X7. A rotation that answers 200 has stored the record it answers with:
    the token trimmed, created now, never used, expiring the given number
    of days after now unless it never expires; and from then on, whenever
    the namespace holds a record with this token, expiry and
    [neverExpire], whatever its [lastUsed], a request that presents the
    trimmed token passes the gate, when the namespace does not fail, at
    every reading of the clock up to the expiry (at every reading if the
    token never expires), and the gate leaves a record with this token,
    expiry and [neverExpire] behind.  This holds of the three scripts. *)
Theorem rotated_token_opens_the_gate (script : Script) (request : Request)
  (env : Env) (w : World) (data : TokenRequest) (tok : string) (resp : Response) :
  method request = "POST" ->
  json request = Some data ->
  req_token data = Some tok ->
  fst (handleAdminToken_of script request env w) = Returned (Respond resp) ->
  status resp = 200 ->
  exists cfg,
    body resp = TokenUpdatedBody cfg
    /\ kv_token_config (snd (handleAdminToken_of script request env w)) = Some cfg
    /\ token cfg = JS.trim tok
    /\ createdAt cfg = now w
    /\ lastUsed cfg = None
    /\ neverExpire cfg = req_neverExpire data
    /\ (req_neverExpire data = false ->
        exists d, req_expiresDays data = Some d
                  /\ expires cfg = now w + d * 86400000)
    /\ forall request2 w2 cfg2,
         kv_token_config w2 = Some cfg2 ->
         token cfg2 = token cfg ->
         expires cfg2 = expires cfg ->
         neverExpire cfg2 = neverExpire cfg ->
         faults w2 = [] ->
         presentsToken script request2 (JS.trim tok) = true ->
         req_neverExpire data = true \/ now w2 <= expires cfg ->
         fst (verifyAdmin_of script request2 env w2) = Returned true
         /\ exists cfg3,
              kv_token_config (snd (verifyAdmin_of script request2 env w2)) = Some cfg3
              /\ token cfg3 = token cfg
              /\ expires cfg3 = expires cfg
              /\ neverExpire cfg3 = neverExpire cfg.
Proof.
  intros Hm Hj Ht Hr Hs.
  destruct (rotation_stores script request env w data tok Hm Hj Ht resp Hr Hs)
    as (e & Hb & Hk & He).
  eexists. split; [exact Hb|]. split; [exact Hk|].
  cbn [token createdAt lastUsed neverExpire expires].
  repeat (split; [reflexivity|]). split; [exact He|].
  intros request2 w2 cfg2 Hc Htk Hex Hnv Hf Hp Hx.
  split.
  - apply (verifyAdmin_admits script request2 env w2 cfg2 Hc);
      [| rewrite Htk; exact Hp | exact Hf].
    unfold expired. rewrite Hex, Hnv.
    destruct Hx as [-> | Hx]; [reflexivity|].
    destruct (Z.ltb_spec e (now w2)); [lia|]. apply andb_false_r.
  - destruct (verifyAdmin_keeps_the_token script request2 env w2 cfg2 Hc)
      as (cfg3 & K3 & T3 & E3 & N3).
    exists cfg3. split; [exact K3|]. repeat split; congruence.
Qed.

(** ** Random texts *)

Lemma chars_at (i : nat) :
  (i < 62)%nat ->
  exists c, String_charAt WorkerRoutes.chars i = String c ""
            /\ alphanumeric (String c "") = true.
Proof.
  intros H.
  do 62 (destruct i as [|i]; [eexists; split; [reflexivity | vm_compute; reflexivity]|]).
  lia.
Qed.

Lemma alphanumeric_app (a b : string) :
  alphanumeric (a ++ b) = alphanumeric a && alphanumeric b.
Proof.
  induction a as [|c a IH]; [reflexivity|].
  rewrite string_app_cons. cbn [alphanumeric]. rewrite IH, andb_assoc. reflexivity.
Qed.

Lemma generateLoop_shape (random : Entropy) (rounds : nat) :
  (forall k, (random k < 62)%nat) ->
  forall cursor result,
    String.length (WorkerRoutes.generateLoop random cursor rounds result)
    = (String.length result + rounds)%nat
    /\ alphanumeric (WorkerRoutes.generateLoop random cursor rounds result)
       = alphanumeric result.
Proof.
  intros Hr. induction rounds as [|n IH]; intros cursor result;
    cbn [WorkerRoutes.generateLoop].
  - split; [lia | reflexivity].
  - destruct (chars_at (random cursor) (Hr cursor)) as (c & -> & Hc).
    destruct (IH (S cursor) (result ++ String c "")) as [L A].
    rewrite L, A, string_length_app, alphanumeric_app, Hc, andb_true_r.
    cbn [String.length]. split; [lia | reflexivity].
Qed.

Lemma encodeURIComponent_alphanumeric (s : string) :
  alphanumeric s = true -> encodeURIComponent s = s.
Proof.
  induction s as [|c s IH]; [reflexivity|]. cbn [alphanumeric encodeURIComponent].
  intros H. apply andb_true_iff in H. destruct H as [Hc Hs].
  rewrite (IH Hs). unfold encodeUnit, unreserved. rewrite Hc. reflexivity.
Qed.

(** A byte as [generateToken] of [part_000] writes it: two hexadecimal
    digits. *)
Lemma hex_piece (b : nat) :
  (b < 256)%nat ->
  String.length (Part000Routes.padStart2 (Part000Routes.toString16 b)) = 2%nat
  /\ alphanumeric (Part000Routes.padStart2 (Part000Routes.toString16 b)) = true.
Proof.
  intros H.
  assert (All : forallb
                  (fun b =>
                     (String.length (Part000Routes.padStart2 (Part000Routes.toString16 b))
                      =? 2)%nat
                     && alphanumeric (Part000Routes.padStart2 (Part000Routes.toString16 b)))
                  (seq 0 256) = true) by (vm_compute; reflexivity).
  rewrite forallb_forall in All.
  specialize (All b ltac:(apply in_seq; lia)).
  apply andb_true_iff in All. destruct All as [L A].
  apply Nat.eqb_eq in L. split; assumption.
Qed.

Lemma join_pieces (pieces : list string) :
  Forall (fun p => String.length p = 2%nat /\ alphanumeric p = true) pieces ->
  String.length (Array_join "" pieces) = (2 * List.length pieces)%nat
  /\ alphanumeric (Array_join "" pieces) = true.
Proof.
  induction pieces as [|p rest IH]; intros F; [split; reflexivity|].
  apply List.Forall_cons_iff in F. destruct F as [[Lp Ap] F].
  destruct (IH F) as [L A].
  destruct rest as [|q rest].
  - cbn [Array_join List.length]. split; [rewrite Lp; reflexivity | exact Ap].
  - change (Array_join "" (p :: q :: rest)) with (p ++ "" ++ Array_join "" (q :: rest)).
    rewrite string_app_nil_l, string_length_app, alphanumeric_app, Lp, Ap, L, A.
    cbn [List.length]. split; [lia | reflexivity].
Qed.

(** X9. A token or session identifier of each script has 32 characters, all
    letters or digits, so that it is not empty and [encodeURIComponent]
    leaves it as it is: 32 draws from the 62 characters of [chars] in
    [src/_worker.js] and [part_001], 16 bytes as two hexadecimal digits each
    in [part_000]. *)
Theorem generateToken_shape (script : Script) (random : Entropy) (cursor : nat) :
  (forall k, (random k < match script with
                         | Rewrite000 => 256
                         | _ => 62
                         end)%nat) ->
  String.length (generateToken_of script random cursor) = 32%nat
  /\ alphanumeric (generateToken_of script random cursor) = true
  /\ JS.truthy (Some (generateToken_of script random cursor)) = true
  /\ encodeURIComponent (generateToken_of script random cursor)
     = generateToken_of script random cursor.
Proof.
  intros Hr.
  assert (S : String.length (generateToken_of script random cursor) = 32%nat
              /\ alphanumeric (generateToken_of script random cursor) = true).
  { destruct script; cbn [generateToken_of].
    - unfold WorkerRoutes.generateToken.
      destruct (generateLoop_shape random 32 Hr cursor "") as [L A]. split; assumption.
    - unfold Part000Routes.generateToken.
      destruct (join_pieces
                  (map (fun k => Part000Routes.padStart2
                                   (Part000Routes.toString16 (random (cursor + k)%nat)))
                       (seq 0 16))) as [L A].
      { apply List.Forall_forall. intros p Hp. apply in_map_iff in Hp.
        destruct Hp as (k & <- & _). apply hex_piece, Hr. }
      rewrite length_map, length_seq in L. split; assumption.
    - unfold Part001Routes.generateRandomString.
      destruct (generateLoop_shape random 32 Hr cursor "") as [L A]. split; assumption. }
  destruct S as [L A].
  split; [exact L|]. split; [exact A|]. split.
  - destruct (generateToken_of script random cursor); [discriminate L | reflexivity].
  - apply encodeURIComponent_alphanumeric, A.
Qed.

(** ** The login *)

Lemma post_toISOString_in_range (v : Z) (w : World) (P : Outcome Z -> World -> Prop) :
  - MAX_TIME <= v <= MAX_TIME ->
  P (Returned v) w -> post (toISOString (Some v)) w P.
Proof.
  intros Hr H. unfold post, toISOString.
  destruct (Z.leb_spec (- MAX_TIME) v), (Z.leb_spec v MAX_TIME); try lia. exact H.
Qed.

Ltac login_step :=
  lazymatch goal with
  | |- post (toISOString (Some _)) _ _ =>
      apply post_toISOString_in_range;
      [cbv [passed set_faults set_token_config set_session now]; lia|]
  | |- post (put_session _ _) _ _ => unfold put_session
  | _ => calm_step
  end.

Lemma truthy_record (a : ascii) (s : string) : JS.truthy (Some (String a s)) = true.
Proof. reflexivity. Qed.

(** X10. With the configured password and a namespace that does not fail, a
    login answers 200 with a session identifier and the token record; the
    record is the stored one, or a new one of thirty days if none was
    stored; the session is stored under its key; and a request that
    presents the session identifier passes the gate for as long as the
    namespace holds this entry, whatever else it holds.  This holds of the
    three scripts. *)
Theorem login_opens_a_session (script : Script) (isoText : Z -> string)
  (random : Entropy) (request : Request) (env : Env) (w : World) (pw : string) :
  method request = "POST" ->
  ADMIN_PASSWORD env = Some pw ->
  JS.truthy (Some pw) = true ->
  faults w = [] ->
  - MAX_TIME <= thirtyDaysAfter (now w) <= MAX_TIME ->
  fst (handleAdminLogin_of script isoText random request (Password (Some pw)) env w)
  = Returned (mkReply 200 (LoggedInBody (loginSession script random w)
                             (loginToken script random w)))
  /\ kv_token_config
       (snd (handleAdminLogin_of script isoText random request (Password (Some pw)) env w))
     = Some (loginToken script random w)
  /\ JS.truthy
       (kv_sessions
          (snd (handleAdminLogin_of script isoText random request
                  (Password (Some pw)) env w))
        !! ("session_" ++ loginSession script random w)) = true
  /\ forall request2 w2,
       kv_sessions w2 !! ("session_" ++ loginSession script random w)
       = kv_sessions
           (snd (handleAdminLogin_of script isoText random request
                   (Password (Some pw)) env w))
         !! ("session_" ++ loginSession script random w) ->
       faults w2 = [] ->
       presentsSession script request2 (loginSession script random w) = true ->
       fst (verifyAdmin_of script request2 env w2) = Returned true.
Proof.
  intros Hm Hpw Ht Hf Hr.
  assert (G : post (handleAdminLogin_of script isoText random request
                      (Password (Some pw)) env) w
                (fun r w1 =>
                   r = Returned (mkReply 200 (LoggedInBody (loginSession script random w)
                                                (loginToken script random w)))
                   /\ kv_token_config w1 = Some (loginToken script random w)
                   /\ JS.truthy (kv_sessions w1
                                   !! ("session_" ++ loginSession script random w))
                      = true)).
  { destruct w as [ss tc fi t fl th]. cbn in Hf. subst fl.
    unfold loginSession, loginToken. cbn [kv_token_config now] in *.
    pose proof Hr as Hr'. unfold thirtyDaysAfter in Hr'.
    destruct script; cbn [handleAdminLogin_of generateToken_of draws_of];
      unfold WorkerRoutes.handleAdminLogin, Part000Routes.handleAdminLogin,
        Part001Routes.handleAdminLogin, WorkerRoutes.reply,
        Worker.getTokenConfig, Part000.getTokenConfig, Part001.getTokenConfig;
      rewrite Hm, Hpw, Ht; cbn [JS.strictEq]; rewrite (String.eqb_refl pw);
      change (String.eqb "POST" "POST") with true; cbn [negb]; cbv iota;
      repeat login_step.
    all: unfold passed, set_faults, set_token_config, set_session in *;
      cbn [kv_sessions kv_token_config kv_fast_ips now faults thrown fst snd] in *.
    all: try match goal with
             | H : Some _ = Some _ |- _ => injection H as H
             | H : None = Some _ |- _ => discriminate H
             | H : Some _ = None |- _ => discriminate H
             end.
    all: subst; rewrite lookup_insert_eq;
      (split; [reflexivity | split; [reflexivity | apply truthy_record]]). }
  unfold post in G. destruct G as (G1 & G2 & G3).
  split; [exact G1|]. split; [exact G2|]. split; [exact G3|].
  intros request2 w2 Hs Hf2 Hp.
  apply (verifyAdmin_session script request2 env w2 _ Hp); [|exact Hf2].
  rewrite Hs. exact G3.
Qed.

Lemma strictEq_true (x y : option string) : JS.strictEq x y = true -> x = y.
Proof.
  destruct x as [a|], y as [b|]; cbn; try discriminate; [|reflexivity].
  intros H. apply String.eqb_eq in H. congruence.
Qed.

(** X11. A login that does not post the configured password reads and writes
    nothing: the namespace, its fault schedule included, is as before, and
    the answer is 405, 400, 401 or 500 (the rewrite with no handler of its
    own throws on a body it cannot read).  This holds of the three
    scripts. *)
Theorem login_needs_the_password (script : Script) (isoText : Z -> string)
  (random : Entropy) (request : Request) (login : LoginBody) (env : Env)
  (w : World) :
  method request <> "POST"
  \/ JS.truthy (ADMIN_PASSWORD env) = false
  \/ login <> Password (ADMIN_PASSWORD env) ->
  snd (handleAdminLogin_of script isoText random request login env w) = w
  /\ match fst (handleAdminLogin_of script isoText random request login env w) with
     | Returned r =>
         reply_status r = 405 /\ method request <> "POST"
         \/ reply_status r = 500 /\ login = Unreadable
         \/ reply_status r = 400 /\ content r = LoginRefusedBody PasswordNotConfigured
         \/ reply_status r = 401 /\ content r = LoginRefusedBody WrongPassword
     | Threw _ => script = Rewrite001 /\ login = Unreadable
     end.
Proof.
  intros H.
  destruct script; cbn [handleAdminLogin_of];
    unfold WorkerRoutes.handleAdminLogin, Part000Routes.handleAdminLogin,
      Part001Routes.handleAdminLogin, WorkerRoutes.reply.
  all: destruct (String.eqb_spec (method request) "POST") as [Hm | Hm]; cbn [negb];
    [| cbn; split; [reflexivity | left; split; [reflexivity | exact Hm]]].
  all: destruct login as [|password];
    [cbn; split; [reflexivity | auto 6] |].
  all: destruct (JS.truthy (ADMIN_PASSWORD env)) eqn:Hpw; cbn [negb];
    [| cbn; split; [reflexivity | auto 8]].
  all: destruct (JS.strictEq password (ADMIN_PASSWORD env)) eqn:He;
    [| cbn; split; [reflexivity | auto 8]].
  all: apply strictEq_true in He; subst password;
    exfalso; destruct H as [H | [H | H]]; [contradiction | discriminate | contradiction].
Qed.

(** ** The routes *)

(** X12. A stranger gets nothing out of the routes that ask for credentials,
    and changes nothing through them, in any of the three scripts: the
    answer is 401 and the four records of the namespace stay as they were.
    In [part_001], whose gate has no [try], a failing namespace turns the
    answer into the 500 of the entry point. *)
Theorem protected_routes_refuse_strangers (script : Script) (isoText : Z -> string)
  (random : Entropy) (fetched : string -> FetchOutcome)
  (probe : string -> ProbeOutcome) (request : Request) (login : LoginBody)
  (env : Env) (s : Site) :
  IP_STORAGE_bound env = true ->
  JS.truthy (ADMIN_PASSWORD env) = true ->
  In (pathname request) protectedRoutes ->
  method request = "GET" \/ method request = "POST" ->
  (script = MainWorker -> pathname request = "/update" -> method request = "POST") ->
  stranger script request (site_world s) ->
  let run := serve_of script isoText random fetched probe request login env s in
  (fst run = Returned (Some (mkReply 401 (Json (ErrorBody NeedAdmin))))
   \/ (script = Rewrite001
       /\ exists e,
            fst run
            = Returned (Some (mkReply 500 (Json (ErrorBody (ErrorMessage e)))))))
  /\ sameRecords s (snd run).
Proof.
  intros Hb Hpw Hp Hm Hu Hs run. subst run.
  pose proof (verifyAdmin_stranger script request env (site_world s) Hpw Hs) as V.
  unfold post in V.
  assert (Ho : String.eqb (method request) "OPTIONS" = false)
    by (destruct Hm as [-> | ->]; reflexivity).
  unfold protectedRoutes in Hp. cbn [In] in Hp.
  destruct script; cbn [verifyAdmin_of serve_of] in *.
  - destruct (Worker.verifyAdmin request env (site_world s)) as [r w'] eqn:E.
    cbn [fst snd] in V. destruct V as ([-> | [H _]] & Hc & Hse & Hf & _); [|discriminate].
    unfold WorkerRoutes.fetch. rewrite Hb, Ho. cbn [negb]. cbv zeta.
    destruct Hp as [Hp | [Hp | [Hp | [Hp | [Hp | [Hp | [Hp | [Hp | []]]]]]]]];
      rewrite <- Hp in *; cbn [String.eqb Ascii.eqb Bool.eqb]; cbv iota;
      try (rewrite (Hu eq_refl eq_refl); cbn [String.eqb Ascii.eqb Bool.eqb negb]; cbv iota);
      unfold WorkerRoutes.handleGetIPs, WorkerRoutes.handleRawIPs,
        WorkerRoutes.handleItdogData, WorkerRoutes.handleGetFastIPs,
        WorkerRoutes.handleGetFastIPsText, WorkerRoutes.handleUpdate,
        Worker.handleAdminToken, attempt, next, lift, bind;
      rewrite E; cbn [negb fst snd]; unfold sameRecords; cbn [kv_cloudflare_ips site_world];
      (split; [left; reflexivity | repeat split; assumption]).
  - destruct (Part000.verifyAdmin request env (site_world s)) as [r w'] eqn:E.
    cbn [fst snd] in V. destruct V as ([-> | [H _]] & Hc & Hse & Hf & _); [|discriminate].
    unfold Part000Routes.fetch. rewrite Hb, Ho. cbn [negb]. cbv zeta.
    destruct Hp as [Hp | [Hp | [Hp | [Hp | [Hp | [Hp | [Hp | [Hp | []]]]]]]]];
      rewrite <- Hp in *; cbn [String.eqb Ascii.eqb Bool.eqb]; cbv iota;
      unfold Part000Routes.handleGetIPs, Part000Routes.handleRawIPs,
        Part000Routes.handleItdogData, Part000Routes.handleGetFastIPs,
        Part000Routes.handleGetFastIPsText, Part000Routes.handleUpdate,
        Part000.handleAdminToken, attempt, next, lift, bind;
      rewrite E; cbn [negb fst snd]; unfold sameRecords; cbn [kv_cloudflare_ips site_world];
      (split; [left; reflexivity | repeat split; assumption]).
  - destruct (Part001.verifyAdmin request env (site_world s)) as [r w'] eqn:E.
    cbn [fst snd] in V.
    destruct V as ([-> | [_ [e ->]]] & Hc & Hse & Hf & _);
      unfold Part001Routes.serve, Part001Routes.fetch; rewrite Hb, Ho; cbn [negb]; cbv zeta;
      destruct Hp as [Hp | [Hp | [Hp | [Hp | [Hp | [Hp | [Hp | [Hp | []]]]]]]]];
      rewrite <- Hp in *; cbn [String.eqb Ascii.eqb Bool.eqb]; cbv iota;
      unfold Part001Routes.handleGetIPs, Part001Routes.handleRawIPs,
        Part001Routes.handleItdogData, Part001Routes.handleGetFastIPs,
        Part001Routes.handleGetFastIPsText, Part001Routes.handleUpdate,
        Part001.handleAdminToken, attempt, next, lift, bind;
      rewrite E; cbn [negb fst snd Part001Routes.settle]; unfold sameRecords;
      cbn [kv_cloudflare_ips site_world].
    all: first [ split; [left; reflexivity | repeat split; assumption]
               | split; [right; split; [reflexivity | eexists; reflexivity]
                        | repeat split; assumption] ].
Qed.

(** ** The update *)

Lemma storage_calm {A : Type} (read : World -> A) (write : World -> World)
  (w : World) :
  faults w = [] ->
  storage read write w = (Returned (read w), write w).
Proof.
  intros Hf. destruct w as [ss tc fi t fl th]. cbn in Hf. subst fl. reflexivity.
Qed.

(** The reader of the address list never throws: the stored record when the
    read succeeds and one is stored, the empty record otherwise. *)
Lemma getStoredIPs_run (env : Env) (s : Site) :
  exists s',
    WorkerRoutes.getStoredIPs env s
    = (Returned
         (if IP_STORAGE_bound env && negb (hd false (faults (site_world s)))
          then match kv_cloudflare_ips s with
               | Some d => d
               | None => WorkerRoutes.getDefaultData
               end
          else WorkerRoutes.getDefaultData),
       s')
    /\ sameRecords s s'
    /\ (faults (site_world s) = [] -> s' = s).
Proof.
  destruct s as [[ss tc fi t fl th] d].
  unfold WorkerRoutes.getStoredIPs, attempt, get_cloudflare_ips, next, lift, storage, done.
  destruct (IP_STORAGE_bound env); cbn [negb andb site_world faults].
  - destruct fl as [|[] rest]; cbn.
    + eexists. split; [destruct d; reflexivity|].
      split; [destruct d; repeat split | destruct d; reflexivity].
    + eexists. split; [reflexivity|]. split; [repeat split | discriminate].
    + eexists. split; [destruct d; reflexivity|].
      split; [destruct d; repeat split | discriminate].
  - eexists. split; [reflexivity|]. split; [repeat split | reflexivity].
Qed.

Lemma ranked_from (script : Script) (probe : string -> ProbeOutcome) (ips : list string) :
  Forall (fun e => In (ip e) ips) (ranked script probe ips).
Proof.
  destruct (ranked_facts script probe ips) as (_ & _ & _ & F).
  eapply List.Forall_impl; [|exact F]. cbn. intros e [H _].
  unfold successes, probed in H. apply filter_In in H. destruct H as [H _].
  rewrite <- (firstn_skipn 200 ips). apply in_or_app. left. exact H.
Qed.

(** The harvest, its record and the ranking, from a site with no fault
    scheduled. *)
Lemma collectAndStore_calm (fetched : string -> FetchOutcome)
  (probe : string -> ProbeOutcome) (w : World) (d : option StoredIPs) :
  faults w = [] ->
  exists w',
    WorkerRoutes.collectAndStore fetched probe (mkSite w d)
    = (Returned (Worker.updateAllIPs fetched),
       mkSite w'
         (Some (mkStoredIPs (uniqueIPs (Worker.updateAllIPs fetched)) (Some (now w))
                  (List.length (uniqueIPs (Worker.updateAllIPs fetched)))
                  (results (Worker.updateAllIPs fetched)))))
    /\ faults w' = [] /\ now w' = now w
    /\ kv_sessions w' = kv_sessions w /\ kv_token_config w' = kv_token_config w
    /\ (uniqueIPs (Worker.updateAllIPs fetched) = [] -> kv_fast_ips w' = kv_fast_ips w)
    /\ (uniqueIPs (Worker.updateAllIPs fetched) <> [] ->
        exists fs,
          kv_fast_ips w' = Some fs
          /\ fastIPs fs = ranked MainWorker probe (uniqueIPs (Worker.updateAllIPs fetched))
          /\ count fs = List.length (fastIPs fs)
          /\ totalIPs fs = Some (List.length (uniqueIPs (Worker.updateAllIPs fetched)))).
Proof.
  intros Hf. destruct w as [ss tc fi t fl th]. cbn in Hf. subst fl.
  set (h := Worker.updateAllIPs fetched).
  unfold WorkerRoutes.collectAndStore. fold h. cbv zeta.
  unfold next, lift, put_cloudflare_ips, next, lift, Date_now, storage, done.
  cbn [site_world faults kv_cloudflare_ips tl]. unfold set_faults.
  cbn [kv_sessions kv_token_config kv_fast_ips now thrown].
  destruct (uniqueIPs h) as [|a ips] eqn:E.
  - unfold Worker.autoSpeedTestAndStore. cbn [List.length Nat.eqb ret].
    eexists. split; [reflexivity|]. cbn. repeat split; try reflexivity.
    intros H. congruence.
  - destruct (autoSpeedTestAndStore_run MainWorker probe (a :: ips)
                (mkWorld ss tc fi t [] th)) as (tested & total & R);
      [intros _; discriminate | reflexivity |].
    cbn [autoSpeedTestAndStore_of] in R. rewrite R.
    eexists. split; [reflexivity|].
    unfold set_fast_ips, passed, set_faults. cbn.
    repeat split; try reflexivity; [intros H; discriminate|].
    intros _. eexists. split; [reflexivity|]. cbn [fastIPs count totalIPs].
    repeat split.
    (* the total is the length of the list handed to the ranking *)
    revert R. unfold Worker.autoSpeedTestAndStore. cbn [List.length Nat.eqb].
    unfold bind, Date_now, put_fast_ips, storage, set_fast_ips, passed, set_faults.
    cbn. intros R. injection R as _ R. congruence.
Qed.

(** What an admitted caller gets from the list routes of a site with no
    fault scheduled. *)
Lemma lists_serve_the_record (env : Env) (request : Request) (s : Site)
  (d : StoredIPs) :
  IP_STORAGE_bound env = true ->
  fst (Worker.verifyAdmin request env (site_world s)) = Returned true ->
  faults (site_world s) = [] ->
  kv_cloudflare_ips s = Some d ->
  fst (WorkerRoutes.handleGetIPs env request s)
  = Returned (mkReply 200 (TextBody (Array_join LF (stored_ips d))))
  /\ fst (WorkerRoutes.handleRawIPs env request s)
     = Returned (mkReply 200 (StoredIPsBody d))
  /\ fst (WorkerRoutes.handleItdogData env request s)
     = Returned (mkReply 200 (ItdogBody (stored_ips d) (stored_count d))).
Proof.
  intros Hb Ha Hf Hd.
  pose proof (verifyAdmin_quiet MainWorker request env (site_world s) Hf) as Q.
  cbn [verifyAdmin_of] in Q.
  unfold WorkerRoutes.handleGetIPs, WorkerRoutes.handleRawIPs,
    WorkerRoutes.handleItdogData, next, lift.
  destruct (Worker.verifyAdmin request env (site_world s)) as [r w1].
  cbn [fst snd] in Ha, Q. subst r. cbn [negb].
  destruct (getStoredIPs_run env (mkSite w1 (kv_cloudflare_ips s))) as (s' & E & _).
  rewrite E. cbn [site_world kv_cloudflare_ips]. rewrite Hb, Q, Hd.
  cbn [hd negb andb fst]. unfold WorkerRoutes.reply. repeat split.
Qed.

(** X15. An update by an admitted caller, in a namespace that does not fail,
    answers 200 and stores the harvest with its count and its reports; a
    harvest that is not empty is ranked, and every ranked address is one of
    the list; an empty harvest leaves the ranking of before in place.  The
    list routes then serve what was stored: [/ips] the addresses one per
    line, [/raw] the record, [/itdog-data] the addresses and their
    count. *)
Theorem update_stores_what_the_lists_serve (fetched : string -> FetchOutcome)
  (probe : string -> ProbeOutcome) (env : Env) (request : Request) (s : Site) :
  IP_STORAGE_bound env = true ->
  fst (Worker.verifyAdmin request env (site_world s)) = Returned true ->
  faults (site_world s) = [] ->
  let harvest := Worker.updateAllIPs fetched in
  let record :=
    mkStoredIPs (uniqueIPs harvest) (Some (now (site_world s)))
      (List.length (uniqueIPs harvest)) (results harvest) in
  let run := WorkerRoutes.handleUpdate fetched probe env request s in
  fst run
  = Returned (mkReply 200 (UpdatedBody (List.length (uniqueIPs harvest))
                             (now (site_world s)) (results harvest)))
  /\ kv_cloudflare_ips (snd run) = Some record
  /\ (uniqueIPs harvest <> [] ->
      exists fs,
        kv_fast_ips (site_world (snd run)) = Some fs
        /\ fastIPs fs = ranked MainWorker probe (uniqueIPs harvest)
        /\ Forall (fun e => In (ip e) (uniqueIPs harvest)) (fastIPs fs)
        /\ totalIPs fs = Some (List.length (uniqueIPs harvest)))
  /\ (uniqueIPs harvest = [] ->
      kv_fast_ips (site_world (snd run)) = kv_fast_ips (site_world s))
  /\ forall request2,
       fst (Worker.verifyAdmin request2 env (site_world (snd run))) = Returned true ->
       fst (WorkerRoutes.handleGetIPs env request2 (snd run))
       = Returned (mkReply 200 (TextBody (Array_join LF (uniqueIPs harvest))))
       /\ fst (WorkerRoutes.handleRawIPs env request2 (snd run))
          = Returned (mkReply 200 (StoredIPsBody record))
       /\ fst (WorkerRoutes.handleItdogData env request2 (snd run))
          = Returned (mkReply 200 (ItdogBody (uniqueIPs harvest)
                                     (List.length (uniqueIPs harvest)))).
Proof.
  intros Hb Ha Hf harvest record run.
  pose proof (verifyAdmin_quiet MainWorker request env (site_world s) Hf) as Q.
  destruct (verifyAdmin_frame MainWorker request env (site_world s)) as (Fs & Ff & Fn).
  cbn [verifyAdmin_of] in Q, Fs, Ff, Fn.
  subst run. unfold WorkerRoutes.handleUpdate, next, lift.
  destruct (Worker.verifyAdmin request env (site_world s)) as [r w1].
  cbn [fst snd] in Ha, Q, Fs, Ff, Fn. subst r. cbn [negb]. rewrite Hb. cbn [negb].
  destruct (collectAndStore_calm fetched probe w1 (kv_cloudflare_ips s) Q)
    as (w' & E & Hf' & Hn' & _ & _ & He & Hne).
  unfold attempt, next. rewrite E. unfold lift, Date_now, done.
  cbn [site_world kv_cloudflare_ips fst snd]. fold harvest.
  rewrite Hn', Fn. fold record.
  split; [reflexivity|]. split; [reflexivity|]. split; [|split].
  - intros H. destruct (Hne H) as (fs & K & R & _ & T).
    exists fs. split; [exact K|]. split; [exact R|]. split; [|exact T].
    rewrite R. apply ranked_from.
  - intros H. rewrite (He H). exact Ff.
  - intros request2 Ha2.
    apply (lists_serve_the_record env request2 (mkSite w' (Some record)) record);
      [exact Hb | exact Ha2 | exact Hf' | reflexivity].
Qed.

(** ** The page *)

(** X14. The page of [/] hands the stored token to a stranger: with a password
    configured, a request that carries no live session and does not present
    the token is shown as logged out and without the token section, and
    yet the script of the page holds the token record and the download
    links carry the token as their [token] parameter; unless the token has
    expired, a request that presents it passes the gate. *)
Theorem page_hands_the_token_to_strangers (isoText : Z -> string)
  (random : Entropy) (fetched : string -> FetchOutcome)
  (probe : string -> ProbeOutcome) (request : Request) (login : LoginBody)
  (env : Env) (s : Site) (cfg : TokenConfig) :
  IP_STORAGE_bound env = true ->
  JS.truthy (ADMIN_PASSWORD env) = true ->
  method request = "GET" ->
  pathname request = "/" ->
  stranger MainWorker request (site_world s) ->
  kv_token_config (site_world s) = Some cfg ->
  faults (site_world s) = [] ->
  exists page,
    fst (WorkerRoutes.fetch isoText random fetched probe request login env s)
    = Returned (mkReply 200 (PageBody page))
    /\ page_isLoggedIn page = false
    /\ page_tokenSection page = None
    /\ page_tokenConfig page = Some cfg
    /\ page_fastLink page = "/fast-ips.txt?token=" ++ encodeURIComponent (token cfg)
    /\ page_ipsLink page = "/ips?token=" ++ encodeURIComponent (token cfg)
    /\ page_ipTxtLink page = "/ip.txt?token=" ++ encodeURIComponent (token cfg)
    /\ (expired cfg (now (site_world s)) = false ->
        forall request2,
          presentsToken MainWorker request2 (token cfg) = true ->
          fst (Worker.verifyAdmin request2 env (site_world s)) = Returned true).
Proof.
  intros Hb Hpw Hm Hp Hs Hc Hf.
  pose proof (verifyAdmin_stranger MainWorker request env (site_world s) Hpw Hs) as V.
  pose proof (verifyAdmin_quiet MainWorker request env (site_world s) Hf) as Q.
  unfold post in V. cbn [verifyAdmin_of] in V, Q.
  unfold WorkerRoutes.fetch. rewrite Hb, Hm, Hp.
  cbn [negb String.eqb Ascii.eqb Bool.eqb]. cbv zeta iota.
  unfold WorkerRoutes.serveHTML, attempt, next.
  destruct (getStoredIPs_run env s) as (s1 & E1 & _ & Same).
  rewrite E1, (Same Hf). clear E1 Same s1.
  unfold lift at 1, WorkerRoutes.getStoredSpeedIPs, try_catch, get_fast_ips.
  rewrite Hb. cbn [negb]. rewrite (storage_calm _ _ _ Hf).
  cbn [site_world kv_cloudflare_ips].
  unfold lift at 1. cbn [site_world kv_cloudflare_ips].
  destruct (Worker.verifyAdmin request env (site_world s)) as [r w1].
  cbn [fst snd] in V, Q. destruct V as ([-> | [H _]] & Hc1 & _); [|discriminate].
  unfold lift, Worker.getTokenConfig, try_catch, get_token_config.
  cbn [site_world kv_cloudflare_ips]. rewrite (storage_calm _ _ _ Q), Hc1, Hc.
  unfold done, WorkerRoutes.reply. cbn [fst].
  eexists. split; [reflexivity|].
  cbn [page_isLoggedIn page_tokenSection page_tokenConfig page_fastLink page_ipsLink
         page_ipTxtLink WorkerRoutes.pageSession].
  repeat (split; [reflexivity|]).
  intros He request2 Hp2.
  apply (verifyAdmin_admits MainWorker request2 env (site_world s) cfg Hc He Hp2 Hf).
Qed.

(** ** The readers and the ranking as text *)

(** X17. The readers of [src/_worker.js] never throw and never write.  The
    reader of the list answers the stored record when the read succeeds and
    a record is stored, and the empty record otherwise (no record, a read
    that throws, a namespace that is not bound); the reader of the ranking
    does the same with the default ranking. *)
Theorem readers_fall_back (env : Env) (s : Site) :
  (exists s',
     WorkerRoutes.getStoredIPs env s
     = (Returned
          (if IP_STORAGE_bound env && negb (hd false (faults (site_world s)))
           then match kv_cloudflare_ips s with
                | Some d => d
                | None => mkStoredIPs [] None 0 []
                end
           else mkStoredIPs [] None 0 []),
        s')
     /\ sameRecords s s')
  /\ (exists w',
        WorkerRoutes.getStoredSpeedIPs env (site_world s)
        = (Returned
             (if IP_STORAGE_bound env && negb (hd false (faults (site_world s)))
              then kv_fast_ips (site_world s)
              else None),
           w')
        /\ sameRecords s (mkSite w' (kv_cloudflare_ips s))).
Proof.
  split.
  - destruct (getStoredIPs_run env s) as (s' & E & R & _). exists s'. split; assumption.
  - destruct s as [[ss tc fi t fl th] d]. cbn [site_world kv_cloudflare_ips].
    unfold WorkerRoutes.getStoredSpeedIPs, try_catch, get_fast_ips, storage.
    destruct (IP_STORAGE_bound env); cbn [negb andb faults].
    + destruct fl as [|[] rest]; cbn; eexists; (split; [reflexivity | repeat split]).
    + eexists. split; [reflexivity | repeat split].
Qed.

(** X5. What a ranking run stored is what the ranking routes serve: after a
    run over a list that is not empty, in a namespace that does not fail,
    an admitted caller gets the stored record from [/fast-ips], and from
    [/fast-ips.txt] one line [address#latency ms] per entry of the ranking,
    fastest first. *)
Theorem ranking_routes_serve_the_ranking (probe : string -> ProbeOutcome)
  (ips : list string) (env : Env) (request : Request) (w : World) :
  IP_STORAGE_bound env = true ->
  ips <> [] ->
  faults w = [] ->
  fst (Worker.verifyAdmin request env
         (snd (Worker.autoSpeedTestAndStore probe ips w))) = Returned true ->
  exists fs,
    kv_fast_ips (snd (Worker.autoSpeedTestAndStore probe ips w)) = Some fs
    /\ fastIPs fs = ranked MainWorker probe ips
    /\ fst (WorkerRoutes.handleGetFastIPs env request
              (snd (Worker.autoSpeedTestAndStore probe ips w)))
       = Returned (mkReply 200 (FastIPsBody (Some fs)))
    /\ fst (WorkerRoutes.handleGetFastIPsText env request
              (snd (Worker.autoSpeedTestAndStore probe ips w)))
       = Returned (mkReply 200
                     (TextBody (Array_join LF
                                  (map fastLine (ranked MainWorker probe ips))))).
Proof.
  intros Hb Hne Hf Ha.
  destruct (autoSpeedTestAndStore_run MainWorker probe ips w) as (tested & total & R);
    [intros _; exact Hne | rewrite Hf; reflexivity |].
  cbn [autoSpeedTestAndStore_of] in R. rewrite R in *. cbn [snd] in *.
  set (fs := mkFastSet (ranked MainWorker probe ips) (now w)
               (List.length (ranked MainWorker probe ips)) tested total) in *.
  set (w1 := set_fast_ips fs (passed w)) in *.
  assert (Hf1 : faults w1 = []) by (unfold w1, set_fast_ips, passed, set_faults; cbn; rewrite Hf; reflexivity).
  pose proof (verifyAdmin_quiet MainWorker request env w1 Hf1) as Q.
  destruct (verifyAdmin_frame MainWorker request env w1) as (_ & Ff & _).
  cbn [verifyAdmin_of] in Q, Ff.
  exists fs. split; [reflexivity|]. split; [reflexivity|].
  unfold WorkerRoutes.handleGetFastIPs, WorkerRoutes.handleGetFastIPsText, bind.
  destruct (Worker.verifyAdmin request env w1) as [r w2].
  cbn [fst snd] in Ha, Q, Ff. subst r. cbn [negb].
  unfold WorkerRoutes.getStoredSpeedIPs, try_catch, get_fast_ips. rewrite Hb. cbn [negb].
  rewrite (storage_calm _ _ _ Q), Ff.
  split; reflexivity.
Qed.

(** ** The three validators side by side *)

(** On a candidate of the pattern the validators are nested: what
    [src/_worker.js] accepts [part_001] accepts, and what [part_001]
    accepts [part_000] accepts. *)
Lemma validators_nest (a : string) :
  digitGroups a = true ->
  (Worker.isValidIPv4 a = true -> Part001.isValidIPv4 a = true)
  /\ (Part001.isValidIPv4 a = true -> Part000.isValidIPv4 a = true).
Proof.
  intros Hd.
  destruct (digitGroups_parts a Hd) as (g1 & g2 & g3 & g4 & E & D1 & D2 & D3 & D4).
  destruct (decimalGroup_value g1 D1) as [_ N1].
  destruct (decimalGroup_value g2 D2) as [_ N2].
  destruct (decimalGroup_value g3 D3) as [_ N3].
  destruct (decimalGroup_value g4 D4) as [_ N4].
  unfold Worker.isValidIPv4, Part001.isValidIPv4, Part000.isValidIPv4.
  rewrite E. cbv zeta.
  change (negb (List.length [g1; g2; g3; g4] =? 4)%nat) with false. cbv iota.
  cbn [forallb map existsb nth].
  rewrite !partOk_group by assumption.
  rewrite !Number_group, !parseInt_group by assumption.
  rewrite D1, D2, D3, D4. unfold JS.between.
  rewrite !Z.gtb_ltb, !(fun v => Z.ltb_antisym v 255).
  rewrite (proj2 (Z.ltb_ge (groupValue g1) 0) N1), (proj2 (Z.ltb_ge (groupValue g2) 0) N2),
    (proj2 (Z.ltb_ge (groupValue g3) 0) N3), (proj2 (Z.ltb_ge (groupValue g4) 0) N4).
  rewrite (proj2 (Z.leb_le 0 (groupValue g1)) N1), (proj2 (Z.leb_le 0 (groupValue g2)) N2),
    (proj2 (Z.leb_le 0 (groupValue g3)) N3), (proj2 (Z.leb_le 0 (groupValue g4)) N4).
  cbn [andb orb].
  set (private := JS.startsWith a "172."
                  && ((16 <=? groupValue g2) && (groupValue g2 <=? 31))).
  split; intros H.
  - match type of H with (if negb ?x then _ else _) = _ =>
      destruct x eqn:Hx; [|discriminate H] end.
    cbn [negb] in H.
    match type of H with (if ?y then _ else _) = _ =>
      destruct y eqn:Hy; [discriminate H|] end.
    repeat (apply andb_true_iff in Hx; destruct Hx as [? Hx]).
    repeat match goal with
      | E : _ && negb _ = true |- _ => apply andb_true_iff in E; destruct E as [E _]
      end.
    repeat (apply orb_false_iff in Hy; destruct Hy as [Hy ?]).
    repeat match goal with
      | E : (groupValue _ <=? 255) = true |- _ => rewrite E; clear E
      | E : JS.startsWith a _ = false |- _ => rewrite E; clear E
      | E : private = false |- _ => rewrite E; clear E
      end.
    reflexivity.
  - match type of H with (if ?x then _ else _) = _ =>
      destruct x eqn:Hx; [discriminate H|] end.
    match type of H with (if ?y then _ else _) = _ =>
      destruct y eqn:Hy; [discriminate H|] end.
    repeat (apply orb_false_iff in Hx; destruct Hx as [? Hx]).
    repeat match goal with
      | E : negb _ = false |- _ => apply negb_false_iff in E; rewrite E; clear E
      end.
    reflexivity.
Qed.

Lemma candidate_digitGroups (text a : string) :
  In a (JS.String_match ipPattern text) -> digitGroups a = true.
Proof.
  intros H. apply ipPattern_digitGroups.
  pose proof (String_match_sound ipPattern text) as S.
  rewrite List.Forall_forall in S. apply S, H.
Qed.

(** X18. [part_000] harvests the most: for the same outcomes of the fetches
    of the sources, every address in the list of [src/_worker.js] or of
    [part_001] is in the list of [part_000]. *)
Theorem part_000_harvests_the_most (fetched : string -> FetchOutcome) (a : string) :
  In a (uniqueIPs (Worker.updateAllIPs fetched))
  \/ In a (uniqueIPs (Part001.updateAllIPs fetched)) ->
  In a (uniqueIPs (Part000.updateAllIPs fetched)).
Proof.
  intros H.
  apply (collect_In Rewrite000 fetched Part000.urls a).
  destruct H as [H | H].
  - apply (collect_In MainWorker fetched Worker.urls a) in H.
    destruct H as (V & url & text & Hu & Hf & Hm).
    cbn [isValidIPv4_of] in *. split.
    + destruct (validators_nest a (candidate_digitGroups text a Hm)) as [N1 N2]. auto.
    + exists url, text. auto.
  - apply (collect_In Rewrite001 fetched Part001.sources a) in H.
    destruct H as (V & url & text & Hu & Hf & Hm).
    cbn [isValidIPv4_of] in *. split.
    + destruct (validators_nest a (candidate_digitGroups text a Hm)) as [N1 N2]. auto.
    + exists url, text. split; [|auto].
      unfold Part001.sources in Hu. unfold Part000.urls, Worker.urls.
      cbn [In] in *. intuition.
Qed.

(** ** The numbers of the addresses of [src/_worker.js] *)

(** A decimal group of at most 255 with no zero in front of another digit
    has one, two or three digits, the first of which is not zero unless it
    stands alone. *)
Lemma small_group (g : string) :
  decimalGroup g = true ->
  groupValue g <= 255 ->
  JS.startsWith g "0" && (1 <? String.length g)%nat = false ->
  (exists c1,
     g = String c1 "" /\ groupValue g = JS.code c1 - 48 /\ 48 <= JS.code c1 <= 57)
  \/ (exists c1 c2,
        g = String c1 (String c2 "")
        /\ groupValue g = 10 * (JS.code c1 - 48) + (JS.code c2 - 48)
        /\ 49 <= JS.code c1 <= 57 /\ 48 <= JS.code c2 <= 57)
  \/ (exists c1 c2 c3,
        g = String c1 (String c2 (String c3 ""))
        /\ groupValue g
           = 100 * (JS.code c1 - 48) + 10 * (JS.code c2 - 48) + (JS.code c3 - 48)
        /\ 49 <= JS.code c1 <= 57 /\ 48 <= JS.code c2 <= 57
        /\ 48 <= JS.code c3 <= 57).
Proof.
  intros Hg Hv Hz.
  destruct (decimalGroup_value g Hg) as [Ev _].
  destruct (decimalGroup_head g Hg) as (c1 & r1 & -> & H1 & A1).
  rewrite leadingZero_head in Hz.
  pose proof (isDigit_code c1 H1) as B1.
  cbn [JS.digitsPrefix] in Ev. rewrite digitValue_10, H1 in Ev.
  rewrite ascii_eqb_code in Hz. change (JS.code "0") with 48 in Hz.
  destruct r1 as [|c2 r2].
  { left. exists c1. cbn in Ev. injection Ev as Ev. repeat split; lia. }
  rewrite allDigits_cons in A1. apply andb_true_iff in A1. destruct A1 as [H2 A2].
  pose proof (isDigit_code c2 H2) as B2.
  cbn [String.length] in Hz.
  assert (N1 : JS.code c1 <> 48).
  { destruct (Z.eqb_spec (JS.code c1) 48); [discriminate Hz | assumption]. }
  cbn [JS.digitsPrefix] in Ev. rewrite digitValue_10, H2 in Ev.
  destruct r2 as [|c3 r3].
  { right. left. exists c1, c2. cbn in Ev. injection Ev as Ev. repeat split; lia. }
  rewrite allDigits_cons in A2. apply andb_true_iff in A2. destruct A2 as [H3 A3].
  pose proof (isDigit_code c3 H3) as B3.
  cbn [JS.digitsPrefix] in Ev. rewrite digitValue_10, H3 in Ev.
  destruct r3 as [|c4 r4].
  { right. right. exists c1, c2, c3. cbn in Ev. injection Ev as Ev. repeat split; lia. }
  exfalso.
  assert (A4 : JS.allDigits 10 (String c4 r4) = true) by exact A3.
  apply digitsPrefix_lower in Ev; [|exact A4 | lia].
  destruct Ev as [_ Ev]. specialize (Ev ltac:(discriminate)). lia.
Qed.

(** Two such groups with the same number are the same text. *)
Lemma small_group_inj (g h : string) :
  decimalGroup g = true -> groupValue g <= 255 ->
  JS.startsWith g "0" && (1 <? String.length g)%nat = false ->
  decimalGroup h = true -> groupValue h <= 255 ->
  JS.startsWith h "0" && (1 <? String.length h)%nat = false ->
  groupValue g = groupValue h -> g = h.
Proof.
  intros Dg Vg Zg Dh Vh Zh E.
  destruct (small_group g Dg Vg Zg)
    as [(a1 & -> & Ea & ?) | [(a1 & a2 & -> & Ea & ? & ?)
                             | (a1 & a2 & a3 & -> & Ea & ? & ? & ?)]];
    destruct (small_group h Dh Vh Zh)
      as [(b1 & -> & Eb & ?) | [(b1 & b2 & -> & Eb & ? & ?)
                               | (b1 & b2 & b3 & -> & Eb & ? & ? & ?)]];
    rewrite Ea, Eb in E; try (exfalso; lia).
  - f_equal. apply code_inj. lia.
  - assert (JS.code a1 = JS.code b1) by lia.
    assert (JS.code a2 = JS.code b2) by lia.
    f_equal; [apply code_inj; assumption|]. f_equal. apply code_inj. assumption.
  - assert (JS.code a1 = JS.code b1) by lia.
    assert (JS.code a2 = JS.code b2) by lia.
    assert (JS.code a3 = JS.code b3) by lia.
    f_equal; [apply code_inj; assumption|].
    f_equal; [apply code_inj; assumption|]. f_equal. apply code_inj. assumption.
Qed.

(** What the validator of [src/_worker.js] grants about the groups of a
    candidate it accepts. *)
Lemma Worker_valid_groups (a : string) :
  digitGroups a = true ->
  Worker.isValidIPv4 a = true ->
  length (JS.split "." a) = 4%nat
  /\ Forall (fun g => decimalGroup g = true /\ groupValue g <= 255
                      /\ JS.startsWith g "0" && (1 <? String.length g)%nat = false)
       (JS.split "." a).
Proof.
  intros Hd Hv.
  destruct (digitGroups_parts a Hd) as (g1 & g2 & g3 & g4 & E & D1 & D2 & D3 & D4).
  unfold Worker.isValidIPv4 in Hv. rewrite E in *. cbv zeta in Hv.
  change (negb (List.length [g1; g2; g3; g4] =? 4)%nat) with false in Hv. cbv iota in Hv.
  destruct (forallb Worker.partOk [g1; g2; g3; g4]) eqn:Hf; [|discriminate Hv].
  cbn [forallb] in Hf. rewrite !partOk_group in Hf by assumption.
  rewrite D1, D2, D3, D4 in Hf. cbn [andb] in Hf.
  repeat (apply andb_true_iff in Hf; destruct Hf as [? Hf]).
  repeat match goal with
    | H : _ && negb _ = true |- _ =>
        apply andb_true_iff in H; destruct H as [?%Z.leb_le ?%negb_true_iff]
    end.
  split; [reflexivity|].
  repeat (apply List.Forall_cons; [repeat split; assumption|]). apply List.Forall_nil.
Qed.

(** X19. No two addresses in the list of [src/_worker.js] denote the same
    four numbers: two entries with the same numbers are the same text. *)
Theorem worker_addresses_differ_in_number (fetched : string -> FetchOutcome)
  (a b : string) :
  In a (uniqueIPs (Worker.updateAllIPs fetched)) ->
  In b (uniqueIPs (Worker.updateAllIPs fetched)) ->
  octets a = octets b ->
  a = b.
Proof.
  intros Ha Hb E.
  apply (collect_In MainWorker fetched Worker.urls a) in Ha.
  apply (collect_In MainWorker fetched Worker.urls b) in Hb.
  destruct Ha as (Va & _ & ta & _ & _ & Ma). destruct Hb as (Vb & _ & tb & _ & _ & Mb).
  cbn [isValidIPv4_of] in *.
  destruct (Worker_valid_groups a (candidate_digitGroups ta a Ma) Va) as [La Fa].
  destruct (Worker_valid_groups b (candidate_digitGroups tb b Mb) Vb) as [Lb Fb].
  rewrite <- (join_split a), <- (join_split b). f_equal.
  unfold octets in E.
  destruct (JS.split "." a) as [|g1 [|g2 [|g3 [|g4 [|]]]]]; try discriminate La.
  destruct (JS.split "." b) as [|h1 [|h2 [|h3 [|h4 [|]]]]]; try discriminate Lb.
  cbn [map] in E. injection E as E1 E2 E3 E4.
  repeat match goal with
    | H : Forall _ (_ :: _) |- _ => apply List.Forall_cons_iff in H; destruct H as [(? & ? & ?) H]
    end.
  repeat f_equal; apply small_group_inj; assumption.
Qed.

(** ** A live session at the gate *)

(** X21. A live session is enough: a request that presents the identifier of
    a stored session passes the gate of each script whatever the token
    record says, and the record, with its [lastUsed], the sessions, the
    ranking and the clock stay as they were. *)
Theorem session_admits_and_spares_the_token (script : Script) (request : Request)
  (env : Env) (w : World) (sid : string) :
  presentsSession script request sid = true ->
  JS.truthy (kv_sessions w !! ("session_" ++ sid)) = true ->
  faults w = [] ->
  fst (verifyAdmin_of script request env w) = Returned true
  /\ kv_token_config (snd (verifyAdmin_of script request env w)) = kv_token_config w
  /\ sameFrame w (snd (verifyAdmin_of script request env w)).
Proof.
  intros Hp Hl Hf.
  destruct (verifyAdmin_by_session script request env w sid Hp Hl Hf) as [R T].
  split; [exact R|]. split; [exact T|]. apply verifyAdmin_frame.
Qed.

(** X22. A stale [session] parameter shadows a live bearer session in the
    rewrites: a request whose [Authorization] header carries a live session
    and whose query carries a [session] parameter that is not live passes
    the gate of [src/_worker.js], which looks the header up first, and is
    refused by the rewrites, which read the header only when the parameter
    is empty. *)
Theorem stale_parameter_shadows_the_header (request : Request) (env : Env)
  (w : World) (q h : string) :
  JS.truthy (ADMIN_PASSWORD env) = true ->
  searchParams_get (searchParams request) "session" = Some q ->
  q <> "" ->
  JS.truthy (kv_sessions w !! ("session_" ++ q)) = false ->
  bearerSession request = Some h ->
  JS.truthy (kv_sessions w !! ("session_" ++ h)) = true ->
  (forall cfg, kv_token_config w = Some cfg ->
               JS.strictEq (Part000.presentedToken request) (Some (token cfg)) = false) ->
  faults w = [] ->
  fst (Worker.verifyAdmin request env w) = Returned true
  /\ fst (Part000.verifyAdmin request env w) = Returned false
  /\ fst (Part001.verifyAdmin request env w) = Returned false.
Proof.
  intros Hpw Hq Hne Hstale Hb Hlive Htok Hf.
  split.
  - apply (verifyAdmin_session MainWorker request env w h); [|exact Hlive | exact Hf].
    cbn [presentsSession]. rewrite Hb. cbn [JS.strictEq]. rewrite String.eqb_refl.
    reflexivity.
  - assert (T : JS.truthy (Some q) = true) by (destruct q; [congruence | reflexivity]).
    assert (P : Part000.presentedSession request = Some q).
    { unfold Part000.presentedSession, JS.orElse. rewrite Hq, T. reflexivity. }
    destruct w as [ss tc fi t fl th]. cbn in Hf, Hstale, Htok. subst fl.
    assert (R : post (Part000.checkCredentials request) (mkWorld ss tc fi t [] th)
                  (fun r _ => r = Returned false)).
    { unfold Part000.checkCredentials, Part000.checkSession, Part000.checkToken,
        Part000.getTokenConfig.
      rewrite P, T.
      repeat calm_step; try reflexivity.
      all: unfold passed, set_faults in *;
        cbn [kv_sessions kv_token_config kv_fast_ips now faults thrown] in *;
        try congruence.
      all: match goal with
           | E : JS.strictEq _ (Some (token ?c)) = true |- _ =>
               rewrite (Htok c) in E by congruence; discriminate E
           end. }
    unfold post in R.
    split.
    + unfold Part000.verifyAdmin, try_catch. rewrite Hpw. cbn [negb].
      destruct (Part000.checkCredentials request (mkWorld ss tc fi t [] th)) as [r w'].
      cbn [fst] in R. subst r. reflexivity.
    + unfold Part001.verifyAdmin. rewrite Hpw. cbn [negb]. exact R.
Qed.

(** ** The update of the rewrites *)

(** The harvest of a rewrite, stored and ranked in a namespace that does
    not fail. *)
Lemma rewrite_store_and_rank (script : Script) (fetched : string -> FetchOutcome)
  (probe : string -> ProbeOutcome) (w : World) (d : option StoredIPs) :
  script <> MainWorker ->
  faults w = [] ->
  let harvest := updateAllIPs_of script fetched in
  let record :=
    mkStoredIPs (uniqueIPs harvest) (Some (now w))
      (List.length (uniqueIPs harvest)) (results harvest) in
  exists w',
    put_cloudflare_ips record (mkSite w d) = (Returned tt, mkSite w (Some record))
    /\ autoSpeedTestAndStore_of script probe (uniqueIPs harvest) w = (Returned tt, w')
    /\ faults w' = [] /\ now w' = now w
    /\ kv_sessions w' = kv_sessions w /\ kv_token_config w' = kv_token_config w
    /\ exists fs,
         kv_fast_ips w' = Some fs
         /\ fastIPs fs = ranked script probe (uniqueIPs harvest)
         /\ count fs = List.length (fastIPs fs).
Proof.
  intros Hs Hf harvest record.
  destruct (autoSpeedTestAndStore_run script probe (uniqueIPs harvest) w)
    as (tested & total & R); [intros ->; contradiction | rewrite Hf; reflexivity |].
  rewrite R. eexists. split; [|split; [reflexivity|]].
  - destruct w as [ss tc fi t fl th]. cbn in Hf. subst fl.
    unfold put_cloudflare_ips, next, lift, storage. reflexivity.
  - unfold set_fast_ips, passed, set_faults.
    cbn [faults now kv_sessions kv_token_config kv_fast_ips]. rewrite Hf.
    repeat split. eexists. split; [reflexivity|]. split; reflexivity.
Qed.

(** X23. [/update] by a method other than POST: [src/_worker.js] answers 405
    and leaves the namespace alone, whoever asks; in the rewrites an
    admitted caller starts the harvest with it, and when the namespace does
    not fail the list and its ranking are stored.  [part_000] answers with
    the reports of the sources, [part_001] answers before the ranking
    runs. *)
Theorem update_by_get (script : Script) (isoText : Z -> string)
  (random : Entropy) (fetched : string -> FetchOutcome)
  (probe : string -> ProbeOutcome) (request : Request) (login : LoginBody)
  (env : Env) (s : Site) :
  IP_STORAGE_bound env = true ->
  method request <> "OPTIONS" ->
  method request <> "POST" ->
  pathname request = "/update" ->
  let harvest := updateAllIPs_of script fetched in
  let total := List.length (uniqueIPs harvest) in
  let record :=
    mkStoredIPs (uniqueIPs harvest) (Some (now (site_world s))) total
      (results harvest) in
  let run := serve_of script isoText random fetched probe request login env s in
  match script with
  | MainWorker =>
      run = (Returned (Some (mkReply 405 (Json (ErrorBody MethodNotAllowed)))), s)
  | Rewrite000 | Rewrite001 =>
      fst (verifyAdmin_of script request env (site_world s)) = Returned true ->
      faults (site_world s) = [] ->
      fst run
      = Returned
          (Some (mkReply 200
                   (match script with
                    | Rewrite001 => StartedBody total (now (site_world s))
                    | _ => UpdatedBody total (now (site_world s)) (results harvest)
                    end)))
      /\ kv_cloudflare_ips (snd run) = Some record
      /\ exists fs,
           kv_fast_ips (site_world (snd run)) = Some fs
           /\ fastIPs fs = ranked script probe (uniqueIPs harvest)
  end.
Proof.
  intros Hb Ho Hm Hp harvest total record run. subst run.
  destruct (String.eqb_spec (method request) "OPTIONS") as [|_]; [contradiction|].
  destruct (String.eqb_spec (method request) "POST") as [|_]; [contradiction|].
  destruct script; cbn [serve_of verifyAdmin_of].
  - unfold WorkerRoutes.fetch, next, attempt, done.
    rewrite Hb, Hp.
    destruct (String.eqb_spec (method request) "OPTIONS") as [|_]; [contradiction|].
    destruct (String.eqb_spec (method request) "POST") as [|_]; [contradiction|].
    reflexivity.
  - intros Ha Hf.
    pose proof (verifyAdmin_quiet Rewrite000 request env (site_world s) Hf) as Q.
    destruct (verifyAdmin_frame Rewrite000 request env (site_world s)) as (Fs & Ff & Fn).
    cbn [verifyAdmin_of] in Q, Fs, Ff, Fn.
    destruct (Part000.verifyAdmin request env (site_world s)) as [r w1] eqn:EV.
    cbn [fst snd] in Ha, Q, Fs, Ff, Fn. subst r.
    destruct (rewrite_store_and_rank Rewrite000 fetched probe w1 (kv_cloudflare_ips s))
      as (w' & P & R & Hf' & Hn' & _ & _ & fs & K & Hr & _); [discriminate | exact Q |].
    cbn [updateAllIPs_of autoSpeedTestAndStore_of] in P, R.
    rewrite Fn in P.
    assert (E : Part000Routes.fetch random fetched probe request login env s
                = (Returned (Some (mkReply 200
                                     (UpdatedBody total (now (site_world s))
                                        (results harvest)))),
                   mkSite w' (Some record))).
    { unfold Part000Routes.fetch. rewrite Hb, Hp.
      destruct (String.eqb_spec (method request) "OPTIONS") as [|_]; [contradiction|].
      cbn [negb String.eqb Ascii.eqb Bool.eqb]. cbv zeta iota.
      unfold Part000Routes.handleUpdate, attempt, next, lift at 1.
      rewrite EV. cbn [negb].
      unfold lift at 1, Date_now. cbn [site_world kv_cloudflare_ips].
      rewrite Fn, P. unfold lift at 1. cbn [site_world kv_cloudflare_ips]. rewrite R.
      unfold lift, Date_now, done. cbn [site_world kv_cloudflare_ips].
      rewrite Hn', Fn. reflexivity. }
    rewrite E. cbn [fst snd kv_cloudflare_ips site_world].
    split; [reflexivity|]. split; [reflexivity|].
    exists fs. split; assumption.
  - intros Ha Hf.
    pose proof (verifyAdmin_quiet Rewrite001 request env (site_world s) Hf) as Q.
    destruct (verifyAdmin_frame Rewrite001 request env (site_world s)) as (Fs & Ff & Fn).
    cbn [verifyAdmin_of] in Q, Fs, Ff, Fn.
    destruct (Part001.verifyAdmin request env (site_world s)) as [r w1] eqn:EV.
    cbn [fst snd] in Ha, Q, Fs, Ff, Fn. subst r.
    destruct (rewrite_store_and_rank Rewrite001 fetched probe w1 (kv_cloudflare_ips s))
      as (w' & P & R & Hf' & Hn' & _ & _ & fs & K & Hr & _); [discriminate | exact Q |].
    cbn [updateAllIPs_of autoSpeedTestAndStore_of] in P, R.
    rewrite Fn in P.
    assert (E : Part001Routes.serve random fetched probe request login env s
                = (Returned (Some (mkReply 200 (StartedBody total (now (site_world s))))),
                   mkSite w' (Some record))).
    { unfold Part001Routes.serve, Part001Routes.fetch. rewrite Hb, Hp.
      destruct (String.eqb_spec (method request) "OPTIONS") as [|_]; [contradiction|].
      cbn [negb String.eqb Ascii.eqb Bool.eqb]. cbv zeta iota.
      unfold Part001Routes.handleUpdate, attempt, next, lift at 1.
      rewrite EV. cbn [negb].
      unfold lift at 1, Date_now. cbn [site_world kv_cloudflare_ips].
      rewrite Fn, P. unfold lift at 1, done. cbn [site_world kv_cloudflare_ips fst snd].
      cbn [Part001Routes.settle]. unfold next, lift, try_catch, done.
      cbn [site_world kv_cloudflare_ips]. rewrite R. rewrite Fn. reflexivity. }
    rewrite E. cbn [fst snd kv_cloudflare_ips site_world].
    split; [reflexivity|]. split; [reflexivity|].
    exists fs. split; assumption.
Qed.

(** The ranking run when its write throws: nothing is stored. *)
Lemma autoSpeedTestAndStore_fails (script : Script) (probe : string -> ProbeOutcome)
  (ips : list string) (w : World) :
  (script = MainWorker -> ips <> []) ->
  hd false (faults w) = true ->
  autoSpeedTestAndStore_of script probe ips w = (Threw "KV", failed w).
Proof.
  intros Hne Hf.
  assert (Hs : forall f, put_fast_ips f w = (Threw "KV", failed w)).
  { intros f. unfold put_fast_ips, storage, failed.
    destruct (faults w) as [|[] rest]; cbn in Hf; try discriminate; reflexivity. }
  destruct script; cbn [autoSpeedTestAndStore_of].
  - unfold Worker.autoSpeedTestAndStore.
    destruct ips as [|a ips]; [exfalso; apply Hne; reflexivity|].
    cbn [List.length Nat.eqb]. cbv zeta. unfold bind, Date_now. rewrite Hs. reflexivity.
  - unfold Part000.autoSpeedTestAndStore. cbv zeta. unfold bind, Date_now.
    rewrite Hs. reflexivity.
  - unfold Part001.autoSpeedTestAndStore. cbv zeta. unfold bind, Date_now.
    rewrite Hs. reflexivity.
Qed.

(** X24. When the write of the ranking throws after the list has been written,
    the list of the update stays stored and the ranking of before stays in
    place, and the scripts answer differently: [src/_worker.js] and
    [part_000] answer 500, [part_001], which ranks after the response, has
    answered 200. *)
Theorem ranking_write_fails_after_the_list (script : Script) (isoText : Z -> string)
  (random : Entropy) (fetched : string -> FetchOutcome)
  (probe : string -> ProbeOutcome) (request : Request) (login : LoginBody)
  (env : Env) (s : Site) (w1 : World) (rest : list bool) :
  IP_STORAGE_bound env = true ->
  method request = "POST" ->
  pathname request = "/update" ->
  verifyAdmin_of script request env (site_world s) = (Returned true, w1) ->
  faults w1 = false :: true :: rest ->
  let harvest := updateAllIPs_of script fetched in
  let total := List.length (uniqueIPs harvest) in
  (script = MainWorker -> uniqueIPs harvest <> []) ->
  let run := serve_of script isoText random fetched probe request login env s in
  fst run
  = Returned
      (Some (match script with
             | MainWorker => mkReply 500 (UpdateFailedBody "KV")
             | Rewrite000 => mkReply 500 (Json (ErrorBody (ErrorMessage "KV")))
             | Rewrite001 => mkReply 200 (StartedBody total (now (site_world s)))
             end))
  /\ kv_cloudflare_ips (snd run)
     = Some (mkStoredIPs (uniqueIPs harvest) (Some (now (site_world s))) total
               (results harvest))
  /\ kv_fast_ips (site_world (snd run)) = kv_fast_ips (site_world s).
Proof.
  intros Hb Hm Hp EV Hf harvest total Hne run. subst run.
  destruct (verifyAdmin_frame script request env (site_world s)) as (_ & Ff & Fn).
  rewrite EV in Ff, Fn. cbn [snd] in Ff, Fn.
  set (record := mkStoredIPs (uniqueIPs harvest) (Some (now (site_world s))) total
                   (results harvest)).
  assert (P : put_cloudflare_ips record (mkSite w1 (kv_cloudflare_ips s))
              = (Returned tt, mkSite (passed w1) (Some record))).
  { unfold put_cloudflare_ips, next, lift, storage, passed.
    cbn [site_world kv_cloudflare_ips]. rewrite Hf. reflexivity. }
  assert (Hf1 : hd false (faults (passed w1)) = true).
  { unfold passed, set_faults. cbn [faults]. rewrite Hf. reflexivity. }
  pose proof (autoSpeedTestAndStore_fails script probe (uniqueIPs harvest) (passed w1)
                Hne Hf1) as R.
  assert (Hk : kv_fast_ips (failed (passed w1)) = kv_fast_ips (site_world s)).
  { unfold failed, raise_fault, passed, set_faults. cbn [kv_fast_ips]. exact Ff. }
  destruct script; cbn [serve_of verifyAdmin_of updateAllIPs_of autoSpeedTestAndStore_of] in *.
  - assert (E : WorkerRoutes.fetch isoText random fetched probe request login env s
                = (Returned (mkReply 500 (UpdateFailedBody "KV")),
                   mkSite (failed (passed w1)) (Some record))).
    { unfold WorkerRoutes.fetch. rewrite Hb, Hp, Hm.
      cbn [negb String.eqb Ascii.eqb Bool.eqb]. cbv zeta iota.
      unfold WorkerRoutes.handleUpdate, attempt, next, lift at 1.
      rewrite EV. cbn [negb]. rewrite Hb. cbn [negb].
      unfold WorkerRoutes.collectAndStore, next, lift at 1, Date_now.
      cbn [site_world kv_cloudflare_ips]. fold harvest. fold total. rewrite Fn.
      fold record. rewrite P. unfold lift at 1. cbn [site_world kv_cloudflare_ips].
      rewrite R. reflexivity. }
    unfold next. rewrite E. unfold done. cbn [fst snd kv_cloudflare_ips site_world].
    repeat split. exact Hk.
  - assert (E : Part000Routes.fetch random fetched probe request login env s
                = (Returned (Some (mkReply 500 (Json (ErrorBody (ErrorMessage "KV"))))),
                   mkSite (failed (passed w1)) (Some record))).
    { unfold Part000Routes.fetch. rewrite Hb, Hp, Hm.
      cbn [negb String.eqb Ascii.eqb Bool.eqb]. cbv zeta iota.
      unfold Part000Routes.handleUpdate, attempt, next, lift at 1.
      rewrite EV. cbn [negb].
      unfold lift at 1, Date_now.
      cbn [site_world kv_cloudflare_ips]. fold harvest. fold total. rewrite Fn.
      fold record. rewrite P. unfold lift at 1. cbn [site_world kv_cloudflare_ips].
      rewrite R. reflexivity. }
    rewrite E. cbn [fst snd kv_cloudflare_ips site_world].
    repeat split. exact Hk.
  - assert (E : Part001Routes.serve random fetched probe request login env s
                = (Returned (Some (mkReply 200 (StartedBody total (now (site_world s))))),
                   mkSite (failed (passed w1)) (Some record))).
    { unfold Part001Routes.serve, Part001Routes.fetch. rewrite Hb, Hp, Hm.
      cbn [negb String.eqb Ascii.eqb Bool.eqb]. cbv zeta iota.
      unfold Part001Routes.handleUpdate, attempt, next, lift at 1.
      rewrite EV. cbn [negb].
      unfold lift at 1, Date_now.
      cbn [site_world kv_cloudflare_ips]. fold harvest. fold total. rewrite Fn.
      fold record. rewrite P. unfold lift at 1, done. cbn [site_world kv_cloudflare_ips fst snd].
      cbn [Part001Routes.settle]. unfold next, lift, try_catch, done, ret.
      cbn [site_world kv_cloudflare_ips]. rewrite R.
      unfold passed, set_faults. cbn [now]. rewrite Fn. reflexivity. }
    rewrite E. cbn [fst snd kv_cloudflare_ips site_world].
    repeat split. exact Hk.
Qed.

(** ** The speed test on request *)

(** X13. [/speedtest] asks for no credentials in any of the scripts: whatever
    the request carries besides its [ip] parameter, and whoever sends it,
    the address is probed and the namespace is not touched.
    [src/_worker.js] answers 200 for a response that is [ok] and 500
    otherwise; the rewrites always answer 200, [part_000] reporting a
    success for any response and [part_001] the [ok] of the response. *)
Theorem speedtest_is_open_to_all (script : Script) (isoText : Z -> string)
  (random : Entropy) (fetched : string -> FetchOutcome)
  (probe : string -> ProbeOutcome) (request : Request) (login : LoginBody)
  (env : Env) (s : Site) (address : string) :
  IP_STORAGE_bound env = true ->
  method request <> "OPTIONS" ->
  pathname request = "/speedtest" ->
  searchParams_get (searchParams request) "ip" = Some address ->
  address <> "" ->
  serve_of script isoText random fetched probe request login env s
  = (Returned
       (Some
          (match script, probe address with
           | MainWorker, Responded true _ =>
               mkReply 200 (SpeedTestBody true address (now (site_world s)))
           | MainWorker, _ =>
               mkReply 500 (SpeedTestBody false address (now (site_world s)))
           | Rewrite000, Responded _ elapsed => mkReply 200 (MeasuredBody true elapsed)
           | Rewrite001, Responded ok elapsed => mkReply 200 (MeasuredBody ok elapsed)
           | _, Failed message => mkReply 200 (ProbeFailedBody message)
           end)),
     s).
Proof.
  intros Hb Hm Hp Hi Ha.
  assert (T : JS.truthy (Some address) = true) by (destruct address; [congruence | reflexivity]).
  destruct s as [w d].
  destruct script; cbn [serve_of];
    unfold WorkerRoutes.fetch, Part000Routes.fetch, Part001Routes.serve,
      Part001Routes.fetch; rewrite Hb, Hp;
    (destruct (String.eqb_spec (method request) "OPTIONS") as [|_]; [contradiction|]);
    cbn [negb String.eqb Ascii.eqb Bool.eqb]; cbv zeta iota;
    unfold WorkerRoutes.handleSpeedTest, Part000Routes.handleSpeedTest,
      Part001Routes.handleSpeedTest; rewrite Hi, T; cbn [negb];
    unfold attempt, next, lift, bind, Date_now, ret, done, WorkerRoutes.reply;
    cbn [site_world kv_cloudflare_ips];
    destruct (probe address) as [[] t |]; reflexivity.
Qed.

(** ** The cron trigger *)

(** X16. The cron trigger never throws, in any of the scripts.  With the
    namespace unbound it does nothing; when the write of the list fails
    nothing is stored; and with no fault it stores the harvest as an update
    does. *)
Theorem scheduled_never_throws (script : Script) (fetched : string -> FetchOutcome)
  (probe : string -> ProbeOutcome) (env : Env) (s : Site) :
  exists s',
    scheduled_of script fetched probe env s = (Returned tt, s')
    /\ (IP_STORAGE_bound env = false -> s' = s)
    /\ (hd false (faults (site_world s)) = true -> sameRecords s s')
    /\ (IP_STORAGE_bound env = true -> faults (site_world s) = [] ->
        kv_cloudflare_ips s'
        = Some (mkStoredIPs (uniqueIPs (updateAllIPs_of script fetched))
                  (Some (now (site_world s)))
                  (List.length (uniqueIPs (updateAllIPs_of script fetched)))
                  (results (updateAllIPs_of script fetched)))).
Proof.
  destruct (IP_STORAGE_bound env) eqn:Hb.
  2:{ exists s. destruct script; cbn [scheduled_of];
        unfold WorkerRoutes.scheduled, Part000Routes.scheduled, Part001Routes.scheduled,
          attempt; rewrite Hb; cbn [negb];
        (split; [reflexivity|]); (split; [reflexivity|]);
        (split; [repeat split | discriminate]). }
  destruct script; cbn [scheduled_of updateAllIPs_of].
  - unfold WorkerRoutes.scheduled, attempt. rewrite Hb. cbn [negb].
    destruct (next (WorkerRoutes.collectAndStore fetched probe) (fun _ => done tt) s)
      as [[[] | e] s'] eqn:E.
    + exists s'. split; [reflexivity|]. split; [discriminate|]. split.
      * intros Hf. revert E. destruct s as [[ss tc fi t fl th] d].
        cbn [site_world faults] in Hf.
        destruct fl as [|[] rest]; cbn in Hf; try discriminate Hf.
        unfold WorkerRoutes.collectAndStore, next, lift, put_cloudflare_ips, next, lift,
          Date_now, storage. cbn. discriminate.
      * intros _ Hf. revert E. destruct s as [w d]. cbn [site_world] in *.
        destruct (collectAndStore_calm fetched probe w d Hf) as (w' & R & _).
        unfold next. rewrite R. unfold done. intros E. injection E as <-. reflexivity.
    + exists s'. split; [reflexivity|]. split; [discriminate|]. split.
      * intros Hf. revert E. destruct s as [[ss tc fi t fl th] d].
        cbn [site_world faults] in Hf.
        destruct fl as [|[] rest]; cbn in Hf; try discriminate Hf.
        unfold WorkerRoutes.collectAndStore, next, lift, put_cloudflare_ips, next, lift,
          Date_now, storage. cbn. intros E. injection E as _ <-. repeat split.
      * intros _ Hf. revert E. destruct s as [w d]. cbn [site_world] in *.
        destruct (collectAndStore_calm fetched probe w d Hf) as (w' & R & _).
        unfold next. rewrite R. discriminate.
  - unfold Part000Routes.scheduled, attempt. rewrite Hb. cbn [negb]. cbv zeta.
    match goal with |- exists s', (match ?m with _ => _ end) = _ /\ _ =>
      destruct m as [[[] | e] s'] eqn:E end.
    + exists s'. split; [reflexivity|]. split; [discriminate|]. split.
      * intros Hf. revert E. destruct s as [[ss tc fi t fl th] d].
        cbn [site_world faults] in Hf.
        destruct fl as [|[] rest]; cbn in Hf; try discriminate Hf.
        unfold next, lift, put_cloudflare_ips, next, lift, Date_now, storage.
        cbn. discriminate.
      * intros _ Hf. revert E. destruct s as [w d]. cbn [site_world] in *.
        destruct (rewrite_store_and_rank Rewrite000 fetched probe w d)
          as (w' & P & R & _); [discriminate | exact Hf |].
        cbn [updateAllIPs_of autoSpeedTestAndStore_of] in P, R.
        unfold next, lift at 1, Date_now. cbn [site_world kv_cloudflare_ips].
        rewrite P. unfold lift. cbn [site_world kv_cloudflare_ips]. rewrite R.
        intros E. injection E as <-. reflexivity.
    + exists s'. split; [reflexivity|]. split; [discriminate|]. split.
      * intros Hf. revert E. destruct s as [[ss tc fi t fl th] d].
        cbn [site_world faults] in Hf.
        destruct fl as [|[] rest]; cbn in Hf; try discriminate Hf.
        unfold next, lift, put_cloudflare_ips, next, lift, Date_now, storage.
        cbn. intros E. injection E as _ <-. repeat split.
      * intros _ Hf. revert E. destruct s as [w d]. cbn [site_world] in *.
        destruct (rewrite_store_and_rank Rewrite000 fetched probe w d)
          as (w' & P & R & _); [discriminate | exact Hf |].
        cbn [updateAllIPs_of autoSpeedTestAndStore_of] in P, R.
        unfold next, lift at 1, Date_now. cbn [site_world kv_cloudflare_ips].
        rewrite P. unfold lift. cbn [site_world kv_cloudflare_ips]. rewrite R.
        discriminate.
  - unfold Part001Routes.scheduled, attempt. rewrite Hb. cbn [negb]. cbv zeta.
    match goal with |- exists s', (match ?m with _ => _ end) = _ /\ _ =>
      destruct m as [[[] | e] s'] eqn:E end.
    + exists s'. split; [reflexivity|]. split; [discriminate|]. split.
      * intros Hf. revert E. destruct s as [[ss tc fi t fl th] d].
        cbn [site_world faults] in Hf.
        destruct fl as [|[] rest]; cbn in Hf; try discriminate Hf.
        unfold next, lift, put_cloudflare_ips, next, lift, Date_now, storage.
        cbn. discriminate.
      * intros _ Hf. revert E. destruct s as [w d]. cbn [site_world] in *.
        destruct (rewrite_store_and_rank Rewrite001 fetched probe w d)
          as (w' & P & R & _); [discriminate | exact Hf |].
        cbn [updateAllIPs_of autoSpeedTestAndStore_of] in P, R.
        unfold next, lift at 1, Date_now. cbn [site_world kv_cloudflare_ips].
        rewrite P. unfold lift. cbn [site_world kv_cloudflare_ips]. rewrite R.
        intros E. injection E as <-. reflexivity.
    + exists s'. split; [reflexivity|]. split; [discriminate|]. split.
      * intros Hf. revert E. destruct s as [[ss tc fi t fl th] d].
        cbn [site_world faults] in Hf.
        destruct fl as [|[] rest]; cbn in Hf; try discriminate Hf.
        unfold next, lift, put_cloudflare_ips, next, lift, Date_now, storage.
        cbn. intros E. injection E as _ <-. repeat split.
      * intros _ Hf. revert E. destruct s as [w d]. cbn [site_world] in *.
        destruct (rewrite_store_and_rank Rewrite001 fetched probe w d)
          as (w' & P & R & _); [discriminate | exact Hf |].
        cbn [updateAllIPs_of autoSpeedTestAndStore_of] in P, R.
        unfold next, lift at 1, Date_now. cbn [site_world kv_cloudflare_ips].
        rewrite P. unfold lift. cbn [site_world kv_cloudflare_ips]. rewrite R.
        discriminate.
Qed.

(** ** The page of [part_000] *)

(** X25. The page of [/] in [part_000] hands the stored token and the ranking
    to a stranger: with a password configured, a request that carries no
    live session and does not present the token is shown as logged out and
    without the token section, and yet the script of the page holds the
    token and the page lists the ranked addresses; unless the token has
    expired, a request that presents it passes the gate. *)
Theorem part_000_page_hands_the_token_to_strangers (random : Entropy)
  (fetched : string -> FetchOutcome) (probe : string -> ProbeOutcome)
  (request : Request) (login : LoginBody) (env : Env) (s : Site)
  (cfg : TokenConfig) :
  IP_STORAGE_bound env = true ->
  JS.truthy (ADMIN_PASSWORD env) = true ->
  method request = "GET" ->
  pathname request = "/" ->
  stranger Rewrite000 request (site_world s) ->
  kv_token_config (site_world s) = Some cfg ->
  faults (site_world s) = [] ->
  exists page,
    fst (Part000Routes.fetch random fetched probe request login env s)
    = Returned (Some (mkReply 200 (Page000Body page)))
    /\ home_isLoggedIn page = false
    /\ home_tokenSection page = None
    /\ home_currentToken page = token cfg
    /\ home_fastIPs page = WorkerRoutes.fastIPs_of (kv_fast_ips (site_world s))
    /\ (expired cfg (now (site_world s)) = false ->
        forall request2,
          presentsToken Rewrite000 request2 (token cfg) = true ->
          fst (Part000.verifyAdmin request2 env (site_world s)) = Returned true).
Proof.
  intros Hb Hpw Hm Hp Hs Hc Hf.
  pose proof (verifyAdmin_stranger Rewrite000 request env (site_world s) Hpw Hs) as V.
  pose proof (verifyAdmin_quiet Rewrite000 request env (site_world s) Hf) as Q.
  destruct (verifyAdmin_frame Rewrite000 request env (site_world s)) as (_ & Ff & _).
  unfold post in V. cbn [verifyAdmin_of] in V, Q, Ff.
  unfold Part000Routes.fetch. rewrite Hb, Hm, Hp.
  cbn [negb String.eqb Ascii.eqb Bool.eqb]. cbv zeta iota.
  unfold Part000Routes.serveHTML, attempt, next, Part000Routes.getStoredIPs,
    get_cloudflare_ips, next, Part000Routes.getStoredSpeedIPs, get_fast_ips.
  unfold lift at 1. rewrite (storage_calm _ _ _ Hf). unfold done.
  cbn [site_world kv_cloudflare_ips].
  unfold lift at 1. cbn [site_world kv_cloudflare_ips].
  rewrite (storage_calm _ _ _ Hf).
  unfold lift at 1. cbn [site_world kv_cloudflare_ips].
  destruct (Part000.verifyAdmin request env (site_world s)) as [r w1].
  cbn [fst snd] in V, Q, Ff.
  destruct V as ([-> | [H _]] & Hc1 & _); [|discriminate].
  unfold lift, Part000.getTokenConfig, get_token_config.
  cbn [site_world kv_cloudflare_ips]. rewrite (storage_calm _ _ _ Q), Hc1, Hc.
  cbn [fst].
  eexists. split; [reflexivity|].
  cbn [home_isLoggedIn home_tokenSection home_currentToken home_fastIPs].
  repeat (split; [reflexivity|]).
  intros He request2 Hp2.
  apply (verifyAdmin_admits Rewrite000 request2 env (site_world s) cfg Hc He Hp2 Hf).
Qed.

(** ** A read that fails *)

Lemma storage_faulty {A : Type} (read : World -> A) (write : World -> World)
  (w : World) :
  hd false (faults w) = true ->
  storage read write w = (Threw "KV", failed w).
Proof.
  intros Hf. unfold storage, failed.
  destruct (faults w) as [|[] rest]; cbn in Hf; try discriminate; reflexivity.
Qed.

(** X26. When the read of the list or of the ranking throws behind the gate,
    [src/_worker.js] answers 200 with a body that holds no address, as it
    does for a namespace with nothing stored, and the rewrites answer 500
    with the message of the error; the records stay as they were. *)
Theorem failing_read_by_script (script : Script) (isoText : Z -> string)
  (random : Entropy) (fetched : string -> FetchOutcome)
  (probe : string -> ProbeOutcome) (request : Request) (login : LoginBody)
  (env : Env) (s : Site) (w1 : World) :
  IP_STORAGE_bound env = true ->
  method request = "GET" ->
  In (pathname request) readingRoutes ->
  verifyAdmin_of script request env (site_world s) = (Returned true, w1) ->
  hd false (faults w1) = true ->
  let run := serve_of script isoText random fetched probe request login env s in
  (exists r,
     fst run = Returned (Some r)
     /\ match script with
        | MainWorker => reply_status r = 200 /\ holdsNoAddress (content r) = true
        | Rewrite000 | Rewrite001 =>
            r = mkReply 500 (Json (ErrorBody (ErrorMessage "KV")))
        end)
  /\ snd run = mkSite (failed w1) (kv_cloudflare_ips s).
Proof.
  intros Hb Hm Hp EV Hf run. subst run.
  unfold readingRoutes in Hp. cbn [In] in Hp.
  destruct script; cbn [serve_of verifyAdmin_of] in *.
  - unfold WorkerRoutes.fetch. rewrite Hb, Hm.
    cbn [negb String.eqb Ascii.eqb Bool.eqb]. cbv zeta iota.
    destruct Hp as [Hp | [Hp | [Hp | [Hp | [Hp | [Hp | []]]]]]];
      rewrite <- Hp; cbn [String.eqb Ascii.eqb Bool.eqb]; cbv iota;
      unfold WorkerRoutes.handleGetIPs, WorkerRoutes.handleRawIPs,
        WorkerRoutes.handleItdogData, WorkerRoutes.handleGetFastIPs,
        WorkerRoutes.handleGetFastIPsText, WorkerRoutes.getStoredIPs,
        WorkerRoutes.getStoredSpeedIPs, get_cloudflare_ips, get_fast_ips,
        attempt, next, lift, bind, try_catch;
      rewrite EV; cbn [negb site_world kv_cloudflare_ips]; rewrite Hb; cbn [negb];
      rewrite (storage_faulty _ _ _ Hf); unfold done, ret;
      cbn [fst snd site_world kv_cloudflare_ips];
      (split; [eexists; split; [reflexivity | split; reflexivity] | reflexivity]).
  - unfold Part000Routes.fetch. rewrite Hb, Hm.
    cbn [negb String.eqb Ascii.eqb Bool.eqb]. cbv zeta iota.
    destruct Hp as [Hp | [Hp | [Hp | [Hp | [Hp | [Hp | []]]]]]];
      rewrite <- Hp; cbn [String.eqb Ascii.eqb Bool.eqb]; cbv iota;
      unfold Part000Routes.handleGetIPs, Part000Routes.handleRawIPs,
        Part000Routes.handleItdogData, Part000Routes.handleGetFastIPs,
        Part000Routes.handleGetFastIPsText, Part000Routes.getStoredIPs,
        Part000Routes.getStoredSpeedIPs, get_cloudflare_ips, get_fast_ips,
        attempt, next, lift, bind;
      rewrite EV; cbn [negb site_world kv_cloudflare_ips];
      rewrite (storage_faulty _ _ _ Hf); unfold done;
      cbn [fst snd site_world kv_cloudflare_ips];
      (split; [eexists; split; reflexivity | reflexivity]).
  - unfold Part001Routes.serve, Part001Routes.fetch. rewrite Hb, Hm.
    cbn [negb String.eqb Ascii.eqb Bool.eqb]. cbv zeta iota.
    destruct Hp as [Hp | [Hp | [Hp | [Hp | [Hp | [Hp | []]]]]]];
      rewrite <- Hp; cbn [String.eqb Ascii.eqb Bool.eqb]; cbv iota;
      unfold Part001Routes.handleGetIPs, Part001Routes.handleRawIPs,
        Part001Routes.handleItdogData, Part001Routes.handleGetFastIPs,
        Part001Routes.handleGetFastIPsText, get_cloudflare_ips, get_fast_ips,
        attempt, next, lift, bind;
      rewrite EV; cbn [negb site_world kv_cloudflare_ips];
      rewrite (storage_faulty _ _ _ Hf); unfold done;
      cbn [fst snd site_world kv_cloudflare_ips Part001Routes.settle];
      (split; [eexists; split; reflexivity | reflexivity]).
Qed.

(** ** The logout *)

(** X27. Logging out ends no session: [/admin-logout] answers 200 in every
    script, whoever asks, without an operation of the namespace, so the
    session of the caller stays stored and a request that presents it
    passes the gate after the logout as it did before. *)
Theorem logout_keeps_the_session (script : Script) (isoText : Z -> string)
  (random : Entropy) (fetched : string -> FetchOutcome)
  (probe : string -> ProbeOutcome) (request : Request) (login : LoginBody)
  (env : Env) (s : Site) :
  IP_STORAGE_bound env = true ->
  method request <> "OPTIONS" ->
  pathname request = "/admin-logout" ->
  let run := serve_of script isoText random fetched probe request login env s in
  run = (Returned (Some (mkReply 200 LoggedOutBody)), s)
  /\ forall request2,
       verifyAdmin_of script request2 env (site_world (snd run))
       = verifyAdmin_of script request2 env (site_world s).
Proof.
  intros Hb Hm Hp run.
  assert (E : run = (Returned (Some (mkReply 200 LoggedOutBody)), s)).
  { subst run. destruct s as [w d].
    destruct script; cbn [serve_of];
      unfold WorkerRoutes.fetch, Part000Routes.fetch, Part001Routes.serve,
        Part001Routes.fetch; rewrite Hb, Hp;
      (destruct (String.eqb_spec (method request) "OPTIONS") as [|_]; [contradiction|]);
      reflexivity. }
  rewrite E. split; reflexivity.
Qed.

(** ** The pattern finds an address that stands apart *)

(** The greedy run of digits takes a whole group when what follows is no
    digit and the rest of the pattern succeeds from there. *)
Lemma digits_greedy (g rest : string) (k : bool -> string -> option string)
  (x : string) (prev : bool) :
  JS.allDigits 10 g = true ->
  (1 <= String.length g <= 3)%nat ->
  match rest with
  | String c _ => JS.isDigit c = false
  | EmptyString => True
  end ->
  k true rest = Some x ->
  JS.rmatch (JS.RRepeat 1 3 JS.RDigit) prev (g ++ rest) k = Some x.
Proof.
  intros Hd Hl Hr Hk.
  assert (None_rest : forall p k', JS.rmatch JS.RDigit p rest k' = None).
  { intros p k'. destruct rest as [|c r]; [reflexivity|]. cbn [JS.rmatch]. rewrite Hr.
    reflexivity. }
  destruct g as [|c1 [|c2 [|c3 [|c4 g]]]]; cbn [String.length] in Hl; try lia.
  - rewrite allDigits_cons in Hd. apply andb_true_iff in Hd. destruct Hd as [H1 _].
    rewrite string_app_cons, string_app_nil_l.
    cbn [JS.rmatch]. rewrite H1, (digit_isWordChar c1 H1).
    change (match rest with
            | String c s' => if JS.isDigit c then _ else None
            | EmptyString => None
            end) with (JS.rmatch JS.RDigit true rest
                         (fun p s' =>
                            match JS.rmatch JS.RDigit p s' (fun p0 s'0 => k p0 s'0) with
                            | Some r => Some r
                            | None => k p s'
                            end)).
    rewrite None_rest. exact Hk.
  - rewrite !allDigits_cons in Hd.
    apply andb_true_iff in Hd. destruct Hd as [H1 Hd].
    apply andb_true_iff in Hd. destruct Hd as [H2 _].
    rewrite !string_app_cons, string_app_nil_l.
    cbn [JS.rmatch]. rewrite H1, H2, (digit_isWordChar c2 H2).
    change (match rest with
            | String c s' => if JS.isDigit c then _ else None
            | EmptyString => None
            end) with (JS.rmatch JS.RDigit true rest (fun p0 s'0 => k p0 s'0)).
    rewrite None_rest, Hk. reflexivity.
  - rewrite !allDigits_cons in Hd.
    apply andb_true_iff in Hd. destruct Hd as [H1 Hd].
    apply andb_true_iff in Hd. destruct Hd as [H2 Hd].
    apply andb_true_iff in Hd. destruct Hd as [H3 _].
    rewrite !string_app_cons, string_app_nil_l.
    cbn [JS.rmatch]. rewrite H1, H2, H3, (digit_isWordChar c3 H3), Hk. reflexivity.
Qed.

Lemma rmatch_three (a : JS.regex) (prev : bool) (s : string)
  (k : bool -> string -> option string) :
  JS.rmatch (JS.RRepeat 3 3 a) prev s k
  = JS.rmatch a prev s
      (fun p1 s1 => JS.rmatch a p1 s1 (fun p2 s2 => JS.rmatch a p2 s2 k)).
Proof. reflexivity. Qed.

(** A group and its dot. *)
Lemma group_and_dot (g rest : string) (k : bool -> string -> option string)
  (x : string) (prev : bool) :
  JS.allDigits 10 g = true ->
  (1 <= String.length g <= 3)%nat ->
  k false rest = Some x ->
  JS.rmatch (JS.RSeq (JS.RRepeat 1 3 JS.RDigit) (JS.RLit ".")) prev
    (g ++ String "." rest) k = Some x.
Proof.
  intros Hd Hl Hk. rewrite rmatch_seq.
  apply digits_greedy; [exact Hd | exact Hl | reflexivity |].
  cbn [JS.rmatch]. exact Hk.
Qed.

Lemma nextIsWord_false_digit (after : string) :
  JS.nextIsWord after = false ->
  match after with
  | String c _ => JS.isDigit c = false
  | EmptyString => True
  end.
Proof.
  destruct after as [|c r]; [trivial|]. cbn [JS.nextIsWord]. unfold JS.isWordChar.
  destruct (JS.isDigit c); [discriminate | reflexivity].
Qed.

(** An attempt in front of an address that stands apart takes the
    address. *)
Lemma exec_at_finds (g1 g2 g3 g4 after : string) :
  Forall (fun g => JS.allDigits 10 g = true /\ (1 <= String.length g <= 3)%nat)
    [g1; g2; g3; g4] ->
  JS.nextIsWord after = false ->
  let m := g1 ++ String "." (g2 ++ String "." (g3 ++ String "." g4)) in
  JS.exec_at ipPattern false (m ++ after) = Some m.
Proof.
  intros F Ha m.
  apply List.Forall_cons_iff in F. destruct F as [[D1 L1] F].
  apply List.Forall_cons_iff in F. destruct F as [[D2 L2] F].
  apply List.Forall_cons_iff in F. destruct F as [[D3 L3] F].
  apply List.Forall_cons_iff in F. destruct F as [[D4 L4] _].
  assert (E : JS.rmatch ipPattern false (m ++ after) (fun _ rest => Some rest)
              = Some after).
  { unfold ipPattern. rewrite rmatch_seq, rmatch_boundary.
    assert (N : JS.nextIsWord (m ++ after) = true).
    { unfold m. rewrite string_app_assoc. apply nextIsWord_digits; [exact D1|].
      intros ->. cbn in L1. lia. }
    rewrite N. cbn [xorb]. rewrite rmatch_seq, rmatch_three.
    unfold m. rewrite !string_app_assoc, !string_app_cons, !string_app_assoc,
      !string_app_cons, !string_app_assoc.
    apply group_and_dot; [exact D1 | exact L1 |].
    apply group_and_dot; [exact D2 | exact L2 |].
    apply group_and_dot; [exact D3 | exact L3 |].
    rewrite rmatch_seq.
    apply digits_greedy; [exact D4 | exact L4 | apply nextIsWord_false_digit, Ha |].
    rewrite rmatch_boundary, Ha. reflexivity. }
  unfold JS.exec_at. rewrite E. rewrite string_length_app.
  replace (String.length m + String.length after - String.length after)%nat
    with (String.length m) by lia.
  rewrite substring_prefix. reflexivity.
Qed.

(** ** The scan reaches the address *)

Lemma leadsWith_more (n : nat) :
  forall a r, leadsWith n a = true -> leadsWith n (a ++ r) = true.
Proof.
  induction n as [|n IH]; intros a r H; [reflexivity|].
  destruct a as [|c a]; [discriminate H|].
  rewrite string_app_cons. cbn [leadsWith] in *.
  apply andb_true_iff in H. destruct H as [-> H]. apply IH, H.
Qed.

Lemma leadsWith_app (a b : string) :
  leadsWith (String.length a) a = true ->
  leadsWith (String.length b) b = true ->
  leadsWith (String.length (a ++ b)) (a ++ b) = true.
Proof.
  induction a as [|c a IH]; intros Ha Hb.
  - rewrite string_app_nil_l. exact Hb.
  - rewrite string_app_cons. cbn [String.length leadsWith] in *.
    apply andb_true_iff in Ha. destruct Ha as [-> Ha]. apply IH; assumption.
Qed.

Lemma leadsWith_digits (g : string) :
  JS.allDigits 10 g = true -> leadsWith (String.length g) g = true.
Proof.
  induction g as [|c g IH]; intros Hd; [reflexivity|].
  rewrite allDigits_cons in Hd. apply andb_true_iff in Hd. destruct Hd as [Hc Hg].
  cbn [String.length leadsWith]. unfold addressChar.
  rewrite Hc. cbn [orb andb]. apply IH, Hg.
Qed.

Lemma lang_leads (m : string) :
  lang ipPattern m -> forall r, leadsWith (String.length m) (m ++ r) = true.
Proof.
  intros L r. apply leadsWith_more.
  destruct (ipPattern_groups m L) as (g1 & g2 & g3 & g4 & -> & _ & F).
  apply List.Forall_cons_iff in F. destruct F as [(_ & D1 & _) F].
  apply List.Forall_cons_iff in F. destruct F as [(_ & D2 & _) F].
  apply List.Forall_cons_iff in F. destruct F as [(_ & D3 & _) F].
  apply List.Forall_cons_iff in F. destruct F as [(_ & D4 & _) _].
  change (String "." (g2 ++ String "." (g3 ++ String "." g4)))
    with ("." ++ (g2 ++ "." ++ (g3 ++ "." ++ g4))).
  repeat first [ apply leadsWith_digits; assumption
               | reflexivity
               | apply leadsWith_app ].
Qed.

(** A successful attempt starts on a digit, and the characters it passes
    are characters of an address. *)
Lemma exec_at_head (prev : bool) (c : ascii) (s m : string) :
  JS.exec_at ipPattern prev (String c s) = Some m ->
  JS.isDigit c = true /\ leadsWith (String.length m - 1) s = true.
Proof.
  intros H. apply exec_at_ipPattern in H. destruct H as (_ & L & rest & E & _).
  pose proof (lang_leads m L rest) as Hl.
  destruct (ipPattern_groups m L) as (g1 & g2 & g3 & g4 & Em & _ & F).
  apply List.Forall_cons_iff in F. destruct F as [(N1 & D1 & L1) _].
  destruct g1 as [|d g1]; [cbn in L1; lia|].
  rewrite allDigits_cons in D1. apply andb_true_iff in D1. destruct D1 as [Hd _].
  rewrite string_app_cons in Em.
  remember (g1 ++ String "." (g2 ++ String "." (g3 ++ String "." g4))) as tail.
  subst m. rewrite string_app_cons in E, Hl. injection E as -> ->.
  split; [exact Hd|].
  cbn [String.length leadsWith] in *.
  apply andb_true_iff in Hl. destruct Hl as [_ Hl].
  replace (S (String.length tail) - 1)%nat with (String.length tail) by lia.
  exact Hl.
Qed.

(** The scan comes to the address with nothing left to pass. *)
Lemma scan_finds (m after : string) :
  m <> "" ->
  JS.exec_at ipPattern false (m ++ after) = Some m ->
  forall before prev skip,
    (before = "" -> prev = false /\ skip = 0%nat) ->
    endsApart true before = true ->
    leadsWith skip (before ++ m ++ after) = true ->
    In m (JS.scan ipPattern prev skip (before ++ m ++ after)).
Proof.
  intros Hne Hm.
  induction before as [|c before IH]; intros prev skip H0 Ha Hl.
  - destruct (H0 eq_refl) as [-> ->]. rewrite string_app_nil_l.
    destruct m as [|d m']; [congruence|].
    rewrite string_app_cons in *. cbn [JS.scan]. rewrite Hm. left. reflexivity.
  - rewrite string_app_cons in *. cbn [JS.scan].
    assert (Last : before = "" -> JS.isWordChar c = false /\ addressChar c = false).
    { intros ->. cbn [endsApart] in Ha. apply andb_true_iff in Ha.
      destruct Ha as [Hw Hd]. apply negb_true_iff in Hw, Hd.
      split; [exact Hw|]. unfold addressChar. rewrite Hd.
      unfold JS.isWordChar in Hw. destruct (JS.isDigit c); [discriminate Hw | reflexivity]. }
    assert (Ha' : before <> "" -> endsApart true before = true).
    { intros Hb. destruct before as [|d b]; [congruence|]. exact Ha. }
    assert (Step : forall skip',
               (before = "" -> skip' = 0%nat) ->
               (before <> "" -> leadsWith skip' (before ++ m ++ after) = true) ->
               In m (JS.scan ipPattern (JS.isWordChar c) skip' (before ++ m ++ after))).
    { intros skip' Hz Hl'. destruct before as [|d b] eqn:Eb.
      - apply IH; [intros _; split; [apply Last; reflexivity | apply Hz; reflexivity]
                  | reflexivity |].
        rewrite (Hz eq_refl). reflexivity.
      - apply IH; [discriminate | apply Ha'; discriminate | apply Hl'; discriminate]. }
    destruct skip as [|n].
    + destruct (JS.exec_at ipPattern prev (String c (before ++ m ++ after)))
        as [m'|] eqn:E.
      * right. apply exec_at_head in E. destruct E as [Hd Hl'].
        apply Step; [|intros _; exact Hl'].
        intros Hb. destruct (Last Hb) as [_ Hc]. unfold addressChar in Hc.
        rewrite Hd in Hc. discriminate Hc.
      * apply Step; [reflexivity | reflexivity].
    + cbn [leadsWith] in Hl. apply andb_true_iff in Hl. destruct Hl as [Hc Hl].
      apply Step; [|intros _; exact Hl].
      intros Hb. destruct (Last Hb) as [_ Hc']. congruence.
Qed.

(** X20. An address that stands apart is harvested: when a source answers with
    a text in which four groups of one to three digits with dots between
    them come after the start of the text or a character that is neither a
    letter, a digit, an underscore nor a dot, and are followed by no letter,
    digit or underscore, the pattern finds them as one candidate, and when
    the validator of the script accepts the candidate it is in the list of
    the harvest. *)
Theorem address_apart_is_harvested (script : Script)
  (fetched : string -> FetchOutcome) (url before after g1 g2 g3 g4 : string) :
  Forall (fun g => JS.allDigits 10 g = true /\ (1 <= String.length g <= 3)%nat)
    [g1; g2; g3; g4] ->
  endsApart true before = true ->
  JS.nextIsWord after = false ->
  let m := g1 ++ String "." (g2 ++ String "." (g3 ++ String "." g4)) in
  In m (JS.String_match ipPattern (before ++ m ++ after))
  /\ (In url (sources_of script) ->
      fetched url = Fulfilled (before ++ m ++ after) ->
      isValidIPv4_of script m = true ->
      In m (uniqueIPs (updateAllIPs_of script fetched))).
Proof.
  intros F Hb Ha m.
  assert (Found : In m (JS.String_match ipPattern (before ++ m ++ after))).
  { unfold JS.String_match. apply scan_finds.
    - unfold m. apply List.Forall_cons_iff in F. destruct F as [[_ L1] _].
      destruct g1; [cbn in L1; lia | discriminate].
    - apply exec_at_finds; assumption.
    - intros _. split; reflexivity.
    - exact Hb.
    - reflexivity. }
  split; [exact Found|].
  intros Hu Hf Hv. rewrite updateAllIPs_collect. apply collect_In.
  split; [exact Hv|]. exists url, (before ++ m ++ after). auto.
Qed.

Lemma ranking_keeps_the_fastest_witness :
  exists fs,
    kv_fast_ips
      (snd (autoSpeedTestAndStore_of MainWorker crowdProbe crowd emptyWorld)) = Some fs
    /\ List.length (fastIPs fs) = 25%nat
    /\ crowdProbe "1.1.1.1" = Responded true 99
    /\ ~ In (mkLatencyResult "1.1.1.1" 99) (fastIPs fs)
    /\ Forall (fun e => latency e <= 99) (fastIPs fs).
Proof.
  destruct (ranking_keeps_the_fastest MainWorker crowdProbe crowd emptyWorld
              ltac:(intros _; discriminate) eq_refl)
    as (fs & K & F & _).
  assert (Out : ~ In (mkLatencyResult "1.1.1.1" 99) (fastIPs fs)).
  { vm_compute in K. injection K as <-. cbn [fastIPs In].
    intros H. repeat (destruct H as [H | H]; [discriminate H|]). exact H. }
  exists fs. split; [exact K|]. split.
  - vm_compute in K. injection K as <-. reflexivity.
  - split; [reflexivity|]. split; [exact Out|].
    apply List.Forall_forall. intros e He.
    apply (F e "1.1.1.1" 99 He);
      [vm_compute; left; reflexivity | reflexivity | intros _; discriminate | exact Out].
Defined.

Lemma token_handler_refuses_strangers_witness :
  fst (handleAdminToken_of MainWorker (rotation 30)
         secured (world ∅ freshToken []))
  = Returned (Respond (jsonResponse (ErrorBody NeedAdmin) 401))
  /\ kv_token_config
       (snd (handleAdminToken_of MainWorker (rotation 30)
               secured (world ∅ freshToken [])))
     = Some freshToken.
Proof.
  destruct (token_handler_refuses_strangers MainWorker (rotation 30) secured
              (world ∅ freshToken []) eq_refl
              ltac:(split; [reflexivity | right; reflexivity]))
    as ([R | [H _]] & K & _); [| discriminate H].
  split; [exact R | exact K].
Defined.

Lemma rotated_token_opens_the_gate_witness :
  exists cfg,
    kv_token_config
      (snd (handleAdminToken_of Rewrite000 (rotation 30) secured
              (world storedSession freshToken []))) = Some cfg
    /\ token cfg = "fresh"
    /\ expires cfg = 2592002000
    /\ fst (verifyAdmin_of Rewrite000
              (mkRequest "GET" "/ips" [("token", "fresh")] None None) secured
              (mkWorld ∅ (Some (set_lastUsed cfg 2500)) None 3000 [] 0))
       = Returned true.
Proof.
  destruct (rotated_token_opens_the_gate Rewrite000 (rotation 30) secured
              (world storedSession freshToken [])
              (mkTokenRequest (Some " fresh ") (Some 30) false) " fresh "
              (mkResponse 200
                 (TokenUpdatedBody (mkTokenConfig "fresh" 2592002000 2000 None false)))
              eq_refl eq_refl eq_refl eq_refl eq_refl)
    as (cfg & Hb & Hk & Ht & _ & _ & _ & He & Hg).
  exists cfg. split; [exact Hk|]. split; [exact Ht|].
  destruct (He eq_refl) as (d & Hd & E). injection Hd as <-.
  split; [exact E|].
  apply (Hg (mkRequest "GET" "/ips" [("token", "fresh")] None None)
            (mkWorld ∅ (Some (set_lastUsed cfg 2500)) None 3000 [] 0)
            (set_lastUsed cfg 2500));
    [reflexivity | reflexivity | reflexivity | reflexivity | reflexivity | reflexivity
    | right; rewrite E; vm_compute; discriminate].
Defined.

Lemma generateToken_shape_witness :
  String.length (generateToken_of Rewrite000 exampleDraws 0) = 32%nat
  /\ generateToken_of Rewrite000 exampleDraws 0 = "000102030405060708090a0b0c0d0e0f".
Proof.
  destruct (generateToken_shape Rewrite000 exampleDraws 0
              ltac:(intros k; unfold exampleDraws;
                    pose proof (Nat.mod_upper_bound k 62 ltac:(discriminate)); lia))
    as (L & _).
  split; [exact L | reflexivity].
Defined.

Lemma login_opens_a_session_witness :
  fst (handleAdminLogin_of MainWorker exampleISO exampleDraws loginRequest
         (Password (Some "hunter2")) secured emptyWorld)
  = Returned (mkReply 200
                (LoggedInBody "ghijklmnopqrstuvwxyz0123456789AB"
                   (mkTokenConfig "ABCDEFGHIJKLMNOPQRSTUVWXYZabcdef" 2592002000 2000
                      None false)))
  /\ fst (verifyAdmin_of MainWorker
            (mkRequest "GET" "/ips" [] (Some "Bearer ghijklmnopqrstuvwxyz0123456789AB")
               None)
            secured
            (set_session "session_other" "{}"
               (snd (handleAdminLogin_of MainWorker exampleISO exampleDraws loginRequest
                       (Password (Some "hunter2")) secured emptyWorld))))
     = Returned true.
Proof.
  destruct (login_opens_a_session MainWorker exampleISO exampleDraws loginRequest
              secured emptyWorld "hunter2" eq_refl eq_refl eq_refl eq_refl
              ltac:(vm_compute; split; discriminate))
    as (R & _ & _ & G).
  split; [exact R|].
  apply G; [vm_compute; reflexivity | reflexivity | reflexivity].
Defined.

Lemma login_needs_the_password_witness :
  snd (handleAdminLogin_of Rewrite001 exampleISO exampleDraws loginRequest
         (Password (Some "hunter3")) secured emptyWorld)
  = emptyWorld
  /\ fst (handleAdminLogin_of Rewrite001 exampleISO exampleDraws loginRequest
            (Password (Some "hunter3")) secured emptyWorld)
     = Returned (mkReply 401 (LoginRefusedBody WrongPassword)).
Proof.
  destruct (login_needs_the_password Rewrite001 exampleISO exampleDraws loginRequest
              (Password (Some "hunter3")) secured emptyWorld
              ltac:(right; right; discriminate))
    as (W & _).
  split; [exact W | reflexivity].
Defined.

Lemma protected_routes_refuse_strangers_witness :
  fst (serve_of Rewrite000 exampleISO exampleDraws exampleFetch exampleProbe
         (visitor "/update") Unreadable secured exampleSite)
  = Returned (Some (mkReply 401 (Json (ErrorBody NeedAdmin))))
  /\ kv_cloudflare_ips
       (snd (serve_of Rewrite000 exampleISO exampleDraws exampleFetch exampleProbe
               (visitor "/update") Unreadable secured exampleSite))
     = None.
Proof.
  destruct (protected_routes_refuse_strangers Rewrite000 exampleISO exampleDraws
              exampleFetch exampleProbe (visitor "/update") Unreadable secured
              exampleSite
              eq_refl eq_refl
              ltac:(cbn; tauto)
              ltac:(left; reflexivity)
              ltac:(intros H; discriminate H)
              ltac:(split; [reflexivity | right; reflexivity]))
    as ([R | [H _]] & K & _); [| discriminate H].
  split; [exact R | exact K].
Defined.

Lemma update_stores_what_the_lists_serve_witness :
  kv_cloudflare_ips
    (snd (WorkerRoutes.handleUpdate exampleFetch exampleProbe secured
            (admin "POST" "/update") exampleSite))
  = Some (mkStoredIPs ["1.1.1.1"; "2.2.2.2"] (Some 2000) 2
            (results (Worker.updateAllIPs exampleFetch)))
  /\ fst (WorkerRoutes.handleGetIPs secured (admin "GET" "/ips")
            (snd (WorkerRoutes.handleUpdate exampleFetch exampleProbe secured
                    (admin "POST" "/update") exampleSite)))
     = Returned (mkReply 200 (TextBody ("1.1.1.1" ++ LF ++ "2.2.2.2"))).
Proof.
  destruct (update_stores_what_the_lists_serve exampleFetch exampleProbe secured
              (admin "POST" "/update") exampleSite eq_refl eq_refl eq_refl)
    as (_ & K & _ & _ & L).
  split.
  - rewrite K. vm_compute. reflexivity.
  - destruct (L (admin "GET" "/ips") ltac:(vm_compute; reflexivity)) as (T & _).
    rewrite T. vm_compute. reflexivity.
Defined.

Lemma page_hands_the_token_to_strangers_witness :
  exists page,
    fst (WorkerRoutes.fetch exampleISO exampleDraws exampleFetch exampleProbe
           (visitor "/") Unreadable secured exampleSite)
    = Returned (mkReply 200 (PageBody page))
    /\ page_isLoggedIn page = false
    /\ page_fastLink page = "/fast-ips.txt?token=tok123".
Proof.
  destruct (page_hands_the_token_to_strangers exampleISO exampleDraws exampleFetch
              exampleProbe (visitor "/") Unreadable secured exampleSite freshToken
              eq_refl eq_refl eq_refl eq_refl
              ltac:(split; [reflexivity | right; reflexivity])
              eq_refl eq_refl)
    as (page & R & I & _ & _ & F & _).
  exists page. split; [exact R|]. split; [exact I|].
  rewrite F. reflexivity.
Defined.

Lemma speedtest_is_open_to_all_witness :
  fst (serve_of Rewrite000 exampleISO exampleDraws exampleFetch exampleProbe
         speedRequest Unreadable secured exampleSite)
  = Returned (Some (mkReply 200 (MeasuredBody true 40))).
Proof.
  rewrite (speedtest_is_open_to_all Rewrite000 exampleISO exampleDraws exampleFetch
             exampleProbe speedRequest Unreadable secured exampleSite "1.1.1.1"
             eq_refl ltac:(discriminate) eq_refl eq_refl ltac:(discriminate)).
  reflexivity.
Defined.

Lemma update_by_get_witness :
  fst (serve_of Rewrite001 exampleISO exampleDraws exampleFetch exampleProbe
         (admin "GET" "/update") Unreadable secured exampleSite)
  = Returned (Some (mkReply 200 (StartedBody 2 2000)))
  /\ kv_cloudflare_ips
       (snd (serve_of Rewrite001 exampleISO exampleDraws exampleFetch exampleProbe
               (admin "GET" "/update") Unreadable secured exampleSite))
     = Some (mkStoredIPs ["1.1.1.1"; "2.2.2.2"] (Some 2000) 2
               (results (Part001.updateAllIPs exampleFetch))).
Proof.
  destruct (update_by_get Rewrite001 exampleISO exampleDraws exampleFetch exampleProbe
              (admin "GET" "/update") Unreadable secured exampleSite
              eq_refl ltac:(discriminate) ltac:(discriminate) eq_refl
              ltac:(vm_compute; reflexivity) eq_refl)
    as (R & K & _).
  split.
  - rewrite R. vm_compute. reflexivity.
  - rewrite K. vm_compute. reflexivity.
Defined.

Lemma ranking_write_fails_after_the_list_witness :
  fst (serve_of Rewrite000 exampleISO exampleDraws exampleFetch exampleProbe
         (admin "POST" "/update") Unreadable secured faultySite)
  = Returned (Some (mkReply 500 (Json (ErrorBody (ErrorMessage "KV")))))
  /\ kv_cloudflare_ips
       (snd (serve_of Rewrite000 exampleISO exampleDraws exampleFetch exampleProbe
               (admin "POST" "/update") Unreadable secured faultySite))
     = Some (mkStoredIPs ["1.1.1.1"; "2.2.2.2"] (Some 2000) 2
               (results (Part000.updateAllIPs exampleFetch))).
Proof.
  destruct (ranking_write_fails_after_the_list Rewrite000 exampleISO exampleDraws
              exampleFetch exampleProbe (admin "POST" "/update") Unreadable secured
              faultySite (world storedSession freshToken [false; true]) []
              eq_refl eq_refl eq_refl ltac:(vm_compute; reflexivity) eq_refl
              ltac:(intros H; discriminate H))
    as (R & K & _).
  split.
  - exact R.
  - rewrite K. vm_compute. reflexivity.
Defined.

Lemma part_000_page_hands_the_token_to_strangers_witness :
  exists page,
    fst (Part000Routes.fetch exampleDraws exampleFetch exampleProbe
           (visitor "/") Unreadable secured exampleSite)
    = Returned (Some (mkReply 200 (Page000Body page)))
    /\ home_isLoggedIn page = false
    /\ home_currentToken page = "tok123".
Proof.
  destruct (part_000_page_hands_the_token_to_strangers exampleDraws exampleFetch
              exampleProbe (visitor "/") Unreadable secured exampleSite freshToken
              eq_refl eq_refl eq_refl eq_refl
              ltac:(split; [reflexivity | right; reflexivity])
              eq_refl eq_refl)
    as (page & R & I & _ & T & _).
  exists page. split; [exact R|]. split; [exact I | exact T].
Defined.

Lemma failing_read_by_script_witness :
  exists r,
    fst (serve_of MainWorker exampleISO exampleDraws exampleFetch exampleProbe
           (admin "GET" "/ips") Unreadable secured brokenSite)
    = Returned (Some r)
    /\ reply_status r = 200
    /\ content r = TextBody "".
Proof.
  destruct (failing_read_by_script MainWorker exampleISO exampleDraws exampleFetch
              exampleProbe (admin "GET" "/ips") Unreadable secured brokenSite
              (world storedSession freshToken [true])
              eq_refl eq_refl ltac:(cbn; tauto) ltac:(vm_compute; reflexivity) eq_refl)
    as ((r & R & S & _) & _).
  exists r. split; [exact R|]. split; [exact S|].
  vm_compute in R. injection R as <-. reflexivity.
Defined.

Lemma part_000_harvests_the_most_witness :
  In "2.2.2.2" (uniqueIPs (Part000.updateAllIPs exampleFetch)).
Proof.
  apply (part_000_harvests_the_most exampleFetch "2.2.2.2").
  left. vm_compute. right. left. reflexivity.
Defined.

Lemma worker_addresses_differ_in_number_witness :
  In "1.1.1.1" (uniqueIPs (Worker.updateAllIPs exampleFetch))
  /\ "1.1.1.1" = "1.1.1.1".
Proof.
  assert (H : In "1.1.1.1" (uniqueIPs (Worker.updateAllIPs exampleFetch)))
    by (vm_compute; left; reflexivity).
  split; [exact H|].
  apply (worker_addresses_differ_in_number exampleFetch "1.1.1.1" "1.1.1.1" H H eq_refl).
Defined.

Lemma address_apart_is_harvested_witness :
  In "1.1.1.1" (uniqueIPs (Worker.updateAllIPs exampleFetch)).
Proof.
  destruct (address_apart_is_harvested MainWorker exampleFetch
              "https://ip.haogege.xyz/" "<li>" "</li><li>1.1.1.1</li>" "1" "1" "1" "1"
              ltac:(repeat (apply List.Forall_cons;
                            [split; [reflexivity | cbn; lia]|]);
                    apply List.Forall_nil)
              eq_refl eq_refl)
    as [_ H].
  apply H; [cbn; tauto | reflexivity | reflexivity].
Defined.

Lemma session_admits_and_spares_the_token_witness :
  fst (verifyAdmin_of Rewrite000 tokenAndSessionRequest secured
         (world storedSession staleToken []))
  = Returned true
  /\ kv_token_config
       (snd (verifyAdmin_of Rewrite000 tokenAndSessionRequest secured
               (world storedSession staleToken [])))
     = Some staleToken.
Proof.
  destruct (session_admits_and_spares_the_token Rewrite000 tokenAndSessionRequest
              secured (world storedSession staleToken []) "abc"
              eq_refl eq_refl eq_refl)
    as (R & K & _).
  split; [exact R | exact K].
Defined.

Lemma ranking_routes_serve_the_ranking_witness :
  fst (WorkerRoutes.handleGetFastIPsText secured (admin "GET" "/fast-ips.txt")
         (snd (Worker.autoSpeedTestAndStore exampleProbe ["1.1.1.1"; "8.8.8.8"]
                 (world storedSession freshToken []))))
  = Returned (mkReply 200 (TextBody ("8.8.8.8#12ms" ++ LF ++ "1.1.1.1#40ms"))).
Proof.
  destruct (ranking_routes_serve_the_ranking exampleProbe ["1.1.1.1"; "8.8.8.8"]
              secured (admin "GET" "/fast-ips.txt") (world storedSession freshToken [])
              eq_refl ltac:(discriminate) eq_refl ltac:(vm_compute; reflexivity))
    as (fs & _ & _ & _ & T).
  rewrite T. vm_compute. reflexivity.
Defined.

Lemma Worker_isValidIPv4_rule_witness :
  Worker.isValidIPv4 "172.32.0.1" = true /\ isValid_spec "172.32.0.1" = true.
Proof.
  pose proof (Worker_isValidIPv4_rule "172.32.0.1" eq_refl) as E.
  split; [reflexivity | rewrite <- E; reflexivity].
Defined.

Lemma Worker_handleAdminToken_bounds_witness :
  exists e,
    fst (Worker.handleAdminToken (rotation 1000) secured
           (world storedSession freshToken []))
    = Returned (jsonResponse (ErrorBody e) 400)
    /\ snd (Worker.handleAdminToken (rotation 1000) secured
              (world storedSession freshToken []))
       = world storedSession freshToken [].
Proof.
  destruct (Worker_handleAdminToken_bounds (rotation 1000) secured
              (world storedSession freshToken []) (world storedSession freshToken [])
              (mkTokenRequest (Some " fresh ") (Some 1000) false) 1000
              eq_refl eq_refl eq_refl eq_refl eq_refl)
    as (B & _).
  destruct (B ltac:(right; lia)) as ((e & E) & W).
  exists e. split; [exact E | exact W].
Defined.

Lemma stale_parameter_shadows_the_header_witness :
  fst (Worker.verifyAdmin
         (mkRequest "GET" "/ips" [("session", "old")] (Some "Bearer abc") None)
         secured (world storedSession freshToken []))
  = Returned true
  /\ fst (Part000.verifyAdmin
            (mkRequest "GET" "/ips" [("session", "old")] (Some "Bearer abc") None)
            secured (world storedSession freshToken []))
     = Returned false.
Proof.
  destruct (stale_parameter_shadows_the_header
              (mkRequest "GET" "/ips" [("session", "old")] (Some "Bearer abc") None)
              secured (world storedSession freshToken []) "old" "abc"
              eq_refl eq_refl ltac:(discriminate) eq_refl eq_refl eq_refl
              ltac:(intros cfg H; injection H as <-; reflexivity) eq_refl)
    as (A & B & _).
  split; [exact A | exact B].
Defined.

Lemma logout_keeps_the_session_witness :
  serve_of MainWorker exampleISO exampleDraws exampleFetch exampleProbe
    (admin "POST" "/admin-logout") Unreadable secured exampleSite
  = (Returned (Some (mkReply 200 LoggedOutBody)), exampleSite)
  /\ fst (verifyAdmin_of MainWorker (admin "GET" "/ips") secured
            (site_world
               (snd (serve_of MainWorker exampleISO exampleDraws exampleFetch
                       exampleProbe (admin "POST" "/admin-logout") Unreadable secured
                       exampleSite))))
     = Returned true.
Proof.
  destruct (logout_keeps_the_session MainWorker exampleISO exampleDraws exampleFetch
              exampleProbe (admin "POST" "/admin-logout") Unreadable secured
              exampleSite eq_refl ltac:(discriminate) eq_refl)
    as (R & G).
  split; [exact R|].
  rewrite (G (admin "GET" "/ips")). vm_compute. reflexivity.
Defined.
